(** * Canteen ordering system: a shallow embedding of [app.py]

    The Flask application is modelled handler by handler.  A handler is a
    pure function from the request (session, HTTP method, form), the
    environment (wall clock, random source) and the database to a [reply]:
    the HTTP response, the flashed messages and the database after the
    commit.  Tables are finite maps from the integer primary key to the row.

    Python builtins that the handlers call ([str.strip], [float], [int],
    [datetime.strptime], [sum], [round], true division) are an interface,
    [PyBuiltins]; a theorem stated for any [PyBuiltins] holds for any
    implementation of it, and [cpython] is an executable implementation
    (white space of every script, digits and letters of ASCII), used to run
    the handlers on concrete requests and to check the arithmetic of the
    average.

    The store is the default SQLite file: it does not enforce the foreign
    key of [Feedback]; an integer it is handed must fit 64 bits
    ([sqlite_integer]), a NaN is refused by a NOT NULL column and a zero is
    kept without its sign ([store_real]).  No table holds a row whose id is
    outside 64 bits, so a lookup is modelled as the lookup in the map first
    and the test of the id when no row is found.  Strings are UTF-8 text.
    The clock is read once per request. *)

From Stdlib Require Import ZArith Lia Ascii PrimFloat SpecFloat FloatOps FloatAxioms.
From stdpp Require Import gmap strings list fin_maps sorting.

Open Scope string_scope.
Open Scope list_scope.
Open Scope Z_scope.

(** ** Python values *)

(** [datetime.time]: naive times compare as the tuples
    (hour, minute, second, microsecond). *)
Record time := mk_time {
  hour : nat;
  minute : nat;
  second : nat;
  microsecond : nat
}.

Definition time_leb (a b : time) : bool :=
  if (hour a <? hour b)%nat then true
  else if (hour b <? hour a)%nat then false
  else if (minute a <? minute b)%nat then true
  else if (minute b <? minute a)%nat then false
  else if (second a <? second b)%nat then true
  else if (second b <? second a)%nat then false
  else (microsecond a <=? microsecond b)%nat.

(** Microseconds since midnight. *)
Definition time_micros (t : time) : Z :=
  ((Z.of_nat (hour t) * 60 + Z.of_nat (minute t)) * 60 + Z.of_nat (second t)) * 1000000
  + Z.of_nat (microsecond t).

(** The fields are in the ranges of [datetime.time]. *)
Definition time_valid (t : time) : Prop :=
  Z.of_nat (hour t) < 24 /\ Z.of_nat (minute t) < 60 /\ Z.of_nat (second t) < 60
  /\ Z.of_nat (microsecond t) < 1000000.

(** [a < b] on times. *)
Definition time_ltb (a b : time) : bool := negb (time_leb b a).

(** The exceptions the handlers meet: the first two are Python's own, the
    other two are raised by the store's driver. *)
Inductive exn := ValueError | KeyError | IntegrityError | OverflowError.

(** The result of a Python call that may raise. *)
Inductive result (A : Type) :=
| Ok (a : A)
| Raise (e : exn).
Arguments Ok {A} a.
Arguments Raise {A} e.

(** Truth value of an optional string: [None] and [''] are falsy. *)
Definition truthy (o : option string) : bool :=
  match o with
  | Some s => negb (String.eqb s "")
  | None => false
  end.

(** The builtins the handlers call.  [strptime_HM s] is
    [datetime.strptime(s, "%H:%M").time()], [None] standing for the
    [ValueError] of a string that does not match; [py_float] and [py_int] are
    [float(s)] and [int(s)] on a string, [None] standing for [ValueError];
    [py_round2 x] is [round(x, 2)]; [int_truediv a b] is [a / b] on ints;
    [int_error s] is [str(e)] for the [ValueError] [e] that [int(s)]
    raises. *)
Class PyBuiltins := {
  str_strip : string -> string;
  py_float : string -> option float;
  py_int : string -> option Z;
  int_error : string -> string;
  strptime_HM : string -> option time;
  py_sum : list float -> float;
  py_round2 : float -> float;
  int_truediv : Z -> Z -> float
}.

(** ** Models (the SQLAlchemy tables) *)

Record MenuItem := mk_item {
  name : string;
  price : float;
  available : bool;
  available_from : option string;
  available_to : option string
}.

Record Order := mk_order {
  username : string;
  item_name : string;
  total_price : float;
  pickup_time : string;
  status : string;
  created_at : Z;
  payment_status : string;
  token : option string
}.

Record Feedback := mk_feedback {
  item_id : Z;
  fb_username : string;
  rating : Z;
  comment : option string;
  fb_created_at : Z
}.

(** The database: one finite map per table, keyed by the [id] column.  The
    [User] table is read and written by [register], [login] and [init_db]
    only, which take it as a map of its own; [site] below puts the four
    tables together. *)
Record database := mk_db {
  menu_items : gmap Z MenuItem;
  orders : gmap Z Order;
  feedbacks : gmap Z Feedback
}.

(** ** The store *)

(** The integers an INTEGER column, or a parameter of a query, holds: the
    driver raises [OverflowError] on any other. *)
Definition sqlite_integer (z : Z) : bool := (- 2 ^ 63 <=? z) && (z <? 2 ^ 63).

(** [str(e)] of that [OverflowError]. *)
Definition overflow_message : string :=
  "Python int too large to convert to SQLite INTEGER".

(** A float as a NOT NULL REAL column keeps it: a NaN is bound as NULL, which
    the column refuses ([None]); a zero comes back as [0.0] whatever its
    sign. *)
Definition store_real (x : float) : option float :=
  if PrimFloat.is_nan x then None
  else if PrimFloat.is_zero x then Some 0%float
  else Some x.

(** ** Helpers *)

Section Availability.
Context `{PyBuiltins}.

(** [in_availability(item)], with [cur = datetime.now().time()] passed in. *)
Definition in_availability (item : MenuItem) (cur : time) : result bool :=
  if negb (available item) then Ok false
  else if truthy (available_from item) && truthy (available_to item) then
    match strptime_HM (default "" (available_from item)) with
    | None => Raise ValueError
    | Some fr =>
      match strptime_HM (default "" (available_to item)) with
      | None => Raise ValueError
      | Some to =>
        if time_leb fr cur && time_leb cur to then Ok true else Ok false
      end
    end
  else Ok true.
End Availability.

(** ** Requests and replies *)

Inductive http_method := GET | POST.

(** What a handler reads from Flask's [request] and [session]. *)
Record request := mk_request {
  session : gmap string string;
  method : http_method;
  form : gmap string string
}.

(** What a handler reads from the outside world. *)
Record env := mk_env {
  now : time;                 (* datetime.now().time() *)
  utcnow : Z;                 (* datetime.utcnow(), the default of created_at *)
  random_index : nat -> nat   (* the index drawn by the i-th pick of random.choices *)
}.

(** Targets of [url_for]. *)
Inductive endpoint :=
| url_login
| url_student_dashboard
| url_menu
| url_order_form (item_id : Z)
| url_payment (order_id : Z)
| url_order_receipt (order_id : Z)
| url_admin_menu
| url_admin_orders.

Record menu_entry := mk_entry {
  item : Z * MenuItem;
  available_now : bool;
  avg_rating : option float
}.

(** Templates with their context. *)
Inductive view :=
| menu_html (items : list menu_entry)
| order_html (item : Z * MenuItem)
| payment_html (amount : float) (order : Z * Order)
| order_history_html (orders : list (Z * Order)) (total_spent : float)
| admin_menu_html (items : list (Z * MenuItem)).

Inductive json :=
| json_error (msg : string)
| json_ok.

Inductive response :=
| redirect (to : endpoint)
| render_template (v : view)
| jsonify (body : json) (code : nat)
| abort (code : nat)
| internal_server_error (e : exn).

(** The response, the messages flashed (message, category) and the database
    as the handler leaves it. *)
Record reply := mk_reply {
  resp : response;
  flashed : list (string * string);
  db_after : database
}.

Definition respond (r : response) (db : database) : reply :=
  mk_reply r [] db.

(** [Model.query.get_or_404(id)] when the table has no row [id]: a 404, and
    the driver's [OverflowError], unhandled, for an id the store cannot be
    asked about. *)
Definition get_or_404_miss (id : Z) : response :=
  if sqlite_integer id then abort 404 else internal_server_error OverflowError.

Definition flash_redirect (msg category : string) (to : endpoint) (db : database) : reply :=
  mk_reply (redirect to) [(msg, category)] db.

(** [request.form.get(key, '')] *)
Definition form_get (req : request) (key : string) : string :=
  default "" (form req !! key).

Definition is_logged_in (sess : gmap string string) : bool :=
  bool_decide (is_Some (sess !! "username")).

Definition is_admin (sess : gmap string string) : bool :=
  bool_decide (sess !! "role" = Some "admin").

(** [random.choices(population, k=k)]: k independent picks, the i-th at
    index [floor(random() * len(population))], which is below the length. *)
Definition random_choices (e : env) (population : list ascii) (k : nat) : list ascii :=
  map (fun i => nth (random_index e i mod length population)%nat population "A"%char)
      (seq 0%nat k).

Definition ascii_uppercase : string := "ABCDEFGHIJKLMNOPQRSTUVWXYZ".
Definition digits : string := "0123456789".

Definition gen_token (e : env) (n : nat) : string :=
  String.string_of_list_ascii
    (random_choices e (String.list_ascii_of_string (ascii_uppercase +:+ digits)) n).

(** The id the store gives a new row: one more than the largest in use. *)
Definition next_id {A} (t : gmap Z A) : Z :=
  1 + foldr Z.max 0 (elements (dom t)).

(** [query.all()]: the rows of a table with their ids. *)
Definition query_all {A} (t : gmap Z A) : list (Z * A) := map_to_list t.

Definition by_created_at_desc (a b : Z * Order) : Prop :=
  created_at b.2 <= created_at a.2.

Definition by_name (a b : Z * MenuItem) : Prop :=
  String.leb (name a.2) (name b.2) = true.

#[local] Instance by_created_at_desc_dec a b : Decision (by_created_at_desc a b).
Proof. unfold by_created_at_desc. apply _. Defined.

#[local] Instance by_name_dec a b : Decision (by_name a b).
Proof. unfold by_name. apply _. Defined.

(** [ORDER BY name] as the store answers it: by name, the rows of one name
    in the order of their ids. *)
Definition by_name_then_id (a b : Z * MenuItem) : Prop :=
  match String.compare (name a.2) (name b.2) with
  | Lt => True
  | Eq => a.1 <= b.1
  | Gt => False
  end.

#[local] Instance by_name_then_id_dec a b : Decision (by_name_then_id a b).
Proof. unfold by_name_then_id. destruct (String.compare _ _); apply _. Defined.

Definition set_status (s : string) (o : Order) : Order :=
  mk_order (username o) (item_name o) (total_price o) (pickup_time o)
           s (created_at o) (payment_status o) (token o).

Definition set_payment_status (s : string) (o : Order) : Order :=
  mk_order (username o) (item_name o) (total_price o) (pickup_time o)
           (status o) (created_at o) s (token o).

(** ** Routes *)

Section Routes.
Context `{PyBuiltins}.

(** Lines 172-175 of [menu]: [None], or the mean rounded to 2 places. *)
Definition average_rating (ratings : list (Z * Feedback)) : option float :=
  match ratings with
  | [] => None
  | _ => Some (py_round2
                 (int_truediv (foldr Z.add 0 (map (fun r => rating r.2) ratings))
                              (Z.of_nat (length ratings))))
  end.

Definition feedback_of (db : database) (id : Z) : list (Z * Feedback) :=
  filter (fun r => item_id r.2 = id) (query_all (feedbacks db)).

(** The body of the loop of [menu], for one item. *)
Definition menu_item_data (db : database) (cur : time) (it : Z * MenuItem)
  : result menu_entry :=
  match in_availability it.2 cur with
  | Raise e => Raise e
  | Ok a => Ok (mk_entry it a (average_rating (feedback_of db it.1)))
  end.

Fixpoint menu_loop (db : database) (cur : time) (items : list (Z * MenuItem))
  : result (list menu_entry) :=
  match items with
  | [] => Ok []
  | it :: rest =>
    match menu_item_data db cur it with
    | Raise e => Raise e
    | Ok d =>
      match menu_loop db cur rest with
      | Raise e => Raise e
      | Ok ds => Ok (d :: ds)
      end
    end
  end.

Definition menu (req : request) (e : env) (db : database) : reply :=
  match method req with
  | POST => respond (abort 405) db
  | GET =>
    if negb (is_logged_in (session req)) || is_admin (session req)
    then respond (redirect url_login) db
    else
      match menu_loop db (now e)
                      (merge_sort by_name_then_id (query_all (menu_items db))) with
      | Raise x => respond (internal_server_error x) db
      | Ok item_data => respond (render_template (menu_html item_data)) db
      end
  end.

Definition order_form (id : Z) (req : request) (e : env) (db : database) : reply :=
  if negb (is_logged_in (session req)) || is_admin (session req)
  then respond (redirect url_login) db
  else
    match menu_items db !! id with
    | None => respond (get_or_404_miss id) db
    | Some it =>
      match method req with
      | GET => respond (render_template (order_html (id, it))) db
      | POST =>
        match in_availability it (now e) with
        | Raise x => respond (internal_server_error x) db
        | Ok false =>
          flash_redirect "This item is not available at the selected time." "danger"
                         url_menu db
        | Ok true =>
          let time_val := str_strip (form_get req "order_time") in
          let ampm := str_strip (form_get req "order_ampm") in
          if String.eqb time_val "" || negb (bool_decide (ampm ∈ ["AM"; "PM"]))
          then flash_redirect "Please enter valid time and AM/PM" "danger"
                              (url_order_form id) db
          else
            match session req !! "username" with
            | None => respond (internal_server_error KeyError) db
            | Some u =>
              let pickup := time_val +:+ " " +:+ ampm in
              let new_order :=
                mk_order u (name it) (price it) pickup "Pending" (utcnow e)
                         "Unpaid" (Some (gen_token e 6)) in
              let new_id := next_id (orders db) in
              respond (redirect (url_payment new_id))
                      (mk_db (menu_items db)
                             (<[new_id := new_order]> (orders db))
                             (feedbacks db))
            end
        end
      end
    end.

Definition payment (id : Z) (req : request) (db : database) : reply :=
  if negb (is_logged_in (session req)) || is_admin (session req)
  then respond (redirect url_login) db
  else
    match orders db !! id with
    | None => respond (get_or_404_miss id) db
    | Some o =>
      match session req !! "username" with
      | None => respond (internal_server_error KeyError) db
      | Some u =>
        if negb (String.eqb (username o) u) && negb (is_admin (session req))
        then flash_redirect "Not authorized" "danger" url_student_dashboard db
        else
          match method req with
          | POST =>
            let method_name := default "None" (form req !! "method") in
            mk_reply (redirect (url_order_receipt id))
                     [("Payment successful via " +:+ method_name +:+ " (dummy).", "success")]
                     (mk_db (menu_items db)
                            (<[id := set_payment_status "Paid" o]> (orders db))
                            (feedbacks db))
          | GET => respond (render_template (payment_html (total_price o) (id, o))) db
          end
      end
    end.

(** [Order.query.filter_by(username=u).order_by(Order.created_at.desc()).all()] *)
Definition orders_of (db : database) (u : string) : list (Z * Order) :=
  merge_sort by_created_at_desc
             (filter (fun r => username r.2 = u) (query_all (orders db))).

(** Line 246 of [order_history]. *)
Definition total_spent_of (os : list (Z * Order)) : float :=
  py_sum (map (fun r => total_price r.2)
              (filter (fun r => payment_status r.2 = "Paid") os)).

Definition order_history (req : request) (db : database) : reply :=
  match method req with
  | POST => respond (abort 405) db
  | GET =>
    if negb (is_logged_in (session req)) || is_admin (session req)
    then respond (redirect url_login) db
    else
      match session req !! "username" with
      | None => respond (internal_server_error KeyError) db
      | Some u =>
        let os := orders_of db u in
        respond (render_template (order_history_html os (total_spent_of os))) db
      end
  end.

Definition cancel_order (id : Z) (req : request) (db : database) : reply :=
  match method req with
  | GET => respond (abort 405) db
  | POST =>
    if negb (is_logged_in (session req)) || is_admin (session req)
    then respond (redirect url_login) db
    else
      match orders db !! id with
      | None => respond (get_or_404_miss id) db
      | Some o =>
        match session req !! "username" with
        | None => respond (internal_server_error KeyError) db
        | Some u =>
          if negb (String.eqb (username o) u)
          then respond (jsonify (json_error "Not authorized") 403) db
          else if negb (String.eqb (status o) "Pending")
          then respond (jsonify (json_error "Only pending orders can be cancelled") 400) db
          else respond (jsonify json_ok 200)
                       (mk_db (menu_items db)
                              (<[id := set_status "Cancelled" o]> (orders db))
                              (feedbacks db))
        end
      end
  end.

(** [x.strip() or None] *)
Definition strip_or_None (s : string) : option string :=
  let t := str_strip s in
  if String.eqb t "" then None else Some t.

Definition admin_menu (req : request) (db : database) : reply :=
  if negb (is_logged_in (session req)) || negb (is_admin (session req))
  then respond (redirect url_login) db
  else
    match method req with
    | POST =>
      let name := str_strip (form_get req "name") in
      let price := str_strip (form_get req "price") in
      let af := strip_or_None (form_get req "available_from") in
      let at_ := strip_or_None (form_get req "available_to") in
      if String.eqb name "" || String.eqb price ""
      then flash_redirect "Provide name and price" "danger" url_admin_menu db
      else
        match py_float price with
        | None => flash_redirect "Price must be a number" "danger" url_admin_menu db
        | Some price_val =>
          (* db.session.commit() *)
          match store_real price_val with
          | None => respond (internal_server_error IntegrityError) db
          | Some stored =>
            flash_redirect "Item added" "success" url_admin_menu
              (mk_db (<[next_id (menu_items db) := mk_item name stored true af at_]>
                        (menu_items db))
                     (orders db) (feedbacks db))
          end
        end
    | GET =>
      respond (render_template
                 (admin_menu_html
                    (merge_sort by_name_then_id (query_all (menu_items db))))) db
    end.

Definition admin_update_order (req : request) (db : database) : reply :=
  match method req with
  | GET => respond (abort 405) db
  | POST =>
    if negb (is_logged_in (session req)) || negb (is_admin (session req))
    then respond (redirect url_login) db
    else
      let oid := form req !! "order_id" in
      let new_status := form req !! "status" in
      if truthy oid && truthy new_status then
        match py_int (default "" oid) with
        | None =>
          (* except Exception as e *)
          flash_redirect ("Failed to update order: " +:+ int_error (default "" oid))
                         "danger" url_admin_orders db
        | Some n =>
          match orders db !! n with
          | Some o =>
            flash_redirect "Order status updated successfully" "success" url_admin_orders
              (mk_db (menu_items db)
                     (<[n := set_status (default "" new_status) o]> (orders db))
                     (feedbacks db))
          | None =>
            if sqlite_integer n
            then flash_redirect "Order not found" "warning" url_admin_orders db
            else flash_redirect ("Failed to update order: " +:+ overflow_message)
                                "danger" url_admin_orders db
          end
        end
      else respond (redirect url_admin_orders) db
  end.

Definition submit_feedback (id : Z) (req : request) (e : env) (db : database) : reply :=
  match method req with
  | GET => respond (abort 405) db
  | POST =>
    if negb (is_logged_in (session req)) || is_admin (session req)
    then respond (redirect url_login) db
    else
      (* int(request.form.get('rating', 0)) *)
      let parsed := match form req !! "rating" with
                    | None => Some 0
                    | Some s => py_int s
                    end in
      match parsed with
      | None => respond (internal_server_error ValueError) db
      | Some r =>
        let c := str_strip (form_get req "comment") in
        if (r <? 1) || (5 <? r)
        then flash_redirect "Please provide a rating between 1 and 5" "danger" url_menu db
        else
          match session req !! "username" with
          | None => respond (internal_server_error KeyError) db
          | Some u =>
            (* db.session.commit() *)
            if sqlite_integer id
            then flash_redirect "Thanks for the feedback!" "success" url_menu
                   (mk_db (menu_items db) (orders db)
                          (<[next_id (feedbacks db) := mk_feedback id u r (Some c) (utcnow e)]>
                             (feedbacks db)))
            else respond (internal_server_error OverflowError) db
          end
      end
  end.
End Routes.

(** ** An executable implementation of the builtins

    CPython's behaviour.  A string is the UTF-8 encoding of the text; digits
    and letters are the ASCII ones.  Floats are IEEE 754 binary64, the
    kernel's [float]; decimal to binary conversions are correctly rounded,
    computed on exact integers with [SpecFloat]. *)

Module CPython.

(** The ASCII characters with [str.isspace]. *)
Definition is_space (c : ascii) : bool :=
  let n := nat_of_ascii c in
  ((9 <=? n) && (n <=? 13) || (28 <=? n) && (n <=? 32))%nat.

(** The other characters with [str.isspace], by the bytes of their
    encoding: U+0085 and U+00A0 on two bytes; U+1680, U+2000 to U+200A,
    U+2028, U+2029, U+202F, U+205F and U+3000 on three. *)
Definition is_space2 (a b : ascii) : bool :=
  let (a, b) := (nat_of_ascii a, nat_of_ascii b) in
  ((a =? 194) && ((b =? 133) || (b =? 160)))%nat.

Definition is_space3 (a b c : ascii) : bool :=
  let (a, b) := (nat_of_ascii a, nat_of_ascii b) in
  let c := nat_of_ascii c in
  ((a =? 225) && (b =? 154) && (c =? 128)
   || (a =? 226) && (b =? 128)
      && ((128 <=? c) && (c <=? 138) || (c =? 168) || (c =? 169) || (c =? 175))
   || (a =? 226) && (b =? 129) && (c =? 159)
   || (a =? 227) && (b =? 128) && (c =? 128))%nat.

(** The white space that [int] and [float] skip around a number: of the
    ASCII characters, those of C's [isspace] only. *)
Definition is_space_c (c : ascii) : bool :=
  let n := nat_of_ascii c in
  ((9 <=? n) && (n <=? 13) || (n =? 32))%nat.

(** [lstrip], [ascii_space] telling the ASCII white space. *)
Fixpoint lstrip (ascii_space : ascii -> bool) (s : list ascii) : list ascii :=
  match s with
  | a :: r =>
    if ascii_space a then lstrip ascii_space r
    else
      match r with
      | b :: r2 =>
        if is_space2 a b then lstrip ascii_space r2
        else
          match r2 with
          | c :: r3 => if is_space3 a b c then lstrip ascii_space r3 else s
          | [] => s
          end
      | [] => s
      end
  | [] => []
  end.

(** [rstrip] on the reversed text: the bytes of a character come last byte
    first. *)
Fixpoint rstrip_rev (ascii_space : ascii -> bool) (s : list ascii) : list ascii :=
  match s with
  | c :: r =>
    if ascii_space c then rstrip_rev ascii_space r
    else
      match r with
      | b :: r2 =>
        if is_space2 b c then rstrip_rev ascii_space r2
        else
          match r2 with
          | a :: r3 => if is_space3 a b c then rstrip_rev ascii_space r3 else s
          | [] => s
          end
      | [] => s
      end
  | [] => []
  end.

(** [str.strip] *)
Definition strip_chars (s : list ascii) : list ascii :=
  rev (rstrip_rev is_space (rev (lstrip is_space s))).

(** The text of a number, without the white space around it. *)
Definition number_chars (s : list ascii) : list ascii :=
  rev (rstrip_rev is_space_c (rev (lstrip is_space_c s))).

Definition strip (s : string) : string :=
  String.string_of_list_ascii (strip_chars (String.list_ascii_of_string s)).

Definition digit_of (c : ascii) : option Z :=
  let n := nat_of_ascii c in
  if ((48 <=? n) && (n <=? 57))%nat then Some (Z.of_nat (n - 48)) else None.

(** The rest of a [digitpart] after its first digit:
    [digit (["_"] digit)*]. *)
Fixpoint digits_tail (s : list ascii) : list Z * list ascii :=
  match s with
  | c :: r =>
    match digit_of c with
    | Some d => let (ds, rest) := digits_tail r in (d :: ds, rest)
    | None =>
      if Ascii.eqb c "_" then
        match r with
        | c2 :: r2 =>
          match digit_of c2 with
          | Some d => let (ds, rest) := digits_tail r2 in (d :: ds, rest)
          | None => ([], s)
          end
        | [] => ([], s)
        end
      else ([], s)
    end
  | [] => ([], [])
  end.

Definition digitpart (s : list ascii) : option (list Z * list ascii) :=
  match s with
  | c :: r =>
    match digit_of c with
    | Some d => let (ds, rest) := digits_tail r in Some (d :: ds, rest)
    | None => None
    end
  | [] => None
  end.

Definition decimal (ds : list Z) : Z :=
  fold_left (fun acc d => 10 * acc + d) ds 0.

(** An optional sign: [true] for minus. *)
Definition sign (s : list ascii) : bool * list ascii :=
  match s with
  | c :: r =>
    if Ascii.eqb c "-" then (true, r)
    else if Ascii.eqb c "+" then (false, r)
    else (false, s)
  | [] => (false, s)
  end.

(** [int(s)] on a string, base 10. *)
Definition int (s : string) : option Z :=
  let (neg, r) := sign (number_chars (String.list_ascii_of_string s)) in
  match digitpart r with
  | Some (ds, []) => Some (if neg then - decimal ds else decimal ds)
  | _ => None
  end.

Definition hex_digit (n : nat) : ascii :=
  nth n (String.list_ascii_of_string "0123456789abcdef") "0"%char.

(** One character in [repr]: the quote in use and the backslash are
    escaped, a control character is written by its name or its code.  A byte
    beyond ASCII belongs to a character that is taken as printable and
    kept. *)
Definition repr_char (quote c : ascii) : list ascii :=
  let n := nat_of_ascii c in
  if Ascii.eqb c quote || Ascii.eqb c "\" then ["\"%char; c]
  else if (n =? 9)%nat then ["\"%char; "t"%char]
  else if (n =? 10)%nat then ["\"%char; "n"%char]
  else if (n =? 13)%nat then ["\"%char; "r"%char]
  else if ((n <? 32) || (n =? 127))%nat
       then ["\"%char; "x"%char; hex_digit (n / 16); hex_digit (n mod 16)]
  else [c].

(** [repr(s)]: in single quotes, unless [s] has a single quote and no double
    quote. *)
Definition repr (s : list ascii) : list ascii :=
  let quote := if bool_decide ("'"%char ∈ s) && negb (bool_decide ("034"%char ∈ s))
               then "034"%char else "'"%char in
  quote :: concat (map (repr_char quote) s) ++ [quote].

(** The first [n] characters of a text: a byte [10xxxxxx] continues the
    character before it. *)
Fixpoint take_chars (n : nat) (s : list ascii) : list ascii :=
  match s with
  | c :: r =>
    let continues := ((128 <=? nat_of_ascii c) && (nat_of_ascii c <? 192))%nat in
    if continues then c :: take_chars n r
    else match n with
         | O => []
         | S k => c :: take_chars k r
         end
  | [] => []
  end.

(** The message of the [ValueError] of [int(s)]: the format is
    ["invalid literal for int() with base %d: %.200R"]. *)
Definition int_error (s : string) : string :=
  "invalid literal for int() with base 10: "
  +:+ String.string_of_list_ascii (take_chars 200 (repr (String.list_ascii_of_string s))).

Definition Z2SF (z : Z) : spec_float :=
  match z with
  | Z0 => S754_zero false
  | Zpos p => S754_finite false p 0
  | Zneg p => S754_finite true p 0
  end.

(** The float nearest to [m * 10^e], ties to even, with the sign [neg]. *)
Definition decimal_to_float (neg : bool) (m e : Z) : float :=
  match m with
  | Zpos p =>
    if 0 <=? e
    then SF2Prim (binary_round prec emax neg (p * Z.to_pos (10 ^ e)) 0)
    else SF2Prim (SFdiv prec emax (S754_finite neg p 0)
                        (S754_finite false (Z.to_pos (10 ^ (- e))) 0))
  | _ => SF2Prim (S754_zero neg)
  end.

Definition lower (c : ascii) : ascii :=
  let n := nat_of_ascii c in
  if ((65 <=? n) && (n <=? 90))%nat then ascii_of_nat (n + 32) else c.

(** The exponent of a float literal, if any: [("e"|"E") ["+"|"-"] digitpart]. *)
Definition exponent (s : list ascii) : option (Z * list ascii) :=
  match s with
  | c :: r =>
    if Ascii.eqb (lower c) "e" then
      let (neg, r') := sign r in
      match digitpart r' with
      | Some (ds, rest) => Some (if neg then - decimal ds else decimal ds, rest)
      | None => None
      end
    else Some (0, s)
  | [] => Some (0, [])
  end.

(** [float(s)] on a string. *)
Definition float_of_string (s : string) : option float :=
  let (neg, r) := sign (number_chars (String.list_ascii_of_string s)) in
  let word := String.string_of_list_ascii (map lower r) in
  if String.eqb word "inf" || String.eqb word "infinity"
  then Some (if neg then neg_infinity else infinity)
  else if String.eqb word "nan" then Some nan
  else
    let (ip, r1) := default ([], r) (digitpart r) in
    let (fp, r2) :=
      match r1 with
      | c :: r' => if Ascii.eqb c "." then default ([], r') (digitpart r') else ([], r1)
      | [] => ([], r1)
      end in
    match ip ++ fp with
    | [] => None
    | ds =>
      match exponent r2 with
      | Some (ex, []) => Some (decimal_to_float neg (decimal ds) (ex - Z.of_nat (length fp)))
      | _ => None
      end
    end.

(** [%H]: the regular expression [2[0-3]|[0-1]\d|\d]. *)
Definition directive_H (s : list ascii) : option (Z * list ascii) :=
  match s with
  | c1 :: r1 =>
    match digit_of c1 with
    | Some d1 =>
      match r1 with
      | c2 :: r2 =>
        match digit_of c2 with
        | Some d2 =>
          if (d1 =? 2) && (d2 <=? 3) || (d1 <=? 1)
          then Some (10 * d1 + d2, r2)
          else Some (d1, r1)
        | None => Some (d1, r1)
        end
      | [] => Some (d1, r1)
      end
    | None => None
    end
  | [] => None
  end.

(** [%M]: the regular expression [[0-5]\d|\d]. *)
Definition directive_M (s : list ascii) : option (Z * list ascii) :=
  match s with
  | c1 :: r1 =>
    match digit_of c1 with
    | Some d1 =>
      match r1 with
      | c2 :: r2 =>
        match digit_of c2 with
        | Some d2 => if d1 <=? 5 then Some (10 * d1 + d2, r2) else Some (d1, r1)
        | None => Some (d1, r1)
        end
      | [] => Some (d1, r1)
      end
    | None => None
    end
  | [] => None
  end.

(** [datetime.strptime(s, "%H:%M").time()]; text left over after the
    match is a [ValueError]. *)
Definition strptime (s : string) : option time :=
  match directive_H (String.list_ascii_of_string s) with
  | Some (h, c :: r) =>
    if Ascii.eqb c ":" then
      match directive_M r with
      | Some (m, []) => Some (mk_time (Z.to_nat h) (Z.to_nat m) 0%nat 0%nat)
      | _ => None
      end
    else None
  | _ => None
  end.

(** [sum] of floats: additions from the left, starting from 0 (CPython up
    to 3.11; later versions compensate the rounding errors and agree
    whenever every partial sum is exact). *)
Definition sum (l : list float) : float := fold_left PrimFloat.add l 0%float.

(** [num / den] rounded to the nearest integer, ties to even. *)
Definition div_half_even (num den : Z) : Z :=
  let q := num / den in
  match (2 * (num mod den) ?= den) with
  | Lt => q
  | Eq => if Z.even q then q else q + 1
  | Gt => q + 1
  end.

(** [round(x, 2)]: the exact value of [x] rounded to hundredths, ties to
    even, then the float nearest to that decimal. *)
Definition round2 (x : float) : float :=
  match Prim2SF x with
  | S754_finite neg m e =>
    let n := if 0 <=? e then Zpos m * 2 ^ e * 100
             else div_half_even (Zpos m * 100) (2 ^ (- e)) in
    decimal_to_float neg n (-2)
  | _ => x
  end.

(** [a / b] on ints: the float nearest to the quotient. *)
Definition truediv (a b : Z) : float :=
  SF2Prim (SFdiv prec emax (Z2SF a) (Z2SF b)).

End CPython.

Definition cpython : PyBuiltins := {|
  str_strip := CPython.strip;
  py_float := CPython.float_of_string;
  py_int := CPython.int;
  int_error := CPython.int_error;
  strptime_HM := CPython.strptime;
  py_sum := CPython.sum;
  py_round2 := CPython.round2;
  int_truediv := CPython.truediv
|}.

(** ** Who is acting *)

(** The session [login] leaves for a user whose role is not admin. *)
Definition student_session (sess : gmap string string) (u : string) : Prop :=
  sess !! "username" = Some u /\ sess !! "role" <> Some "admin".

(** The session [login] leaves for an admin. *)
Definition admin_session (sess : gmap string string) (u : string) : Prop :=
  sess !! "username" = Some u /\ sess !! "role" = Some "admin".

(** Sessions and rows used in the examples. *)
Definition session_of (u role : string) : gmap string string :=
  <["username" := u]> (<["role" := role]> ∅).

Definition empty_db : database := mk_db ∅ ∅ ∅.

Definition samosa : MenuItem := mk_item "Samosa" 15 true (Some "09:00") (Some "17:00").

Definition night_snack : MenuItem := mk_item "Maggi" 25 true (Some "22:00") (Some "02:00").

Definition canteen_db : database := mk_db (<[1 := samosa]> ∅) ∅ ∅.

Definition ten_o_clock : env := mk_env (mk_time 10 0 0 0) 1700000000 (fun i => (7 * i + 3)%nat).

Definition alice : gmap string string := session_of "alice" "user".
Definition bob : gmap string string := session_of "bob" "user".
Definition the_admin : gmap string string := session_of "canteen_admin" "admin".

(** A student asks for a samosa at "12:30 PM". *)
Definition order_request : request :=
  mk_request alice POST (<["order_time" := "12:30"]> (<["order_ampm" := "PM"]> ∅)).

(** The same with a pickup time that is no time of day. *)
Definition banana_request : request :=
  mk_request alice POST (<["order_time" := "banana"]> (<["order_ampm" := "PM"]> ∅)).

(** One order, alice's, as [order_form] leaves it. *)
Definition alice_order : Order :=
  mk_order "alice" "Samosa" 15 "12:30 PM" "Pending" 1700000000 "Unpaid" (Some "K3XQ9A").

Definition one_order_db : database := mk_db (<[1 := samosa]> ∅) (<[1 := alice_order]> ∅) ∅.

Definition post (sess : gmap string string) : request := mk_request sess POST ∅.

(** alice's order after she cancelled it. *)
Definition cancelled_order_db : database :=
  mk_db (<[1 := samosa]> ∅) (<[1 := set_status "Cancelled" alice_order]> ∅) ∅.

(** Three orders of alice priced 100 (Paid), 50 (Unpaid) and 30 (Paid), and
    a paid order of bob. *)
Definition history_db : database :=
  mk_db ∅
    (<[1 := mk_order "alice" "Veg Biryani" 100 "12:30 PM" "Completed" 1700000000 "Paid" (Some "AAAAAA")]>
     (<[2 := mk_order "alice" "Dosa" 50 "08:00 AM" "Pending" 1700000100 "Unpaid" (Some "BBBBBB")]>
      (<[3 := mk_order "alice" "Idli" 30 "09:00 AM" "Ready" 1700000200 "Paid" (Some "CCCCCC")]>
       (<[4 := mk_order "bob" "Poori" 35 "09:30 AM" "Ready" 1700000300 "Paid" (Some "DDDDDD")]> ∅))))
    ∅.

Definition get (sess : gmap string string) : request := mk_request sess GET ∅.

Definition pay_by_card (sess : gmap string string) : request :=
  mk_request sess POST (<["method" := "Card"]> ∅).

Definition admin_form (sess : gmap string string) (fields : list (string * string)) : request :=
  mk_request sess POST (list_to_map fields).

(** The admin sets order 1 to a status outside the five known ones. *)
Definition banana_status_request : request :=
  admin_form the_admin [("order_id", "1"); ("status", "Banana")].

Definition ready_status_request : request :=
  admin_form the_admin [("order_id", "1"); ("status", "Ready")].

(** The admin adds items priced -5 and 0. *)
Definition negative_price_request : request :=
  admin_form the_admin [("name", "Tea"); ("price", "-5")].

Definition zero_price_request : request :=
  admin_form the_admin [("name", "Water"); ("price", "0")].

Definition tea_request : request :=
  admin_form the_admin [("name", " Tea "); ("price", "12.50"); ("available_from", "08:00");
                        ("available_to", "")].

(** alice rates item 999, which is not on the menu. *)
Definition rate_999_request : request :=
  mk_request alice POST (<["rating" := "4"]> (<["comment" := " nice "]> ∅)).

Definition fb (id : Z) (r : Z) : Feedback := mk_feedback id "alice" r (Some "") 1700000000.

(** Dosa is rated 3 and 5, Idli 1, 2, 3, 4 and 5, Samosa not at all. *)
Definition rated_db : database :=
  mk_db (list_to_map
           [(1, mk_item "Dosa" 40 true (Some "07:00") (Some "11:00"));
            (2, mk_item "Idli" 30 true (Some "07:00") (Some "10:30"));
            (3, samosa)])
        ∅
        (list_to_map
           [(1, fb 1 3); (2, fb 2 1); (3, fb 2 2); (4, fb 1 5); (5, fb 2 3);
            (6, fb 2 4); (7, fb 2 5)]).

(** ** The other routes *)

(** [it.available = not it.available] *)
Definition toggle_available (it : MenuItem) : MenuItem :=
  mk_item (name it) (price it) (negb (available it)) (available_from it) (available_to it).

Definition admin_toggle_menu (id : Z) (req : request) (db : database) : reply :=
  match method req with
  | POST => respond (abort 405) db
  | GET =>
    if negb (is_logged_in (session req)) || negb (is_admin (session req))
    then respond (redirect url_login) db
    else
      match menu_items db !! id with
      | None => respond (get_or_404_miss id) db
      | Some it =>
        respond (redirect url_admin_menu)
                (mk_db (<[id := toggle_available it]> (menu_items db))
                       (orders db) (feedbacks db))
      end
  end.

(** Targets of [url_for] and templates of the routes that commit nothing:
    they answer with a [page_reply], the response and the flashed
    messages. *)
Inductive location :=
| at_endpoint (e : endpoint)
| url_register
| url_admin_dashboard.

(** A row of the JSON lists; [j_username] is present in the admin's list
    only, [j_created_at] is the timestamp that [isoformat] prints. *)
Record order_json := mk_order_json {
  j_id : Z;
  j_username : option string;
  j_item_name : string;
  j_total_price : float;
  j_pickup_time : string;
  j_status : string;
  j_payment_status : string;
  j_token : option string;
  j_created_at : Z
}.

Inductive page :=
| login_html
| register_html
| student_dashboard_html
| admin_dashboard_html
| order_receipt_html (order : Z * Order)
| admin_orders_html (orders : list (Z * Order)) (filter_status : option string).

Inductive page_response :=
| redirect_to (l : location)
| render (p : page)
| json_list (rows : list order_json)
| json_not_authorized          (* {"error": "Not authorized"}, 403 *)
| http_error (code : nat).

Definition page_reply : Type := page_response * list (string * string).

Definition plain (r : page_response) : page_reply := (r, []).

Definition root (sess : gmap string string) : page_reply :=
  if is_logged_in sess then
    if is_admin sess then plain (redirect_to url_admin_dashboard)
    else plain (redirect_to (at_endpoint url_student_dashboard))
  else plain (redirect_to (at_endpoint url_login)).

Definition student_dashboard (req : request) : page_reply :=
  match method req with
  | POST => plain (http_error 405)
  | GET =>
    if negb (is_logged_in (session req)) || is_admin (session req)
    then plain (redirect_to (at_endpoint url_login))
    else plain (render student_dashboard_html)
  end.

Definition admin_dashboard (req : request) : page_reply :=
  match method req with
  | POST => plain (http_error 405)
  | GET =>
    if negb (is_logged_in (session req)) || negb (is_admin (session req))
    then plain (redirect_to (at_endpoint url_login))
    else plain (render admin_dashboard_html)
  end.

Definition order_receipt (id : Z) (req : request) (db : database) : page_reply :=
  match method req with
  | POST => plain (http_error 405)
  | GET =>
    if negb (is_logged_in (session req)) || is_admin (session req)
    then plain (redirect_to (at_endpoint url_login))
    else
      match orders db !! id with
      | None => plain (http_error (if sqlite_integer id then 404 else 500))
      | Some o =>
        match session req !! "username" with
        | None => plain (http_error 500)
        | Some u =>
          if negb (is_admin (session req)) && negb (String.eqb (username o) u)
          then (redirect_to (at_endpoint url_student_dashboard),
                [("Not authorized", "danger")])
          else plain (render (order_receipt_html (id, o)))
        end
      end
  end.

(** [Order.query.order_by(Order.created_at.desc()).all()], after
    [filter_by(status=status)] when a status is given. *)
Definition orders_by_status (db : database) (status_filter : option string)
  : list (Z * Order) :=
  match status_filter with
  | Some s => merge_sort by_created_at_desc
                (filter (fun r => status r.2 = s) (query_all (orders db)))
  | None => merge_sort by_created_at_desc (query_all (orders db))
  end.

(** [args] is [request.args], the query string. *)
Definition admin_orders (args : gmap string string) (req : request) (db : database)
  : page_reply :=
  if negb (is_logged_in (session req)) || negb (is_admin (session req))
  then plain (redirect_to (at_endpoint url_login))
  else
    let status := args !! "status" in
    plain (render (admin_orders_html
                     (orders_by_status db (if truthy status then status else None))
                     status)).

Definition order_row (with_username : bool) (r : Z * Order) : order_json :=
  mk_order_json r.1 (if with_username then Some (username r.2) else None)
                (item_name r.2) (total_price r.2) (pickup_time r.2) (status r.2)
                (payment_status r.2) (token r.2) (created_at r.2).

Definition api_orders (req : request) (db : database) : page_reply :=
  match method req with
  | POST => plain (http_error 405)
  | GET =>
    if negb (is_logged_in (session req)) || is_admin (session req)
    then plain json_not_authorized
    else
      match session req !! "username" with
      | None => plain (http_error 500)
      | Some u =>
        plain (json_list
                 (map (order_row false) (orders_of db u)))
      end
  end.

Definition api_admin_orders (req : request) (db : database) : page_reply :=
  match method req with
  | POST => plain (http_error 405)
  | GET =>
    if negb (is_logged_in (session req)) || negb (is_admin (session req))
    then plain json_not_authorized
    else plain (json_list (map (order_row true)
                               (merge_sort by_created_at_desc (query_all (orders db)))))
  end.

(** ** Accounts *)

Record User := mk_user {
  user_username : string;
  password_hash : string;
  role : string
}.

(** [werkzeug.security]: [generate_password_hash pwd salt] hashes [pwd] with
    the random [salt] it draws; [check_password_hash h pwd] tells whether
    [h] is a hash of [pwd]. *)
Class Werkzeug := {
  generate_password_hash : string -> string -> string;
  check_password_hash : string -> string -> bool
}.

(** What the accounts routes leave behind: the response, the flashed
    messages, the session and the [User] table. *)
Record auth_reply := mk_auth_reply {
  auth_resp : page_response;
  auth_flashed : list (string * string);
  session_after : gmap string string;
  users_after : gmap Z User
}.

(** [User.query.filter_by(username=uname).first()] *)
Definition user_by_name (users : gmap Z User) (uname : string) : option (Z * User) :=
  head (filter (fun r => user_username r.2 = uname) (query_all users)).

(** [User.query.filter_by(role="admin").first()] *)
Definition first_admin (users : gmap Z User) : option (Z * User) :=
  head (filter (fun r => role r.2 = "admin") (query_all users)).

Section Accounts.
Context `{PyBuiltins} `{Werkzeug}.

(** [request.form[key]] on a missing key is a 400. *)
Definition register (salt : string) (req : request) (users : gmap Z User) : auth_reply :=
  match method req with
  | GET => mk_auth_reply (render register_html) [] (session req) users
  | POST =>
    match form req !! "username", form req !! "password" with
    | Some raw, Some pwd =>
      let uname := str_strip raw in
      if String.eqb uname "" || String.eqb pwd ""
      then mk_auth_reply (redirect_to url_register)
                         [("Please provide valid username and password", "danger")]
                         (session req) users
      else
        match user_by_name users uname with
        | Some _ =>
          mk_auth_reply (redirect_to url_register)
                        [("Username already exists", "danger")] (session req) users
        | None =>
          mk_auth_reply (redirect_to (at_endpoint url_login))
                        [("Registered! Please login.", "success")] (session req)
                        (<[next_id users :=
                             mk_user uname (generate_password_hash pwd salt) "user"]> users)
        end
    | _, _ => mk_auth_reply (http_error 400) [] (session req) users
    end
  end.

Definition login (req : request) (users : gmap Z User) : auth_reply :=
  match method req with
  | GET => mk_auth_reply (render login_html) [] (session req) users
  | POST =>
    match form req !! "username", form req !! "password" with
    | Some raw, Some pwd =>
      let uname := str_strip raw in
      match user_by_name users uname with
      | Some (_, user) =>
        if check_password_hash (password_hash user) pwd
        then mk_auth_reply
               (redirect_to (if String.eqb (role user) "admin"
                             then url_admin_dashboard
                             else at_endpoint url_student_dashboard))
               [("Login successful", "success")]
               (<["role" := role user]> (<["username" := user_username user]> (session req)))
               users
        else mk_auth_reply (render login_html) [("Invalid credentials", "danger")]
                           (session req) users
      | None => mk_auth_reply (render login_html) [("Invalid credentials", "danger")]
                              (session req) users
      end
    | _, _ => mk_auth_reply (http_error 400) [] (session req) users
    end
  end.

(** [session.clear()] *)
Definition logout (req : request) (users : gmap Z User) : auth_reply :=
  match method req with
  | POST => mk_auth_reply (http_error 405) [] (session req) users
  | GET => mk_auth_reply (redirect_to (at_endpoint url_login)) [] ∅ users
  end.
End Accounts.

(** The sample menu of [init_db]. *)
Definition sample : list MenuItem :=
  [mk_item "Chicken Biryani" 120 true (Some "11:00") (Some "15:00");
   mk_item "Veg Biryani" 100 true (Some "11:00") (Some "15:00");
   mk_item "Samosa" 15 true (Some "09:00") (Some "17:00");
   mk_item "Egg Manchuria" 80 true (Some "11:00") (Some "15:00");
   mk_item "Chicken Manchuria" 100 true (Some "11:00") (Some "15:00");
   mk_item "Idli" 30 true (Some "07:00") (Some "10:30");
   mk_item "Dosa" 40 true (Some "07:00") (Some "11:00");
   mk_item "Poori" 35 true (Some "07:00") (Some "11:00")].

(** [db.session.add] of a row to a table: it gets the next id. *)
Definition add_row {A} (t : gmap Z A) (row : A) : gmap Z A := <[next_id t := row]> t.

(** [init_db()]: the default admin if no admin exists, the sample menu if
    the menu is empty, in one commit.  The commit fails, and nothing is kept,
    when the admin's username is taken ([username] is unique): [None]. *)
Definition init_db `{Werkzeug} (salt : string) (users : gmap Z User) (db : database)
  : option (gmap Z User * database) :=
  let items := if bool_decide (size (menu_items db) = 0%nat)
               then foldl add_row (menu_items db) sample
               else menu_items db in
  let db' := mk_db items (orders db) (feedbacks db) in
  match first_admin users with
  | Some _ => Some (users, db')
  | None =>
    match user_by_name users "canteen_admin" with
    | Some _ => None
    | None =>
      Some (add_row users (mk_user "canteen_admin"
                             (generate_password_hash "admin123" salt) "admin"),
            db')
    end
  end.

(** ** Requests as steps of the database *)

(** The requests to the nine routes whose handler answers with a [reply]:
    the seven that write the menu, the orders or the feedback, and the two
    pages [menu] and [order_history]. *)
Inductive action :=
| do_menu (req : request) (e : env)
| do_order_form (id : Z) (req : request) (e : env)
| do_payment (id : Z) (req : request)
| do_order_history (req : request)
| do_cancel_order (id : Z) (req : request)
| do_admin_menu (req : request)
| do_admin_toggle_menu (id : Z) (req : request)
| do_admin_update_order (req : request)
| do_submit_feedback (id : Z) (req : request) (e : env).

Definition request_of (a : action) : request :=
  match a with
  | do_menu req _ | do_order_form _ req _ | do_payment _ req | do_order_history req
  | do_cancel_order _ req | do_admin_menu req | do_admin_toggle_menu _ req
  | do_admin_update_order req | do_submit_feedback _ req _ => req
  end.

Definition handle `{PyBuiltins} (a : action) (db : database) : reply :=
  match a with
  | do_menu req e => menu req e db
  | do_order_form id req e => order_form id req e db
  | do_payment id req => payment id req db
  | do_order_history req => order_history req db
  | do_cancel_order id req => cancel_order id req db
  | do_admin_menu req => admin_menu req db
  | do_admin_toggle_menu id req => admin_toggle_menu id req db
  | do_admin_update_order req => admin_update_order req db
  | do_submit_feedback id req e => submit_feedback id req e db
  end.

(** The database after one request, and after a list of them. *)
Definition run `{PyBuiltins} (a : action) (db : database) : database :=
  db_after (handle a db).

Definition runs `{PyBuiltins} (l : list action) (db : database) : database :=
  foldl (fun d a => run a d) db l.

(** A stand-in for [werkzeug.security] in the examples: the salt and the
    password side by side.  It keeps the one law the theorems ask for, that a
    hash checks against its own password. *)
Definition toy_werkzeug : Werkzeug := {|
  generate_password_hash := fun pwd salt => salt +:+ "$" +:+ pwd;
  check_password_hash := fun h pwd =>
    match String.index 0 "$" h with
    | Some i => String.eqb (String.substring (S i) (String.length h - S i) h) pwd
    | None => false
    end
|}.

(** A token as [gen_token(6)] makes them. *)
Definition token_ok (t : option string) : Prop :=
  exists s, t = Some s /\ String.length s = 6%nat
            /\ Forall (fun c => c ∈ String.list_ascii_of_string (ascii_uppercase +:+ digits))
                      (String.list_ascii_of_string s).

(** The ways a request of the session [sess] can change the database: not
    at all, or by one of the seven writes of the routes, each with what the
    route has checked before it commits. *)
Inductive db_change (sess : gmap string string) (db : database) : database -> Prop :=
| ch_none : db_change sess db db
| ch_order_added (mid : Z) (it : MenuItem) (o : Order) :
    sess !! "username" = Some (username o) -> is_admin sess = false ->
    menu_items db !! mid = Some it -> available it = true ->
    item_name o = name it -> total_price o = price it ->
    status o = "Pending" -> payment_status o = "Unpaid" -> token_ok (token o) ->
    db_change sess db
      (mk_db (menu_items db) (<[next_id (orders db) := o]> (orders db)) (feedbacks db))
| ch_order_cancelled (id : Z) (o : Order) :
    sess !! "username" = Some (username o) -> is_admin sess = false ->
    orders db !! id = Some o -> status o = "Pending" ->
    db_change sess db
      (mk_db (menu_items db) (<[id := set_status "Cancelled" o]> (orders db)) (feedbacks db))
| ch_order_paid (id : Z) (o : Order) :
    sess !! "username" = Some (username o) -> is_admin sess = false ->
    orders db !! id = Some o ->
    db_change sess db
      (mk_db (menu_items db) (<[id := set_payment_status "Paid" o]> (orders db))
             (feedbacks db))
| ch_status_set (id : Z) (o : Order) (s : string) :
    is_logged_in sess = true -> is_admin sess = true ->
    orders db !! id = Some o -> s <> "" ->
    db_change sess db
      (mk_db (menu_items db) (<[id := set_status s o]> (orders db)) (feedbacks db))
| ch_item_added (it : MenuItem) :
    is_logged_in sess = true -> is_admin sess = true ->
    name it <> "" -> available it = true ->
    db_change sess db
      (mk_db (<[next_id (menu_items db) := it]> (menu_items db)) (orders db) (feedbacks db))
| ch_item_toggled (id : Z) (it : MenuItem) :
    is_logged_in sess = true -> is_admin sess = true ->
    menu_items db !! id = Some it ->
    db_change sess db
      (mk_db (<[id := toggle_available it]> (menu_items db)) (orders db) (feedbacks db))
| ch_feedback_added (f : Feedback) :
    sess !! "username" = Some (fb_username f) -> is_admin sess = false ->
    1 <= rating f <= 5 ->
    db_change sess db
      (mk_db (menu_items db) (orders db)
             (<[next_id (feedbacks db) := f]> (feedbacks db))).

(** What an order keeps: everything but its two statuses. *)
Definition same_snapshot (o o' : Order) : Prop :=
  username o' = username o /\ item_name o' = item_name o
  /\ total_price o' = total_price o /\ pickup_time o' = pickup_time o
  /\ created_at o' = created_at o /\ token o' = token o.

(** What a menu item keeps: everything but its flag. *)
Definition same_item (it it' : MenuItem) : Prop :=
  name it' = name it /\ price it' = price it
  /\ available_from it' = available_from it /\ available_to it' = available_to it.

(** [db'] continues [db]: every row is still there under its id, an order
    with its snapshot (and Paid if it was), an item with its name, price and
    window, a feedback as it was. *)
Definition continues (db db' : database) : Prop :=
  (forall id o, orders db !! id = Some o ->
     exists o', orders db' !! id = Some o' /\ same_snapshot o o'
                /\ (payment_status o = "Paid" -> payment_status o' = "Paid"))
  /\ (forall id it, menu_items db !! id = Some it ->
        exists it', menu_items db' !! id = Some it' /\ same_item it it')
  /\ (forall id f, feedbacks db !! id = Some f -> feedbacks db' !! id = Some f).

Definition ratings_in_range (db : database) : Prop :=
  forall id f, feedbacks db !! id = Some f -> 1 <= rating f <= 5.

Definition payments_known (db : database) : Prop :=
  forall id o, orders db !! id = Some o ->
    payment_status o = "Unpaid" \/ payment_status o = "Paid".

Definition tokens_ok (db : database) : Prop :=
  forall id o, orders db !! id = Some o -> token_ok (token o).

(** Every order names an item of the menu, with the item's price. *)
Definition orders_on_menu (db : database) : Prop :=
  forall id o, orders db !! id = Some o ->
    exists mid it, menu_items db !! mid = Some it
                   /\ item_name o = name it /\ total_price o = price it.

(** Some requests for the examples: alice orders a samosa and pays, the
    admin marks the order Ready, alice rates the samosa. *)
Definition a_day : list action :=
  [do_order_form 1 order_request ten_o_clock;
   do_payment 1 (pay_by_card alice);
   do_admin_update_order ready_status_request;
   do_submit_feedback 1 rate_999_request ten_o_clock].

(** Requests of the examples for the menu switch and a malformed window. *)
Definition toggle_request : request := mk_request the_admin GET ∅.

Definition bad_window_request : request :=
  admin_form the_admin [("name", "Tea"); ("price", "10"); ("available_from", "8am");
                        ("available_to", "11:00")].

(** The first index of [c] in [l] (its length if there is none). *)
Fixpoint position (c : ascii) (l : list ascii) : nat :=
  match l with
  | [] => 0%nat
  | x :: r => if Ascii.eqb x c then 0%nat else S (position c r)
  end.

(** A random source whose draws pick the characters of [cs] in turn. *)
Definition draws_for (cs : list ascii) (i : nat) : nat :=
  position (nth i cs "A"%char) (String.list_ascii_of_string (ascii_uppercase +:+ digits)).

(** The [unique=True] of the username column. *)
Definition usernames_unique (users : gmap Z User) : Prop :=
  forall i j u v, users !! i = Some u -> users !! j = Some v ->
                  user_username u = user_username v -> i = j.

(** Requests of the examples for the accounts. *)
Definition carol_form : gmap string string :=
  <["username" := " carol "]> (<["password" := "s3cret"]> ∅).

Definition no_users : gmap Z User := ∅.

(** Newest first, on the rows of the JSON lists. *)
Definition rows_newest_first (a b : order_json) : Prop := j_created_at b <= j_created_at a.

(** The admin sets order 1 back to Pending. *)
Definition reopen_request : request :=
  admin_form the_admin [("order_id", "1"); ("status", "Pending")].

(** ** The mean, rounded to 2 places *)

(** The float nearest to [k / 100], ties to even: what [float] reads from
    the decimal writing of [k / 100]. *)
Definition hundredths (k : Z) : float :=
  CPython.decimal_to_float (k <? 0) (Z.abs k) (-2).

(** [k / 100] is [s / n] rounded to 2 places: a hundredth no farther than
    0.005 from [s / n], for a positive [n]. *)
Definition rounds_to (s n k : Z) : Prop := 2 * Z.abs (100 * s - k * n) <= n.

Definition rounds_to_b (s n k : Z) : bool := 2 * Z.abs (100 * s - k * n) <=? n.

(** The number a finite float stands for, as a fraction [(a, d)] of
    integers, [a / d]. *)
Definition exact_value (x : float) : option (Z * Z) :=
  match Prim2SF x with
  | S754_zero _ => Some (0, 1)
  | S754_finite neg m e =>
    let a := if neg then Zneg m else Zpos m in
    Some (if 0 <=? e then (a * 2 ^ e, 1) else (a, 2 ^ (- e)))
  | _ => None
  end.

(** What Python promises of [s / n] on positive ints: the float nearest to
    the quotient, so off by no more than the fraction [2^-53] of it. *)
Definition true_division_is_nearest `{PyBuiltins} (s n : Z) : Prop :=
  exists a d, exact_value (int_truediv s n) = Some (a, d) /\ 0 < d
              /\ 2 ^ 53 * Z.abs (n * a - s * d) <= s * d.

(** What Python promises of [round(x, 2)]: the float nearest to [k / 100],
    for an integer [k] no farther than one half from [100 * x]. *)
Definition round2_is_nearest `{PyBuiltins} (x : float) : Prop :=
  exists a d k, exact_value x = Some (a, d) /\ 0 < d
                /\ py_round2 x = hundredths k
                /\ 2 * Z.abs (k * d - 100 * a) <= d.

Definition ratings_sum (ratings : list (Z * Feedback)) : Z :=
  foldr Z.add 0 (map (fun r => rating r.2) ratings).

(** [round(s / n, 2)] as [cpython] computes it is [s / n] rounded to 2
    places: it is the float of one of the two hundredths around [s / n],
    and that one is no farther than 0.005 from [s / n]. *)
Definition mean_is_rounded (s n : Z) : bool :=
  let x := CPython.round2 (CPython.truediv s n) in
  let k := 100 * s / n in
  PrimFloat.Leibniz.eqb x (hundredths k) && rounds_to_b s n k
  || PrimFloat.Leibniz.eqb x (hundredths (k + 1)) && rounds_to_b s n (k + 1).

(** The same for every number [n] of ratings up to [N] and every sum of [n]
    ratings from 1 to 5. *)
Definition means_are_rounded (N : Z) : bool :=
  forallb (fun n => forallb (fun s => mean_is_rounded s n) (seqZ n (4 * n + 1)))
          (seqZ 1 N).

(** Three ratings whose mean, 14/3, is no hundredth. *)
Definition three_ratings : list (Z * Feedback) := [(1, fb 1 4); (2, fb 1 5); (3, fb 1 5)].

(** ** The whole site *)

(** The four tables together. *)
Record site := mk_site {
  accounts : gmap Z User;
  store : database
}.

(** A request to any of the nineteen routes of [app.py]: the nine of
    [action], the three of the accounts ([salt] is the salt that
    [generate_password_hash] draws) and the seven that answer with a page. *)
Inductive any_request :=
| to_store (a : action)
| to_register (salt : string) (req : request)
| to_login (req : request)
| to_logout (req : request)
| to_root (req : request)
| to_student_dashboard (req : request)
| to_admin_dashboard (req : request)
| to_order_receipt (id : Z) (req : request)
| to_admin_orders (args : gmap string string) (req : request)
| to_api_orders (req : request)
| to_api_admin_orders (req : request).

Definition sent_with (r : any_request) : request :=
  match r with
  | to_store a => request_of a
  | to_register _ req | to_login req | to_logout req | to_root req
  | to_student_dashboard req | to_admin_dashboard req | to_order_receipt _ req
  | to_admin_orders _ req | to_api_orders req | to_api_admin_orders req => req
  end.

(** The tables after a request.  [root], the two dashboards, the receipt,
    the admin's order page and the two JSON lists have no commit: their
    handlers above take the tables and give back a page only. *)
Definition serve `{PyBuiltins} `{Werkzeug} (r : any_request) (s : site) : site :=
  match r with
  | to_store a => mk_site (accounts s) (run a (store s))
  | to_register salt req => mk_site (users_after (register salt req (accounts s))) (store s)
  | to_login req => mk_site (users_after (login req (accounts s))) (store s)
  | to_logout req => mk_site (users_after (logout req (accounts s))) (store s)
  | to_root _ | to_student_dashboard _ | to_admin_dashboard _ | to_order_receipt _ _
  | to_admin_orders _ _ | to_api_orders _ | to_api_admin_orders _ => s
  end.

(** Somebody who is not logged in registers as carol. *)
Definition carol_registers : any_request :=
  to_register "zz99" (mk_request ∅ POST carol_form).

(** Requests of the examples for the store's limits; [two_63] is the first
    id that the store cannot be asked about. *)
Definition two_63 : Z := 9223372036854775808.

Definition nan_price_request : request :=
  admin_form the_admin [("name", "Tea"); ("price", "nan")].

Definition minus_zero_price_request : request :=
  admin_form the_admin [("name", "Tea"); ("price", "-0")].

(** U+3000, the ideographic space, and U+00A0, the no-break space, in
    UTF-8. *)
Definition ideographic_space : string := String "227" (String "128" (String "128" "")).
Definition no_break_space : string := String "194" (String "160" "").

(** The text [x'] in double quotes, as [repr] writes it. *)
Definition x_quote_repr : string := String "034" ("x'" +:+ String "034" "").

(** * Properties *)

(** ** The store's limits *)

Lemma sqlite_integer_spec (z : Z) : sqlite_integer z = true <-> - 2 ^ 63 <= z < 2 ^ 63.
Proof. unfold sqlite_integer. rewrite andb_true_iff, Z.leb_le, Z.ltb_lt. tauto. Qed.

Lemma sqlite_integer_in_range (z : Z) : - 2 ^ 63 <= z < 2 ^ 63 -> sqlite_integer z = true.
Proof. apply sqlite_integer_spec. Qed.

Lemma sqlite_integer_id (z : Z) : 0 <= z < 2 ^ 63 -> sqlite_integer z = true.
Proof. intros Hz. apply sqlite_integer_spec. lia. Qed.

Lemma sqlite_integer_beyond (z : Z) : 2 ^ 63 <= z -> sqlite_integer z = false.
Proof.
  intros Hz. apply not_true_is_false. rewrite sqlite_integer_spec. lia.
Qed.

Lemma get_or_404_miss_in_range (id : Z) :
  0 <= id < 2 ^ 63 -> get_or_404_miss id = abort 404.
Proof. intros Hid. unfold get_or_404_miss. now rewrite sqlite_integer_id. Qed.

Lemma get_or_404_miss_beyond (id : Z) :
  2 ^ 63 <= id -> get_or_404_miss id = internal_server_error OverflowError.
Proof. intros Hid. unfold get_or_404_miss. now rewrite sqlite_integer_beyond. Qed.

(** What [store_real] keeps: a number other than zero and NaN as it is. *)
Lemma store_real_spec (x : float) :
  (store_real x = None <-> PrimFloat.is_nan x = true)
  /\ (PrimFloat.is_nan x = false -> PrimFloat.is_zero x = true -> store_real x = Some 0%float)
  /\ (PrimFloat.is_nan x = false -> PrimFloat.is_zero x = false -> store_real x = Some x).
Proof.
  unfold store_real.
  destruct (PrimFloat.is_nan x), (PrimFloat.is_zero x); repeat split; congruence.
Qed.

(** ** Order on times *)

Lemma time_leb_refl (a : time) : time_leb a a = true.
Proof.
  unfold time_leb.
  rewrite !Nat.ltb_irrefl. apply Nat.leb_refl.
Qed.

Ltac time_cases :=
  repeat match goal with
  | |- context [(?x <? ?y)%nat] => destruct (Nat.ltb_spec x y)
  | |- context [(?x <=? ?y)%nat] => destruct (Nat.leb_spec x y)
  | H : context [(?x <? ?y)%nat] |- _ => destruct (Nat.ltb_spec x y)
  | H : context [(?x <=? ?y)%nat] |- _ => destruct (Nat.leb_spec x y)
  end; try (reflexivity || discriminate || lia).

Lemma time_leb_trans (a b c : time) :
  time_leb a b = true -> time_leb b c = true -> time_leb a c = true.
Proof.
  unfold time_leb. intros Hab Hbc. time_cases.
Qed.

Lemma time_leb_total (a b : time) : time_leb a b = true \/ time_leb b a = true.
Proof.
  unfold time_leb.
  destruct (lt_eq_lt_dec (hour a) (hour b)) as [[?|?]|?];
  destruct (lt_eq_lt_dec (minute a) (minute b)) as [[?|?]|?];
  destruct (lt_eq_lt_dec (second a) (second b)) as [[?|?]|?];
  destruct (le_lt_dec (microsecond a) (microsecond b));
  time_cases; (left; time_cases; fail) || (right; time_cases).
Qed.

(** On times of day the order of the tuples is the order of the clock. *)
Lemma time_leb_micros (a b : time) :
  time_valid a -> time_valid b ->
  time_leb a b = (time_micros a <=? time_micros b).
Proof.
  unfold time_valid, time_leb, time_micros. intros Ha Hb.
  destruct (Z.leb_spec
              (((Z.of_nat (hour a) * 60 + Z.of_nat (minute a)) * 60 + Z.of_nat (second a))
               * 1000000 + Z.of_nat (microsecond a))
              (((Z.of_nat (hour b) * 60 + Z.of_nat (minute b)) * 60 + Z.of_nat (second b))
               * 1000000 + Z.of_nat (microsecond b)));
    time_cases.
Qed.

(** ** C1: the availability evaluator *)

Section AvailabilityFacts.
Context `{PyBuiltins}.

Lemma in_availability_window (item : MenuItem) (af at_ : string) (fr to : time) :
  available item = true ->
  available_from item = Some af -> af <> "" ->
  available_to item = Some at_ -> at_ <> "" ->
  strptime_HM af = Some fr -> strptime_HM at_ = Some to ->
  forall cur, in_availability item cur = Ok (time_leb fr cur && time_leb cur to).
Proof.
  intros Hav Hf Hfne Ht Htne Hpf Hpt cur.
  unfold in_availability. rewrite Hav, Hf, Ht. simpl.
  apply String.eqb_neq in Hfne, Htne. rewrite Hfne, Htne. simpl.
  rewrite Hpf, Hpt. now destruct (time_leb fr cur && time_leb cur to).
Qed.

(** C1.  For every menu item: with the flag off the evaluator answers
    false at every instant; with the flag on and both bounds set (and
    well-formed HH:MM, the data model's invariant), it answers true exactly
    when [from <= now <= to], both ends included, so that it is true at
    [from] and at [to] themselves whenever the window is not empty, and a
    window with [from > to] matches at no instant; with the flag on and a
    bound unset it answers true. *)
Theorem in_availability_spec (item : MenuItem) :
  (available item = false -> forall cur, in_availability item cur = Ok false)
  /\ (available item = true ->
      forall af at_ fr to,
        available_from item = Some af -> af <> "" ->
        available_to item = Some at_ -> at_ <> "" ->
        strptime_HM af = Some fr -> strptime_HM at_ = Some to ->
        (forall cur, in_availability item cur = Ok true <->
                     time_leb fr cur = true /\ time_leb cur to = true)
        /\ (forall cur, in_availability item cur = Ok true \/
                        in_availability item cur = Ok false)
        /\ (time_leb fr to = true ->
            in_availability item fr = Ok true /\ in_availability item to = Ok true)
        /\ (time_ltb to fr = true ->
            forall cur, in_availability item cur = Ok false))
  /\ (available item = true ->
      truthy (available_from item) = false \/ truthy (available_to item) = false ->
      forall cur, in_availability item cur = Ok true).
Proof.
  split; [|split].
  - intros Hav cur. unfold in_availability. now rewrite Hav.
  - intros Hav af at_ fr to Hf Hfne Ht Htne Hpf Hpt.
    pose proof (in_availability_window item af at_ fr to Hav Hf Hfne Ht Htne Hpf Hpt) as Hw.
    split; [|split; [|split]].
    + intros cur. rewrite Hw. split.
      * intros [= Hb]. now apply andb_true_iff in Hb.
      * intros [H1 H2]. now rewrite H1, H2.
    + intros cur. rewrite Hw.
      destruct (time_leb fr cur && time_leb cur to); [now left | now right].
    + intros Hle. rewrite !Hw, !time_leb_refl, Hle. now split.
    + intros Hlt cur. rewrite Hw.
      destruct (time_leb fr cur) eqn:E1; [|reflexivity].
      destruct (time_leb cur to) eqn:E2; [|reflexivity].
      unfold time_ltb in Hlt.
      rewrite (time_leb_trans fr cur to E1 E2) in Hlt. discriminate.
  - intros Hav Hun cur. unfold in_availability. rewrite Hav. simpl.
    destruct Hun as [-> | ->]; [reflexivity | now rewrite andb_false_r].
Qed.
End AvailabilityFacts.


(** ** Sessions, fresh ids, tokens *)

Lemma student_gate (sess : gmap string string) (u : string) :
  student_session sess u ->
  negb (is_logged_in sess) || is_admin sess = false.
Proof.
  intros [Hu Hr]. unfold is_logged_in, is_admin.
  rewrite bool_decide_eq_true_2 by (rewrite Hu; eauto).
  now rewrite bool_decide_eq_false_2.
Qed.

Lemma admin_is_admin (sess : gmap string string) (u : string) :
  admin_session sess u -> is_logged_in sess = true /\ is_admin sess = true.
Proof.
  intros [Hu Hr]. unfold is_logged_in, is_admin. split.
  - apply bool_decide_eq_true_2. rewrite Hu. eauto.
  - now apply bool_decide_eq_true_2.
Qed.

Lemma foldr_max_ge (l : list Z) (x : Z) : x ∈ l -> x <= foldr Z.max 0 l.
Proof.
  induction l as [|y l IH]; intros Hin.
  - now apply elem_of_nil in Hin.
  - apply elem_of_cons in Hin as [-> | Hin]; simpl; [lia|].
    specialize (IH Hin). lia.
Qed.

Lemma next_id_fresh {A} (t : gmap Z A) : t !! next_id t = None.
Proof.
  apply not_elem_of_dom. intros Hin.
  apply elem_of_elements, foldr_max_ge in Hin.
  unfold next_id in Hin. lia.
Qed.

Lemma length_string_of_list_ascii (l : list ascii) :
  String.length (String.string_of_list_ascii l) = length l.
Proof. induction l as [|c l IH]; simpl; [reflexivity | now rewrite IH]. Qed.

Lemma random_choices_length (e : env) (population : list ascii) (k : nat) :
  length (random_choices e population k) = k.
Proof. unfold random_choices. now rewrite length_map, length_seq. Qed.

Lemma random_choices_from (e : env) (population : list ascii) (k : nat) :
  population <> [] ->
  Forall (fun c => c ∈ population) (random_choices e population k).
Proof.
  intros Hne. unfold random_choices. apply Forall_map, Forall_forall.
  intros i _. simpl. apply list_elem_of_In, nth_In.
  apply Nat.mod_upper_bound. now destruct population.
Qed.

(** The token has [n] characters, each an upper-case letter or a digit. *)
Lemma gen_token_spec (e : env) (n : nat) :
  String.length (gen_token e n) = n
  /\ Forall (fun c => c ∈ String.list_ascii_of_string (ascii_uppercase +:+ digits))
            (String.list_ascii_of_string (gen_token e n)).
Proof.
  unfold gen_token. split.
  - now rewrite length_string_of_list_ascii, random_choices_length.
  - rewrite String.list_ascii_of_string_of_list_ascii.
    now apply random_choices_from.
Qed.

Lemma elem_of_AM_PM (s : string) : s ∈ ["AM"; "PM"] <-> s = "AM" \/ s = "PM".
Proof. rewrite !elem_of_cons, elem_of_nil. tauto. Qed.

(** ** C2: placing an order *)

Section PlaceOrder.
Context `{PyBuiltins}.

(** C2, as the code has it.  For a logged-in student posting the order
    form of an existing item: when the availability evaluator answers
    false the request ends in the "not available" flash and the database
    is unchanged; when the pickup time is empty after trimming, or the
    designator is neither AM nor PM, it ends in the "valid time and AM/PM"
    flash and the database is unchanged; otherwise (any non-empty pickup
    text is accepted) exactly one order is added under a fresh id, with
    the item's name and price, status Pending, payment status Unpaid and a
    six-character token of upper-case letters and digits, and the reply
    redirects to the payment page of the new id. *)
Theorem order_form_post_spec (id : Z) (req : request) (e : env) (db : database)
    (u : string) (it : MenuItem) :
  student_session (session req) u ->
  method req = POST ->
  menu_items db !! id = Some it ->
  (in_availability it (now e) = Ok false ->
     order_form id req e db =
     flash_redirect "This item is not available at the selected time." "danger"
                    url_menu db)
  /\ (in_availability it (now e) = Ok true ->
      str_strip (form_get req "order_time") = "" \/
      (str_strip (form_get req "order_ampm") <> "AM" /\
       str_strip (form_get req "order_ampm") <> "PM") ->
      order_form id req e db =
      flash_redirect "Please enter valid time and AM/PM" "danger"
                     (url_order_form id) db)
  /\ (in_availability it (now e) = Ok true ->
      str_strip (form_get req "order_time") <> "" ->
      str_strip (form_get req "order_ampm") = "AM" \/
      str_strip (form_get req "order_ampm") = "PM" ->
      order_form id req e db =
      respond (redirect (url_payment (next_id (orders db))))
        (mk_db (menu_items db)
           (<[next_id (orders db) :=
                mk_order u (name it) (price it)
                  (str_strip (form_get req "order_time") +:+ " " +:+
                   str_strip (form_get req "order_ampm"))
                  "Pending" (utcnow e) "Unpaid" (Some (gen_token e 6))]> (orders db))
           (feedbacks db))
      /\ orders db !! next_id (orders db) = None
      /\ size (orders (db_after (order_form id req e db))) = S (size (orders db))
      /\ (forall k o, orders db !! k = Some o ->
                      orders (db_after (order_form id req e db)) !! k = Some o)
      /\ String.length (gen_token e 6) = 6%nat
      /\ Forall (fun c => c ∈ String.list_ascii_of_string (ascii_uppercase +:+ digits))
                (String.list_ascii_of_string (gen_token e 6))).
Proof.
  intros Hs Hm Hit.
  pose proof (student_gate _ _ Hs) as Hgate. destruct Hs as [Hu _].
  split; [|split].
  - intros Hav. unfold order_form. now rewrite Hgate, Hit, Hm, Hav.
  - intros Hav Hbad. unfold order_form. rewrite Hgate, Hit, Hm, Hav.
    destruct Hbad as [-> | [Ha Hp]]; [reflexivity|].
    rewrite bool_decide_eq_false_2, orb_true_r; [reflexivity|].
    rewrite elem_of_AM_PM. tauto.
  - intros Hav Ht Hap.
    assert (order_form id req e db =
      respond (redirect (url_payment (next_id (orders db))))
        (mk_db (menu_items db)
           (<[next_id (orders db) :=
                mk_order u (name it) (price it)
                  (str_strip (form_get req "order_time") +:+ " " +:+
                   str_strip (form_get req "order_ampm"))
                  "Pending" (utcnow e) "Unpaid" (Some (gen_token e 6))]> (orders db))
           (feedbacks db))) as Heq.
    { unfold order_form. rewrite Hgate, Hit, Hm, Hav.
      apply String.eqb_neq in Ht. rewrite Ht.
      rewrite bool_decide_eq_true_2 by now apply elem_of_AM_PM.
      simpl. now rewrite Hu. }
    pose proof (next_id_fresh (orders db)) as Hfresh.
    split; [exact Heq|]. split; [exact Hfresh|].
    rewrite Heq. unfold respond. cbn [db_after orders].
    split; [now apply map_size_insert_None|].
    split.
    + intros k o Hk. rewrite lookup_insert_ne; [exact Hk|].
      intros <-. congruence.
    + apply gen_token_spec.
Qed.
End PlaceOrder.

Ltac session_facts :=
  match goal with
  | |- student_session _ _ => split; [reflexivity | vm_compute; discriminate]
  | |- admin_session _ _ => split; reflexivity
  end.

(** The theorem at work: alice orders a samosa at ten o'clock. *)
Lemma order_form_post_spec_witness :
  resp (@order_form cpython 1 order_request ten_o_clock canteen_db) = redirect (url_payment 1)
  /\ size (orders (db_after (@order_form cpython 1 order_request ten_o_clock canteen_db))) = 1%nat.
Proof.
  destruct (@order_form_post_spec cpython 1 order_request ten_o_clock canteen_db
              "alice" samosa) as (_ & _ & Hok);
    [session_facts | reflexivity | reflexivity |].
  destruct Hok as (Heq & _ & Hsize & _);
    [reflexivity | vm_compute; discriminate | right; reflexivity |].
  rewrite Heq. split; [reflexivity | exact Hsize].
Defined.

(** C2 as stated fails: a pickup time that is not a time is not refused, the
    order is stored with it. *)
Lemma order_form_keeps_malformed_pickup_time :
  resp (@order_form cpython 1 banana_request ten_o_clock canteen_db) = redirect (url_payment 1)
  /\ flashed (@order_form cpython 1 banana_request ten_o_clock canteen_db) = []
  /\ pickup_time <$> orders (db_after (@order_form cpython 1 banana_request ten_o_clock canteen_db)) !! 1
     = Some "banana PM".
Proof. vm_compute. repeat split. Qed.

(** ** C3: cancelling an order *)

Section CancelOrder.
Context `{PyBuiltins}.

Lemma cancel_order_student (id : Z) (req : request) (db : database)
    (u : string) (o : Order) :
  student_session (session req) u ->
  method req = POST ->
  orders db !! id = Some o ->
  cancel_order id req db =
  if negb (String.eqb (username o) u)
  then respond (jsonify (json_error "Not authorized") 403) db
  else if negb (String.eqb (status o) "Pending")
  then respond (jsonify (json_error "Only pending orders can be cancelled") 400) db
  else respond (jsonify json_ok 200)
               (mk_db (menu_items db)
                      (<[id := set_status "Cancelled" o]> (orders db))
                      (feedbacks db)).
Proof.
  intros Hs Hm Ho. unfold cancel_order.
  rewrite Hm, (student_gate _ _ Hs), Ho.
  destruct Hs as [-> _]. reflexivity.
Qed.

(** C3.  For a POST that cancels an existing order: whoever is not a
    logged-in student is sent to the login page and nothing changes; a
    student who is not the owner gets 403 and nothing changes; the owner of
    an order that is not Pending gets 400 and nothing changes; the owner of a
    Pending order gets the ok reply and the order's status becomes Cancelled,
    no other order changing; the ok reply is given exactly when the owner
    cancels a Pending order; and after a cancellation that succeeded, the
    same request again gets 400 and leaves the order Cancelled. *)
Theorem cancel_order_spec (id : Z) (req : request) (db : database) (o : Order) :
  method req = POST ->
  orders db !! id = Some o ->
  (is_logged_in (session req) = false \/ is_admin (session req) = true ->
     cancel_order id req db = respond (redirect url_login) db)
  /\ (forall u : string,
        student_session (session req) u ->
        (username o <> u ->
           cancel_order id req db = respond (jsonify (json_error "Not authorized") 403) db)
        /\ (username o = u -> status o <> "Pending" ->
            cancel_order id req db =
            respond (jsonify (json_error "Only pending orders can be cancelled") 400) db)
        /\ (username o = u -> status o = "Pending" ->
            let db' := mk_db (menu_items db)
                             (<[id := set_status "Cancelled" o]> (orders db))
                             (feedbacks db) in
            cancel_order id req db = respond (jsonify json_ok 200) db'
            /\ status <$> orders db' !! id = Some "Cancelled"
            /\ (forall k, k <> id -> orders db' !! k = orders db !! k)
            /\ cancel_order id req db' =
               respond (jsonify (json_error "Only pending orders can be cancelled") 400) db')
        /\ (resp (cancel_order id req db) = jsonify json_ok 200 <->
            username o = u /\ status o = "Pending")).
Proof.
  intros Hm Ho. split.
  { intros Hno. unfold cancel_order. rewrite Hm.
    destruct Hno as [-> | ->]; [reflexivity | now rewrite orb_true_r]. }
  intros u Hs.
  pose proof (cancel_order_student id req db u o Hs Hm Ho) as Hc.
  split; [|split; [|split]].
  - intros Hu. apply String.eqb_neq in Hu. now rewrite Hc, Hu.
  - intros Hu Hp. apply String.eqb_eq in Hu. apply String.eqb_neq in Hp.
    now rewrite Hc, Hu, Hp.
  - intros Hu Hp. cbv zeta. cbn [orders].
    apply String.eqb_eq in Hu. pose proof Hp as Hp'. apply String.eqb_eq in Hp'.
    split; [now rewrite Hc, Hu, Hp'|].
    split; [now rewrite lookup_insert_eq|].
    split; [intros k Hk; now rewrite lookup_insert_ne|].
    rewrite (cancel_order_student id req _ u (set_status "Cancelled" o) Hs Hm)
      by (cbn [orders]; now rewrite lookup_insert_eq).
    cbn [username status set_status]. now rewrite Hu.
  - rewrite Hc.
    destruct (String.eqb_spec (username o) u) as [Hu|Hu];
    destruct (String.eqb_spec (status o) "Pending") as [Hp|Hp];
    cbn [negb resp respond]; split; try tauto; try discriminate;
    intros [? ?]; congruence.
Qed.
End CancelOrder.

(** The theorem at work: alice cancels her pending order, twice. *)
Lemma cancel_order_spec_witness :
  resp (cancel_order 1 (post alice) one_order_db) = jsonify json_ok 200
  /\ resp (cancel_order 1 (post alice)
             (db_after (cancel_order 1 (post alice) one_order_db)))
     = jsonify (json_error "Only pending orders can be cancelled") 400.
Proof.
  destruct (cancel_order_spec 1 (post alice) one_order_db alice_order eq_refl eq_refl)
    as [_ Hstudent].
  destruct (Hstudent "alice") as (_ & _ & Hok & _); [session_facts|].
  destruct Hok as (H1 & _ & _ & H2); [reflexivity | reflexivity |].
  rewrite H1. unfold respond at 1 2. cbn [db_after resp].
  rewrite H2. split; reflexivity.
Defined.

(** ** C4 and C9: recording a payment *)

Lemma payment_student (id : Z) (req : request) (db : database) (u : string) :
  student_session (session req) u ->
  payment id req db =
  match orders db !! id with
  | None => respond (get_or_404_miss id) db
  | Some o =>
    if negb (String.eqb (username o) u)
    then flash_redirect "Not authorized" "danger" url_student_dashboard db
    else
      match method req with
      | POST =>
        mk_reply (redirect (url_order_receipt id))
                 [("Payment successful via " +:+ default "None" (form req !! "method")
                   +:+ " (dummy).", "success")]
                 (mk_db (menu_items db)
                        (<[id := set_payment_status "Paid" o]> (orders db))
                        (feedbacks db))
      | GET => respond (render_template (payment_html (total_price o) (id, o))) db
      end
  end.
Proof.
  intros Hs. unfold payment. rewrite (student_gate _ _ Hs).
  destruct Hs as [Hu Hr]. rewrite Hu.
  unfold is_admin. rewrite (bool_decide_eq_false_2 _ Hr).
  destruct (orders db !! id) as [o|]; [|reflexivity].
  cbn [negb]. now rewrite andb_true_r.
Qed.

(** Whoever is admin is sent to the login page by the first test of
    [payment]; the owner-or-admin test below it is never reached by one. *)
Lemma payment_admin (id : Z) (req : request) (db : database) :
  is_admin (session req) = true ->
  payment id req db = respond (redirect url_login) db.
Proof. intros Ha. unfold payment. now rewrite Ha, orb_true_r. Qed.

(** C4 at the failing input: the admin posts a payment for alice's order;
    the reply is the redirect to the login page and the order stays Unpaid. *)
Lemma payment_by_admin_is_refused :
  payment 1 (pay_by_card the_admin) one_order_db = respond (redirect url_login) one_order_db
  /\ payment_status <$> orders (db_after (payment 1 (pay_by_card the_admin) one_order_db)) !! 1
     = Some "Unpaid".
Proof. split; vm_compute; reflexivity. Qed.

(** The rest of C4 holds: a missing order is 404 (the driver's error, a 500,
    for an id beyond 64 bits), another student is refused, the owner's
    payment marks the order Paid. *)
Lemma payment_by_students (id : Z) (req : request) (db : database) (u : string) :
  student_session (session req) u ->
  method req = POST ->
  (orders db !! id = None ->
     payment id req db =
     respond (if sqlite_integer id then abort 404
              else internal_server_error OverflowError) db)
  /\ (forall o, orders db !! id = Some o -> username o <> u ->
        payment id req db =
        flash_redirect "Not authorized" "danger" url_student_dashboard db)
  /\ (forall o, orders db !! id = Some o -> username o = u ->
        resp (payment id req db) = redirect (url_order_receipt id)
        /\ payment_status <$> orders (db_after (payment id req db)) !! id = Some "Paid").
Proof.
  intros Hs Hm. rewrite (payment_student id req db u Hs).
  split; [|split].
  - now intros ->.
  - intros o -> Hu. apply String.eqb_neq in Hu. now rewrite Hu.
  - intros o -> Hu. apply String.eqb_eq in Hu. rewrite Hu, Hm.
    cbn [negb resp db_after orders]. now rewrite lookup_insert_eq.
Qed.

(** ** C6: the total spent *)

Lemma elem_of_orders_of (db : database) (u : string) (id : Z) (o : Order) :
  (id, o) ∈ orders_of db u <-> orders db !! id = Some o /\ username o = u.
Proof.
  unfold orders_of, query_all.
  rewrite merge_sort_Permutation, list_elem_of_filter, elem_of_map_to_list.
  simpl. tauto.
Qed.


Lemma order_history_student `{PyBuiltins} (req : request) (db : database) (u : string) :
  student_session (session req) u ->
  method req = GET ->
  order_history req db =
  respond (render_template
             (order_history_html (orders_of db u) (total_spent_of (orders_of db u)))) db.
Proof.
  intros Hs Hm. unfold order_history.
  rewrite Hm, (student_gate _ _ Hs). destruct Hs as [-> _]. reflexivity.
Qed.



(** ** C9: paying for an order in any state *)

(** C9.  When the owner posts a payment for an existing order, whatever its
    status and payment status were, the order becomes Paid with its status
    untouched, and on the owner's history page afterwards its price is one of
    the terms of the sum.  So for a Cancelled order of price 15 paid
    afterwards, the total spent is 15. *)
Theorem payment_ignores_order_state :
  (forall (py : PyBuiltins) (id : Z) (req hreq : request) (db : database)
          (u : string) (o : Order),
     student_session (session req) u ->
     method req = POST ->
     orders db !! id = Some o ->
     username o = u ->
     session hreq = session req ->
     method hreq = GET ->
     resp (payment id req db) = redirect (url_order_receipt id)
     /\ orders (db_after (payment id req db)) !! id = Some (set_payment_status "Paid" o)
     /\ payment_status (set_payment_status "Paid" o) = "Paid"
     /\ status (set_payment_status "Paid" o) = status o
     /\ exists before after : list (Z * Order),
          order_history hreq (db_after (payment id req db)) =
          respond (render_template
                     (order_history_html (orders_of (db_after (payment id req db)) u)
                        (py_sum (map (fun r => total_price r.2)
                                     (before ++ (id, set_payment_status "Paid" o) :: after)))))
                  (db_after (payment id req db)))
  /\ status <$> orders cancelled_order_db !! 1 = Some "Cancelled"
  /\ @order_history cpython (get alice)
       (db_after (payment 1 (pay_by_card alice) cancelled_order_db)) =
     respond (render_template
                (order_history_html
                   [(1, set_payment_status "Paid" (set_status "Cancelled" alice_order))] 15))
             (db_after (payment 1 (pay_by_card alice) cancelled_order_db)).
Proof.
  split; [|split; vm_compute; reflexivity].
  intros py id req hreq db u o Hs Hm Ho Hu Hsess Hget.
  rewrite (payment_student id req db u Hs), Ho, Hm.
  apply String.eqb_eq in Hu as Hu'. rewrite Hu'.
  cbn [negb resp db_after orders].
  split; [reflexivity|]. split; [now rewrite lookup_insert_eq|].
  split; [reflexivity|]. split; [reflexivity|].
  set (db' := mk_db _ _ _).
  assert ((id, set_payment_status "Paid" o)
          ∈ filter (fun r : Z * Order => payment_status r.2 = "Paid") (orders_of db' u))
    as Hin.
  { rewrite list_elem_of_filter, elem_of_orders_of. subst db'. cbn [orders].
    rewrite lookup_insert_eq. auto. }
  apply list_elem_of_split in Hin as (before & after & Hsplit).
  exists before, after. rewrite <- Hsplit.
  apply order_history_student; [now rewrite Hsess | exact Hget].
Qed.

(** The theorem at work: alice pays for the order she cancelled. *)
Lemma payment_ignores_order_state_witness :
  resp (payment 1 (pay_by_card alice) cancelled_order_db) = redirect (url_order_receipt 1)
  /\ orders (db_after (payment 1 (pay_by_card alice) cancelled_order_db)) !! 1
     = Some (set_payment_status "Paid" (set_status "Cancelled" alice_order)).
Proof.
  destruct (proj1 payment_ignores_order_state cpython 1 (pay_by_card alice) (get alice)
              cancelled_order_db "alice" (set_status "Cancelled" alice_order))
    as (H1 & H2 & _);
    [session_facts | reflexivity | reflexivity | reflexivity | reflexivity | reflexivity |].
  split; [exact H1 | exact H2].
Defined.

(** ** C5: the admin's status update *)

Section UpdateStatus.
Context `{PyBuiltins}.

(** C5, as the code has it.  On a POST: whoever is not a logged-in admin
    is sent to the login page and nothing changes; for an admin who sends a
    non-empty order id that reads as the integer [n] and a non-empty
    status [st], a missing order [n] gives the "Order not found" flash and
    nothing changes, and an existing order [n] gets status [st], whatever
    its status was and whatever [st] is: the value is stored as sent, with
    no check against Pending, Preparing, Ready, Completed, Cancelled.  ([n]
    is within the 64 bits of the store's integers.) *)
Theorem admin_update_order_spec (req : request) (db : database) :
  method req = POST ->
  (is_logged_in (session req) = false \/ is_admin (session req) = false ->
     admin_update_order req db = respond (redirect url_login) db)
  /\ (forall (u oid st : string) (n : Z),
        admin_session (session req) u ->
        form req !! "order_id" = Some oid -> oid <> "" ->
        form req !! "status" = Some st -> st <> "" ->
        py_int oid = Some n ->
        - 2 ^ 63 <= n < 2 ^ 63 ->
        (orders db !! n = None ->
           admin_update_order req db =
           flash_redirect "Order not found" "warning" url_admin_orders db)
        /\ (forall o, orders db !! n = Some o ->
              admin_update_order req db =
              flash_redirect "Order status updated successfully" "success"
                url_admin_orders
                (mk_db (menu_items db) (<[n := set_status st o]> (orders db))
                       (feedbacks db))
              /\ status <$> orders (db_after (admin_update_order req db)) !! n = Some st)).
Proof.
  intros Hm. split.
  - intros Hno. unfold admin_update_order. rewrite Hm.
    destruct Hno as [-> | ->]; [reflexivity | now rewrite orb_true_r].
  - intros u oid st n Ha Hoid Hoidne Hst Hstne Hint Hn.
    destruct (admin_is_admin _ _ Ha) as [Hl Hadm].
    assert (admin_update_order req db =
            match orders db !! n with
            | Some o =>
              flash_redirect "Order status updated successfully" "success"
                url_admin_orders
                (mk_db (menu_items db) (<[n := set_status st o]> (orders db))
                       (feedbacks db))
            | None => flash_redirect "Order not found" "warning" url_admin_orders db
            end) as Heq.
    { unfold admin_update_order. rewrite Hm, Hl, Hadm. cbv zeta.
      rewrite Hoid, Hst.
      apply String.eqb_neq in Hoidne, Hstne.
      cbn [negb orb truthy default]. rewrite Hoidne, Hstne.
      cbn [negb andb]. unfold id.
      now rewrite Hint, (sqlite_integer_in_range n Hn). }
    rewrite Heq. split.
    + now intros ->.
    + intros o ->. split; [reflexivity|].
      unfold flash_redirect. cbn [db_after orders]. now rewrite lookup_insert_eq.
Qed.
End UpdateStatus.

(** The theorem at work: the admin marks alice's order Ready. *)
Lemma admin_update_order_spec_witness :
  status <$> orders (db_after (@admin_update_order cpython ready_status_request one_order_db)) !! 1
  = Some "Ready".
Proof.
  destruct (@admin_update_order_spec cpython ready_status_request one_order_db eq_refl)
    as [_ Hadm].
  destruct (Hadm "canteen_admin" "1" "Ready" 1) as [_ Hset];
    [session_facts | reflexivity | discriminate | reflexivity | discriminate | reflexivity
    | lia |].
  destruct (Hset alice_order eq_refl) as [_ Hst]. exact Hst.
Defined.

(** C5 as stated fails: a status that is none of the five known values is
    stored, with the success flash. *)
Lemma admin_update_order_stores_unknown_status :
  flashed (@admin_update_order cpython banana_status_request one_order_db)
  = [("Order status updated successfully", "success")]
  /\ status <$> orders (db_after (@admin_update_order cpython banana_status_request one_order_db)) !! 1
     = Some "Banana".
Proof. split; vm_compute; reflexivity. Qed.

(** ** C8: adding a menu item *)

Section AddItem.
Context `{PyBuiltins}.

(** C8, as the code has it.  On a POST: whoever is not a logged-in admin
    is sent to the login page and nothing changes; for an admin, an empty
    name or an empty price (after trimming) gives the "Provide name and
    price" flash and a price that [float] does not read gives the "Price
    must be a number" flash, nothing being stored in either case; a price
    that [float] reads as NaN fails at the commit (the store refuses it:
    [IntegrityError], a server error) and nothing is stored; any other
    price that [float] reads is accepted, of any sign and zero too: the
    item is added under a fresh id with the trimmed name, that price (0.0
    for a zero of either sign), [available] true and the optional bounds. *)
Theorem admin_menu_post_spec (req : request) (db : database) :
  method req = POST ->
  (is_logged_in (session req) = false \/ is_admin (session req) = false ->
     admin_menu req db = respond (redirect url_login) db)
  /\ (forall u : string,
        admin_session (session req) u ->
        (str_strip (form_get req "name") = "" \/ str_strip (form_get req "price") = "" ->
           admin_menu req db =
           flash_redirect "Provide name and price" "danger" url_admin_menu db)
        /\ (str_strip (form_get req "name") <> "" ->
            str_strip (form_get req "price") <> "" ->
            py_float (str_strip (form_get req "price")) = None ->
            admin_menu req db =
            flash_redirect "Price must be a number" "danger" url_admin_menu db)
        /\ (forall price_val : float,
              str_strip (form_get req "name") <> "" ->
              str_strip (form_get req "price") <> "" ->
              py_float (str_strip (form_get req "price")) = Some price_val ->
              (PrimFloat.is_nan price_val = true ->
                 admin_menu req db = respond (internal_server_error IntegrityError) db)
              /\ (PrimFloat.is_nan price_val = false ->
                    admin_menu req db =
                    flash_redirect "Item added" "success" url_admin_menu
                      (mk_db (<[next_id (menu_items db) :=
                                  mk_item (str_strip (form_get req "name"))
                                    (if PrimFloat.is_zero price_val then 0%float
                                     else price_val)
                                    true
                                    (strip_or_None (form_get req "available_from"))
                                    (strip_or_None (form_get req "available_to"))]>
                                (menu_items db))
                             (orders db) (feedbacks db))
                    /\ menu_items db !! next_id (menu_items db) = None
                    /\ available <$> menu_items (db_after (admin_menu req db))
                                     !! next_id (menu_items db) = Some true))).
Proof.
  intros Hm. split.
  - intros Hno. unfold admin_menu.
    destruct Hno as [-> | ->]; [reflexivity | now rewrite orb_true_r].
  - intros u Ha. destruct (admin_is_admin _ _ Ha) as [Hl Hadm].
    unfold admin_menu. rewrite Hm, Hl, Hadm. cbn [negb orb]. cbv zeta.
    split; [|split].
    + intros [-> | ->]; [reflexivity | now rewrite orb_true_r].
    + intros Hn Hp Hf. apply String.eqb_neq in Hn, Hp. now rewrite Hn, Hp, Hf.
    + intros v Hn Hp Hf. apply String.eqb_neq in Hn, Hp. rewrite Hn, Hp, Hf.
      cbn [orb]. unfold store_real. split; intros ->; [reflexivity|].
      destruct (PrimFloat.is_zero v).
      * split; [reflexivity|]. split; [apply next_id_fresh|].
        unfold flash_redirect. cbn [db_after menu_items].
        now rewrite lookup_insert_eq.
      * split; [reflexivity|]. split; [apply next_id_fresh|].
        unfold flash_redirect. cbn [db_after menu_items].
        now rewrite lookup_insert_eq.
Qed.
End AddItem.

(** The theorem at work: the admin adds tea at 12.50, served from 08:00. *)
Lemma admin_menu_post_spec_witness :
  menu_items (db_after (@admin_menu cpython tea_request canteen_db)) !! 2
  = Some (mk_item "Tea" 12.5 true (Some "08:00") None).
Proof.
  destruct (@admin_menu_post_spec cpython tea_request canteen_db eq_refl) as [_ Hadm].
  destruct (Hadm "canteen_admin") as (_ & _ & Hadd); [session_facts|].
  destruct (Hadd 12.5%float) as (_ & Hstored);
    [vm_compute; discriminate | vm_compute; discriminate | vm_compute; reflexivity |].
  destruct (Hstored eq_refl) as (Heq & _).
  rewrite Heq. vm_compute. reflexivity.
Defined.

(** C8 as stated fails: a negative price and a zero price are both accepted
    and the items stored. *)
Lemma admin_menu_accepts_nonpositive_price :
  flashed (@admin_menu cpython negative_price_request canteen_db) = [("Item added", "success")]
  /\ menu_items (db_after (@admin_menu cpython negative_price_request canteen_db)) !! 2
     = Some (mk_item "Tea" (-5) true None None)
  /\ flashed (@admin_menu cpython zero_price_request canteen_db) = [("Item added", "success")]
  /\ menu_items (db_after (@admin_menu cpython zero_price_request canteen_db)) !! 2
     = Some (mk_item "Water" 0 true None None).
Proof. repeat split; vm_compute; reflexivity. Qed.

(** ** C10: feedback on any item id *)

Section SubmitFeedback.
Context `{PyBuiltins}.

(** C10.  A logged-in student who posts a rating that reads as an integer
    from 1 to 5 gets the thanks flash, and one feedback row carrying the
    given item id is added under a fresh id, for every item id the route
    and the store can carry (a natural number below 2^63): the menu is not
    consulted, so the item need not exist and the reply is never the 404 of
    a missing item. *)
Theorem submit_feedback_any_item (id : Z) (req : request) (e : env) (db : database)
    (u s : string) (r : Z) :
  student_session (session req) u ->
  method req = POST ->
  form req !! "rating" = Some s ->
  py_int s = Some r ->
  1 <= r <= 5 ->
  0 <= id < 2 ^ 63 ->
  submit_feedback id req e db =
  flash_redirect "Thanks for the feedback!" "success" url_menu
    (mk_db (menu_items db) (orders db)
       (<[next_id (feedbacks db) :=
            mk_feedback id u r (Some (str_strip (form_get req "comment"))) (utcnow e)]>
          (feedbacks db)))
  /\ feedbacks db !! next_id (feedbacks db) = None
  /\ item_id <$> feedbacks (db_after (submit_feedback id req e db)) !! next_id (feedbacks db)
     = Some id
  /\ size (feedbacks (db_after (submit_feedback id req e db))) = S (size (feedbacks db))
  /\ resp (submit_feedback id req e db) <> abort 404.
Proof.
  intros Hs Hm Hform Hint Hr Hid.
  assert (submit_feedback id req e db =
    flash_redirect "Thanks for the feedback!" "success" url_menu
      (mk_db (menu_items db) (orders db)
         (<[next_id (feedbacks db) :=
              mk_feedback id u r (Some (str_strip (form_get req "comment"))) (utcnow e)]>
            (feedbacks db)))) as Heq.
  { unfold submit_feedback. rewrite Hm, (student_gate _ _ Hs), Hform, Hint.
    destruct Hs as [-> _].
    destruct (Z.ltb_spec r 1); [lia|]. destruct (Z.ltb_spec 5 r); [lia|].
    cbn [orb]. now rewrite (sqlite_integer_id id Hid). }
  pose proof (next_id_fresh (feedbacks db)) as Hfresh.
  rewrite Heq. unfold flash_redirect. cbn [db_after feedbacks resp].
  split; [reflexivity|]. split; [exact Hfresh|].
  split; [now rewrite lookup_insert_eq|].
  split; [now apply map_size_insert_None | discriminate].
Qed.
End SubmitFeedback.

(** The theorem at work: alice rates item 999 and the menu is empty. *)
Lemma submit_feedback_any_item_witness :
  menu_items empty_db !! 999 = None
  /\ feedbacks (db_after (@submit_feedback cpython 999 rate_999_request ten_o_clock empty_db)) !! 1
     = Some (mk_feedback 999 "alice" 4 (Some "nice") 1700000000).
Proof.
  split; [reflexivity|].
  destruct (@submit_feedback_any_item cpython 999 rate_999_request ten_o_clock empty_db
              "alice" "4" 4) as (Heq & _);
    [session_facts | reflexivity | reflexivity | reflexivity | lia | lia |].
  rewrite Heq. vm_compute. reflexivity.
Defined.

(** ** C7: the average rating *)

Lemma elem_of_feedback_of (db : database) (i id : Z) (f : Feedback) :
  (id, f) ∈ feedback_of db i <-> feedbacks db !! id = Some f /\ item_id f = i.
Proof.
  unfold feedback_of, query_all.
  rewrite list_elem_of_filter, elem_of_map_to_list. simpl. tauto.
Qed.

Lemma menu_loop_ok `{PyBuiltins} (db : database) (cur : time) (items : list (Z * MenuItem)) :
  Forall (fun it : Z * MenuItem => exists b, in_availability it.2 cur = Ok b) items ->
  exists ds, menu_loop db cur items = Ok ds
             /\ map item ds = items
             /\ Forall (fun d => avg_rating d = average_rating (feedback_of db (item d).1)) ds.
Proof.
  induction 1 as [|it items [b Hb] _ (ds & Hloop & Hitems & Havg)].
  - exists []. repeat split. constructor.
  - exists (mk_entry it b (average_rating (feedback_of db it.1)) :: ds).
    cbn [menu_loop]. unfold menu_item_data. rewrite Hb, Hloop.
    split; [reflexivity|]. split.
    + cbn [map item]. now rewrite Hitems.
    + constructor; [reflexivity | exact Havg].
Qed.

Lemma ratings_sum_bounds (ratings : list (Z * Feedback)) :
  Forall (fun r : Z * Feedback => 1 <= rating r.2 <= 5) ratings ->
  Z.of_nat (length ratings) <= ratings_sum ratings <= 5 * Z.of_nat (length ratings).
Proof.
  unfold ratings_sum. induction 1 as [|r l Hr _ IH]; cbn [length map foldr]; lia.
Qed.

Lemma average_rating_cons `{PyBuiltins} (ratings : list (Z * Feedback)) :
  ratings <> [] ->
  average_rating ratings =
  Some (py_round2 (int_truediv (ratings_sum ratings) (Z.of_nat (length ratings)))).
Proof. destruct ratings; [congruence | reflexivity]. Qed.

(** The arithmetic behind "the mean rounded to 2 places": a quotient off by
    no more than [2^-53] of [s / n], then a hundredth no farther than one
    half of a hundredth from it, is a hundredth no farther than 0.005 from
    [s / n], the two errors adding up to less than the next integer. *)
Lemma rounded_mean_from_laws `{PyBuiltins} (s n : Z) :
  0 < n -> n <= s <= 5 * n -> n < 2 ^ 43 ->
  true_division_is_nearest s n ->
  round2_is_nearest (int_truediv s n) ->
  exists k, py_round2 (int_truediv s n) = hundredths k /\ rounds_to s n k.
Proof.
  intros Hn Hs Hlt (a & d & Hx & Hd & Hdiv) (a' & d' & k & Hx' & _ & Hk & Hround).
  rewrite Hx in Hx'. injection Hx' as <- <-.
  exists k. split; [exact Hk|]. unfold rounds_to.
  assert (2 ^ 43 = 8796093022208) as E43 by reflexivity.
  assert (2 ^ 53 = 9007199254740992) as E53 by reflexivity.
  rewrite E43 in Hlt. rewrite E53 in Hdiv.
  assert (2 * Z.abs (n * (k * d) - 100 * (n * a)) <= n * d) as H1.
  { replace (n * (k * d) - 100 * (n * a)) with (n * (k * d - 100 * a)) by ring.
    rewrite Z.abs_mul, (Z.abs_eq n) by lia. nia. }
  assert (s * d <= 5 * (n * d)) as H2 by nia.
  assert ((100 * s - k * n) * d = 100 * (s * d - n * a) - (n * (k * d) - 100 * (n * a))) as H3
    by ring.
  destruct (Z_le_gt_dec (2 * Z.abs (100 * s - k * n)) n) as [Hle | Hgt]; [exact Hle | exfalso].
  assert (n * d + d <= 2 * (Z.abs (100 * s - k * n) * d)) as H4 by nia.
  rewrite <- (Z.abs_eq d) in H4 at 3 by lia. rewrite <- Z.abs_mul, H3 in H4.
  nia.
Qed.

Lemma mean_is_rounded_sound (s n : Z) :
  mean_is_rounded s n = true ->
  exists k, CPython.round2 (CPython.truediv s n) = hundredths k /\ rounds_to s n k.
Proof.
  unfold mean_is_rounded, rounds_to_b, rounds_to. cbv zeta.
  rewrite orb_true_iff, !andb_true_iff, !Leibniz.eqb_spec, !Z.leb_le.
  intros [[? ?] | [? ?]]; eauto.
Qed.

Lemma means_are_rounded_spec (N n s : Z) :
  means_are_rounded N = true -> 1 <= n <= N -> n <= s <= 5 * n ->
  mean_is_rounded s n = true.
Proof.
  unfold means_are_rounded. rewrite forallb_forall. intros Hall Hn Hs.
  specialize (Hall n). rewrite forallb_forall in Hall.
  apply Hall; apply list_elem_of_In, elem_of_seqZ; lia.
Qed.

(** Every sum of up to 100 ratings, by evaluation: 20300 quotients. *)
Lemma means_are_rounded_100 : means_are_rounded 100 = true.
Proof. vm_compute. reflexivity. Qed.

Lemma cpython_mean_rounded (ratings : list (Z * Feedback)) :
  ratings <> [] ->
  Forall (fun r : Z * Feedback => 1 <= rating r.2 <= 5) ratings ->
  (length ratings <= 100)%nat ->
  exists k, @average_rating cpython ratings = Some (hundredths k)
            /\ rounds_to (ratings_sum ratings) (Z.of_nat (length ratings)) k.
Proof.
  intros Hne Hr Hlen.
  pose proof (ratings_sum_bounds ratings Hr) as Hs.
  assert (0 < Z.of_nat (length ratings)) as Hn by (destruct ratings; [congruence | cbn; lia]).
  destruct (mean_is_rounded_sound (ratings_sum ratings) (Z.of_nat (length ratings)))
    as (k & Hk & Hround).
  { apply (means_are_rounded_spec 100); [exact means_are_rounded_100 | lia | lia]. }
  exists k. split; [|exact Hround].
  rewrite average_rating_cons by exact Hne. cbn [py_round2 int_truediv cpython].
  now rewrite Hk.
Qed.

(** C7.  The average of an item with no feedback is [None], the "no rating"
    value, and it is [None] only then (never a zero); for an item with
    feedback it is the sum of the ratings divided by their number, rounded
    to 2 places by [round]; the ratings averaged for item [i] are those of
    exactly the feedback rows whose item id is [i]; the menu page carries
    that average for every menu item, each item once.

    That value is the arithmetic mean rounded to 2 places: with ratings from
    1 to 5, it is the float of a hundredth [k / 100] no farther than 0.005
    from the mean [s / n].  This holds for any number of ratings below 2^43
    once [/] gives the float nearest to the quotient and [round(x, 2)] the
    float nearest to the hundredth nearest to [x], as Python promises; and
    it holds of [cpython], with nothing assumed, for every list of up to 100
    ratings, by evaluation of every sum.

    Ratings 3, 5 give 4.0, ratings 1, 2, 3, 4, 5 give 3.0; ratings 4, 5, 5
    give 4.67. *)
Theorem menu_average_rating :
  (forall (py : PyBuiltins) (ratings : list (Z * Feedback)),
     (average_rating ratings = None <-> ratings = [])
     /\ (ratings <> [] ->
         average_rating ratings =
         Some (py_round2 (int_truediv (foldr Z.add 0 (map (fun r => rating r.2) ratings))
                                      (Z.of_nat (length ratings))))))
  /\ (forall (db : database) (i id : Z) (f : Feedback),
        (id, f) ∈ feedback_of db i <-> feedbacks db !! id = Some f /\ item_id f = i)
  /\ (forall (py : PyBuiltins) (req : request) (e : env) (db : database) (u : string),
        student_session (session req) u ->
        method req = GET ->
        (forall id it, menu_items db !! id = Some it ->
                       exists b, in_availability it (now e) = Ok b) ->
        exists ds,
          menu req e db = respond (render_template (menu_html ds)) db
          /\ map item ds ≡ₚ map_to_list (menu_items db)
          /\ Forall (fun d => avg_rating d = average_rating (feedback_of db (item d).1)) ds)
  /\ (forall (py : PyBuiltins) (ratings : list (Z * Feedback)),
        ratings <> [] ->
        Forall (fun r : Z * Feedback => 1 <= rating r.2 <= 5) ratings ->
        Z.of_nat (length ratings) < 2 ^ 43 ->
        true_division_is_nearest (ratings_sum ratings) (Z.of_nat (length ratings)) ->
        round2_is_nearest (int_truediv (ratings_sum ratings) (Z.of_nat (length ratings))) ->
        exists k, average_rating ratings = Some (hundredths k)
                  /\ rounds_to (ratings_sum ratings) (Z.of_nat (length ratings)) k)
  /\ (forall ratings : list (Z * Feedback),
        ratings <> [] ->
        Forall (fun r : Z * Feedback => 1 <= rating r.2 <= 5) ratings ->
        (length ratings <= 100)%nat ->
        exists k, @average_rating cpython ratings = Some (hundredths k)
                  /\ rounds_to (ratings_sum ratings) (Z.of_nat (length ratings)) k)
  /\ (merge_sort Z.le (map (fun r : Z * Feedback => rating r.2) (feedback_of rated_db 1)) = [3; 5]
      /\ @average_rating cpython (feedback_of rated_db 1) = Some 4%float)
  /\ (merge_sort Z.le (map (fun r : Z * Feedback => rating r.2) (feedback_of rated_db 2))
      = [1; 2; 3; 4; 5]
      /\ @average_rating cpython (feedback_of rated_db 2) = Some 3%float)
  /\ (feedback_of rated_db 3 = []
      /\ @average_rating cpython (feedback_of rated_db 3) = None)
  /\ (map (fun r : Z * Feedback => rating r.2) three_ratings = [4; 5; 5]
      /\ @average_rating cpython three_ratings = Some (hundredths 467)
      /\ @average_rating cpython three_ratings = CPython.float_of_string "4.67").
Proof.
  split; [|split; [|split; [|split; [|split]]]].
  - intros py ratings. split.
    + destruct ratings; [tauto | split; discriminate].
    + destruct ratings; [congruence | reflexivity].
  - apply elem_of_feedback_of.
  - intros py req e db u Hs Hm Hav.
    destruct (menu_loop_ok db (now e)
                (merge_sort by_name_then_id (query_all (menu_items db))))
      as (ds & Hloop & Hitems & Havg).
    { apply Forall_forall. intros [id it] Hin.
      rewrite merge_sort_Permutation in Hin.
      apply elem_of_map_to_list in Hin. now apply (Hav id). }
    exists ds. unfold menu. rewrite Hm, (student_gate _ _ Hs), Hloop.
    split; [reflexivity|]. split; [|exact Havg].
    rewrite Hitems. apply merge_sort_Permutation.
  - intros py ratings Hne Hr Hlen Hdiv Hround.
    pose proof (ratings_sum_bounds ratings Hr) as Hs.
    assert (0 < Z.of_nat (length ratings)) as Hn
      by (destruct ratings; [congruence | cbn; lia]).
    destruct (rounded_mean_from_laws _ _ Hn Hs Hlen Hdiv Hround) as (k & Hk & Hto).
    exists k. split; [|exact Hto].
    rewrite average_rating_cons by exact Hne. now rewrite Hk.
  - apply cpython_mean_rounded.
  - vm_compute. repeat split.
Qed.

(** The theorem at work: alice opens the menu at ten o'clock; and the two
    promises of Python hold of [cpython] at 14 / 3, so the average of
    4, 5, 5 is 4.67. *)
Lemma menu_average_rating_witness :
  (exists ds,
     @menu cpython (get alice) ten_o_clock rated_db
     = respond (render_template (menu_html ds)) rated_db
     /\ map (fun d => (name (item d).2, available_now d, avg_rating d)) ds
        = [("Dosa", true, Some 4%float); ("Idli", true, Some 3%float); ("Samosa", true, None)])
  /\ @average_rating cpython three_ratings = Some (hundredths 467).
Proof.
  split.
  - destruct (proj1 (proj2 (proj2 menu_average_rating)) cpython (get alice) ten_o_clock
                rated_db "alice") as (ds & Heq & _); [session_facts | reflexivity | |].
    + intros id it Hin. apply elem_of_map_to_list in Hin.
      vm_compute in Hin.
      repeat (apply elem_of_cons in Hin as [Hin | Hin];
              [injection Hin as -> ->; eexists; vm_compute; reflexivity |]).
      now apply elem_of_nil in Hin.
    + exists ds. split; [exact Heq|].
      vm_compute in Heq. injection Heq as <-. vm_compute. reflexivity.
  - destruct (proj1 (proj2 (proj2 (proj2 menu_average_rating))) cpython three_ratings)
      as (k & Hk & Hto).
    + discriminate.
    + repeat constructor; cbn; lia.
    + cbn. lia.
    + eexists _, _. split; [vm_compute; reflexivity|]. split; [reflexivity|].
      apply Z.leb_le. vm_compute. reflexivity.
    + eexists _, _, 467. split; [vm_compute; reflexivity|]. split; [reflexivity|].
      split; [vm_compute; reflexivity|]. apply Z.leb_le. vm_compute. reflexivity.
    + rewrite Hk. unfold rounds_to in Hto.
      change (ratings_sum three_ratings) with 14 in Hto.
      change (Z.of_nat (length three_ratings)) with 3 in Hto.
      assert (k = 467) as -> by lia. reflexivity.
Defined.

(** ** C1 on the sample menu *)

(** The theorem at work on the samosa, sold from 09:00 to 17:00. *)
Lemma in_availability_spec_witness :
  @in_availability cpython samosa (mk_time 9 0 0 0) = Ok true
  /\ @in_availability cpython samosa (mk_time 17 0 0 0) = Ok true
  /\ @in_availability cpython night_snack (mk_time 23 0 0 0) = Ok false.
Proof.
  destruct (@in_availability_spec cpython samosa) as (_ & Hwin & _).
  destruct (Hwin eq_refl "09:00" "17:00" (mk_time 9 0 0 0) (mk_time 17 0 0 0))
    as (_ & _ & Hends & _);
    [reflexivity | discriminate | reflexivity | discriminate | reflexivity | reflexivity |].
  destruct (Hends eq_refl) as [Hfrom Hto].
  destruct (@in_availability_spec cpython night_snack) as (_ & Hnight & _).
  destruct (Hnight eq_refl "22:00" "02:00" (mk_time 22 0 0 0) (mk_time 2 0 0 0))
    as (_ & _ & _ & Hnever);
    [reflexivity | discriminate | reflexivity | discriminate | reflexivity | reflexivity |].
  split; [exact Hfrom|]. split; [exact Hto|]. exact (Hnever eq_refl _).
Defined.

(** One second after the upper bound the item is gone; a malformed bound
    raises. *)
Example in_availability_after_to :
  @in_availability cpython samosa (mk_time 17 0 1 0) = Ok false.
Proof. reflexivity. Qed.

Example in_availability_malformed :
  @in_availability cpython (mk_item "Tea" 10 true (Some "8am") (Some "11:00")) (mk_time 9 0 0 0)
  = Raise ValueError.
Proof. reflexivity. Qed.

(** ** The handlers on sample requests *)

Example gen_token_sample : gen_token ten_o_clock 6 = "DKRY5C".
Proof. reflexivity. Qed.

Example orders_of_newest_first : map fst (orders_of history_db "alice") = [3; 2; 1].
Proof. vm_compute. reflexivity. Qed.

(** At 18:00 the samosa is no longer sold and no order is stored. *)
Example order_form_after_hours :
  @order_form cpython 1 order_request (mk_env (mk_time 18 0 0 0) 1700000000 (fun i => i))
              canteen_db
  = flash_redirect "This item is not available at the selected time." "danger" url_menu
                   canteen_db.
Proof. vm_compute. reflexivity. Qed.

(** The designator is compared as sent: "pm" is refused. *)
Example order_form_lowercase_pm :
  @order_form cpython 1
     (mk_request alice POST (<["order_time" := "12:30"]> (<["order_ampm" := "pm"]> ∅)))
     ten_o_clock canteen_db
  = flash_redirect "Please enter valid time and AM/PM" "danger" (url_order_form 1) canteen_db.
Proof. vm_compute. reflexivity. Qed.

Example cancel_order_by_bob :
  cancel_order 1 (post bob) one_order_db
  = respond (jsonify (json_error "Not authorized") 403) one_order_db.
Proof. vm_compute. reflexivity. Qed.

Example payment_by_bob :
  payment 1 (pay_by_card bob) one_order_db
  = flash_redirect "Not authorized" "danger" url_student_dashboard one_order_db.
Proof. vm_compute. reflexivity. Qed.

Example payment_by_alice :
  flashed (payment 1 (pay_by_card alice) one_order_db)
  = [("Payment successful via Card (dummy).", "success")].
Proof. vm_compute. reflexivity. Qed.

Example submit_feedback_six :
  @submit_feedback cpython 1 (mk_request alice POST (<["rating" := "6"]> ∅)) ten_o_clock
                   canteen_db
  = flash_redirect "Please provide a rating between 1 and 5" "danger" url_menu canteen_db.
Proof. vm_compute. reflexivity. Qed.

Example submit_feedback_not_a_number :
  resp (@submit_feedback cpython 1 (mk_request alice POST (<["rating" := "abc"]> ∅))
                         ten_o_clock canteen_db)
  = internal_server_error ValueError.
Proof. vm_compute. reflexivity. Qed.

Example admin_menu_price_abc :
  @admin_menu cpython (admin_form the_admin [("name", "Tea"); ("price", "abc")]) canteen_db
  = flash_redirect "Price must be a number" "danger" url_admin_menu canteen_db.
Proof. vm_compute. reflexivity. Qed.

Example admin_update_order_missing :
  @admin_update_order cpython (admin_form the_admin [("order_id", "7"); ("status", "Ready")])
                      one_order_db
  = flash_redirect "Order not found" "warning" url_admin_orders one_order_db.
Proof. vm_compute. reflexivity. Qed.

Example admin_update_order_by_student :
  @admin_update_order cpython (admin_form alice [("order_id", "1"); ("status", "Ready")])
                      one_order_db
  = respond (redirect url_login) one_order_db.
Proof. vm_compute. reflexivity. Qed.

(** [round] works on the float: 107/40 is stored just below 2.675. *)
Example round2_of_107_40 :
  Some (CPython.round2 (CPython.truediv 107 40)) = CPython.float_of_string "2.67".
Proof. vm_compute. reflexivity. Qed.

(** ** The store's limits on sample requests *)

(** A price that reads as NaN fails at the commit and nothing is stored; a
    price "-0" is accepted and comes back as 0.0. *)
Example admin_menu_price_nan :
  @admin_menu cpython nan_price_request canteen_db
  = respond (internal_server_error IntegrityError) canteen_db.
Proof. vm_compute. reflexivity. Qed.

Example admin_menu_price_minus_zero :
  flashed (@admin_menu cpython minus_zero_price_request canteen_db)
  = [("Item added", "success")]
  /\ menu_items (db_after (@admin_menu cpython minus_zero_price_request canteen_db)) !! 2
     = Some (mk_item "Tea" 0 true None None)
  /\ option_map PrimFloat.is_zero (@py_float cpython "-0") = Some true
  /\ option_map (PrimFloat.Leibniz.eqb 0) (@py_float cpython "-0") = Some false.
Proof. repeat split; vm_compute; reflexivity. Qed.

(** The id 2^63 passes the routes and fails in the store: a server error
    where a lookup is unhandled, the "Failed to update order" flash where it
    is caught; in no case is anything written. *)
Example payment_beyond_64_bits :
  payment two_63 (pay_by_card alice) one_order_db
  = respond (internal_server_error OverflowError) one_order_db.
Proof. vm_compute. reflexivity. Qed.

Example order_form_beyond_64_bits :
  @order_form cpython two_63 order_request ten_o_clock canteen_db
  = respond (internal_server_error OverflowError) canteen_db.
Proof. vm_compute. reflexivity. Qed.

Example cancel_order_beyond_64_bits :
  cancel_order two_63 (post alice) one_order_db
  = respond (internal_server_error OverflowError) one_order_db.
Proof. vm_compute. reflexivity. Qed.

Example submit_feedback_beyond_64_bits :
  @submit_feedback cpython two_63 rate_999_request ten_o_clock canteen_db
  = respond (internal_server_error OverflowError) canteen_db.
Proof. vm_compute. reflexivity. Qed.

Example admin_update_order_beyond_64_bits :
  @admin_update_order cpython
     (admin_form the_admin [("order_id", "9223372036854775808"); ("status", "Ready")])
     one_order_db
  = flash_redirect
      "Failed to update order: Python int too large to convert to SQLite INTEGER"
      "danger" url_admin_orders one_order_db.
Proof. vm_compute. reflexivity. Qed.

(** The error of [int] shows the id as [repr] writes it: in double quotes
    when it has a single quote, cut after 200 characters. *)
Example admin_update_order_quoted_id :
  @admin_update_order cpython
     (admin_form the_admin [("order_id", "x'"); ("status", "Ready")]) one_order_db
  = flash_redirect
      ("Failed to update order: invalid literal for int() with base 10: " +:+ x_quote_repr)
      "danger" url_admin_orders one_order_db.
Proof. vm_compute. reflexivity. Qed.

Example int_error_is_cut :
  String.length (CPython.int_error (String.string_of_list_ascii (repeat "x"%char 300)))
  = 240%nat.
Proof. vm_compute. reflexivity. Qed.

(** [strip] removes the white space of every script, and so does [int]
    around a number, but for the four ASCII separators U+001C to U+001F. *)
Example strip_unicode_space :
  CPython.strip (ideographic_space +:+ " Tea " +:+ no_break_space) = "Tea"
  /\ CPython.int (" 12" +:+ ideographic_space) = Some 12
  /\ CPython.strip (String "028" "12") = "12"
  /\ CPython.int (String "028" "12") = None.
Proof. repeat split; vm_compute; reflexivity. Qed.

(** * More of the application *)

(** ** Every request is one of eight changes *)

Lemma gate_false (sess : gmap string string) (b : bool) :
  negb (is_logged_in sess) || b = false -> is_logged_in sess = true /\ b = false.
Proof. destruct (is_logged_in sess), b; simpl; intros; try discriminate; auto. Qed.

Lemma in_availability_true_flag `{PyBuiltins} (it : MenuItem) (cur : time) :
  in_availability it cur = Ok true -> available it = true.
Proof.
  unfold in_availability. destruct (available it); [reflexivity | discriminate].
Qed.

Lemma gen_token_ok (e : env) : token_ok (Some (gen_token e 6)).
Proof.
  exists (gen_token e 6). destruct (gen_token_spec e 6) as [Hl Ha]. auto.
Qed.

Section Steps.
Context `{PyBuiltins}.

Lemma run_change (a : action) (db : database) :
  db_change (session (request_of a)) db (run a db).
Proof.
  destruct a as [req e|id req e|id req|req|id req|req|id req|req|id req e];
    unfold run, handle; cbn [request_of].
  - unfold menu. repeat case_match; apply ch_none.
  - unfold order_form. repeat case_match; try apply ch_none;
      unfold respond, flash_redirect; cbn [db_after].
    match goal with Hg : negb _ || _ = false |- _ => apply gate_false in Hg as [_ Hadm] end.
    match goal with Hit : menu_items db !! id = Some ?it |- _ =>
      apply (ch_order_added _ _ id it) end;
      cbn [username item_name total_price status payment_status token];
      eauto using in_availability_true_flag, gen_token_ok.
  - unfold payment. repeat case_match; try apply ch_none;
      unfold respond, flash_redirect; cbn [db_after].
    all: match goal with Hg : negb _ || _ = false |- _ => apply gate_false in Hg as [_ Hadm] end.
    all: match goal with Hc : negb (String.eqb _ _) && _ = false |- _ =>
           rewrite Hadm, andb_true_r in Hc; apply negb_false_iff, String.eqb_eq in Hc end.
    all: apply ch_order_paid; congruence.
  - unfold order_history. repeat case_match; apply ch_none.
  - unfold cancel_order. repeat case_match; try apply ch_none;
      unfold respond, flash_redirect; cbn [db_after].
    match goal with Hg : negb _ || _ = false |- _ => apply gate_false in Hg as [_ Hadm] end.
    repeat match goal with Hc : negb (String.eqb _ _) = false |- _ =>
             apply negb_false_iff, String.eqb_eq in Hc end.
    apply ch_order_cancelled; congruence.
  - unfold admin_menu. repeat case_match; try apply ch_none;
      unfold respond, flash_redirect; cbn [db_after].
    match goal with Hg : negb _ || negb _ = false |- _ =>
      apply gate_false in Hg as [Hl Hadm]; apply negb_false_iff in Hadm end.
    match goal with Hc : String.eqb _ "" || _ = false |- _ =>
      apply orb_false_iff in Hc as [Hn _]; apply String.eqb_neq in Hn end.
    now apply ch_item_added.
  - unfold admin_toggle_menu. repeat case_match; try apply ch_none;
      unfold respond, flash_redirect; cbn [db_after].
    match goal with Hg : negb _ || negb _ = false |- _ =>
      apply gate_false in Hg as [Hl Hadm]; apply negb_false_iff in Hadm end.
    now apply ch_item_toggled.
  - unfold admin_update_order. repeat case_match; try apply ch_none;
      unfold respond, flash_redirect; cbn [db_after].
    match goal with Hg : negb _ || negb _ = false |- _ =>
      apply gate_false in Hg as [Hl Hadm]; apply negb_false_iff in Hadm end.
    match goal with Hc : truthy _ && truthy _ = true |- _ =>
      apply andb_true_iff in Hc as [_ Hst] end.
    destruct (form req !! "status") as [st|]; [|discriminate].
    apply negb_true_iff, String.eqb_neq in Hst.
    now apply ch_status_set.
  - unfold submit_feedback. repeat case_match; try apply ch_none;
      unfold respond, flash_redirect; cbn [db_after].
    all: match goal with Hg : negb _ || _ = false |- _ => apply gate_false in Hg as [_ Hadm] end.
    all: simplify_eq.
    all: match goal with Hc : (_ <? 1) || (5 <? _) = false |- _ =>
           apply orb_false_iff in Hc as [Hlo Hhi];
           apply Z.ltb_ge in Hlo; apply Z.ltb_ge in Hhi end.
    all: apply ch_feedback_added; cbn [fb_username rating]; auto.
Qed.
End Steps.

(** ** What no request undoes *)

Lemma same_snapshot_refl (o : Order) : same_snapshot o o.
Proof. repeat split. Qed.

Lemma same_snapshot_trans (o1 o2 o3 : Order) :
  same_snapshot o1 o2 -> same_snapshot o2 o3 -> same_snapshot o1 o3.
Proof. unfold same_snapshot. intros (?&?&?&?&?&?) (?&?&?&?&?&?). repeat split; congruence. Qed.

Lemma same_item_trans (i1 i2 i3 : MenuItem) :
  same_item i1 i2 -> same_item i2 i3 -> same_item i1 i3.
Proof. unfold same_item. intros (?&?&?&?) (?&?&?&?). repeat split; congruence. Qed.

Lemma continues_refl (db : database) : continues db db.
Proof.
  repeat split; eauto.
  - intros id o Ho. exists o. auto using same_snapshot_refl.
  - intros id it Hit. exists it. repeat split; auto.
Qed.

Lemma continues_trans (d1 d2 d3 : database) :
  continues d1 d2 -> continues d2 d3 -> continues d1 d3.
Proof.
  intros (Ho1 & Hi1 & Hf1) (Ho2 & Hi2 & Hf2). repeat split.
  - intros id o Ho. destruct (Ho1 id o Ho) as (o2 & Ho2' & Hs2 & Hp2).
    destruct (Ho2 id o2 Ho2') as (o3 & Ho3 & Hs3 & Hp3).
    exists o3. split; [exact Ho3|]. split; [eapply same_snapshot_trans; eassumption | auto].
  - intros id it Hit. destruct (Hi1 id it Hit) as (i2 & Hi2' & Hs2).
    destruct (Hi2 id i2 Hi2') as (i3 & Hi3 & Hs3).
    exists i3. split; [exact Hi3 | eapply same_item_trans; eassumption].
  - eauto.
Qed.

Lemma insert_keeps {A} (R : A -> A -> Prop) (t : gmap Z A) (k : Z) (new : A) :
  (forall x, R x x) ->
  (forall old, t !! k = Some old -> R old new) ->
  forall id x, t !! id = Some x -> exists x', <[k := new]> t !! id = Some x' /\ R x x'.
Proof.
  intros Hrefl Hold id x Hx. destruct (decide (id = k)) as [->|Hne].
  - exists new. rewrite lookup_insert_eq. auto.
  - exists x. rewrite lookup_insert_ne by congruence. auto.
Qed.

Lemma continues_orders (db : database) (k : Z) (new : Order) :
  (forall old, orders db !! k = Some old ->
     same_snapshot old new /\ (payment_status old = "Paid" -> payment_status new = "Paid")) ->
  continues db (mk_db (menu_items db) (<[k := new]> (orders db)) (feedbacks db)).
Proof.
  intros Hold. destruct (continues_refl db) as (_ & Hi & Hf).
  split; [|split; [exact Hi | exact Hf]].
  cbn [orders]. intros id o Ho.
  apply (insert_keeps (fun a b => same_snapshot a b /\
                         (payment_status a = "Paid" -> payment_status b = "Paid")));
    auto using same_snapshot_refl.
Qed.

Lemma continues_items (db : database) (k : Z) (new : MenuItem) :
  (forall old, menu_items db !! k = Some old -> same_item old new) ->
  continues db (mk_db (<[k := new]> (menu_items db)) (orders db) (feedbacks db)).
Proof.
  intros Hold. destruct (continues_refl db) as (Ho & _ & Hf).
  split; [exact Ho | split; [|exact Hf]].
  cbn [menu_items]. intros id it Hit.
  apply (insert_keeps same_item); auto. intros x. repeat split.
Qed.

Lemma continues_feedback (db : database) (k : Z) (new : Feedback) :
  feedbacks db !! k = None ->
  continues db (mk_db (menu_items db) (orders db) (<[k := new]> (feedbacks db))).
Proof.
  intros Hfree. destruct (continues_refl db) as (Ho & Hi & _).
  split; [exact Ho | split; [exact Hi|]].
  cbn [feedbacks]. intros id f Hf. rewrite lookup_insert_ne; congruence.
Qed.

Lemma change_continues (sess : gmap string string) (db db' : database) :
  db_change sess db db' -> continues db db'.
Proof.
  destruct 1.
  - apply continues_refl.
  - apply continues_orders. intros old Hold.
    rewrite next_id_fresh in Hold. discriminate.
  - apply continues_orders. intros old Hold.
    assert (old = o) as -> by congruence. repeat split; auto.
  - apply continues_orders. intros old Hold.
    assert (old = o) as -> by congruence. repeat split; auto.
  - apply continues_orders. intros old Hold.
    assert (old = o) as -> by congruence. repeat split; auto.
  - apply continues_items. intros old Hold.
    rewrite next_id_fresh in Hold. discriminate.
  - apply continues_items. intros old Hold.
    assert (old = it) as -> by congruence. repeat split.
  - apply continues_feedback, next_id_fresh.
Qed.

Section History.
Context `{PyBuiltins}.

Lemma runs_cons (a : action) (l : list action) (db : database) :
  runs (a :: l) db = runs l (run a db).
Proof. reflexivity. Qed.

Lemma runs_continues (l : list action) (db : database) : continues db (runs l db).
Proof.
  revert db. induction l as [|a l IH]; intros db.
  - apply continues_refl.
  - rewrite runs_cons. eapply continues_trans; [|apply IH].
    eapply change_continues, run_change.
Qed.

(** An invariant of every single change is an invariant of every list of
    requests. *)
Lemma runs_invariant (P : database -> Prop) :
  (forall sess db db', db_change sess db db' -> P db -> P db') ->
  forall l db, P db -> P (runs l db).
Proof.
  intros Hstep l. induction l as [|a l IH]; intros db Hdb; [exact Hdb|].
  rewrite runs_cons. apply IH. eapply Hstep; [apply run_change | exact Hdb].
Qed.
End History.

(** The rows of a table given in full. *)
Ltac table_rows H :=
  apply elem_of_map_to_list in H; vm_compute in H;
  repeat (apply elem_of_cons in H as [H | H]; [simplify_eq |]);
  try (apply elem_of_nil in H; destruct H).

(** A property of single orders that the three writes to an order keep and
    that a new order has is an invariant of the order table. *)
Lemma change_keeps_orders (Q : Order -> Prop) (sess : gmap string string)
    (db db' : database) :
  (forall s o, Q o -> Q (set_status s o)) ->
  (forall o, Q o -> Q (set_payment_status "Paid" o)) ->
  (forall o, status o = "Pending" -> payment_status o = "Unpaid" ->
             token_ok (token o) -> Q o) ->
  db_change sess db db' ->
  (forall id o, orders db !! id = Some o -> Q o) ->
  forall id o, orders db' !! id = Some o -> Q o.
Proof.
  intros Hst Hpay Hnew Hch Hinv.
  destruct Hch; try exact Hinv; intros k x; cbn [orders];
    rewrite lookup_insert; case_decide; try apply Hinv;
    intros ?; simplify_eq; eauto.
Qed.

(** X1.  Whatever requests follow, an order stays in the table under its id
    with the owner, item name, price, pickup time, creation time and token
    it has, and once Paid it stays Paid: the routes write nothing of an
    order but [status] and [payment_status], and [payment_status] only to
    "Paid". *)
Theorem orders_are_kept `{PyBuiltins} (l : list action) (db : database) (id : Z) (o : Order) :
  orders db !! id = Some o ->
  exists o', orders (runs l db) !! id = Some o'
             /\ same_snapshot o o'
             /\ (payment_status o = "Paid" -> payment_status o' = "Paid").
Proof. intros Ho. destruct (runs_continues l db) as (Hkeep & _). eauto. Qed.

Lemma orders_are_kept_witness :
  exists o', orders (@runs cpython a_day one_order_db) !! 1 = Some o'
             /\ same_snapshot alice_order o'
             /\ (payment_status alice_order = "Paid" -> payment_status o' = "Paid").
Proof. apply (@orders_are_kept cpython a_day one_order_db 1 alice_order). reflexivity. Defined.

(** X2.  Whatever requests follow, a menu item stays on the menu under its
    id with its name, price and window (only its flag can change), and a
    feedback row stays as it is: no route edits or deletes either. *)
Theorem menu_and_feedback_are_kept `{PyBuiltins} (l : list action) (db : database) :
  (forall id it, menu_items db !! id = Some it ->
     exists it', menu_items (runs l db) !! id = Some it' /\ same_item it it')
  /\ (forall id f, feedbacks db !! id = Some f -> feedbacks (runs l db) !! id = Some f).
Proof. destruct (runs_continues l db) as (_ & Hitems & Hfb). auto. Qed.

(** X3.  If every order is Unpaid or Paid, so it is after any requests: an
    order is created Unpaid, [payment] writes "Paid", and nothing else
    writes [payment_status]; "Failed" is never stored. *)
Theorem payments_stay_known `{PyBuiltins} (l : list action) (db : database) :
  payments_known db -> payments_known (runs l db).
Proof.
  apply (runs_invariant payments_known). clear. intros sess db db' Hch.
  intros Hinv.
  refine (change_keeps_orders
            (fun o => payment_status o = "Unpaid" \/ payment_status o = "Paid")
            sess db db' _ _ _ Hch Hinv); auto.
Qed.

Lemma payments_stay_known_witness : payments_known (@runs cpython a_day one_order_db).
Proof.
  apply (@payments_stay_known cpython a_day one_order_db).
  intros id o Ho. table_rows Ho. now left.
Defined.

(** X4.  If every stored rating is from 1 to 5, so it is after any requests:
    [submit_feedback] is the only writer of the table and stores a rating
    only after its range test. *)
Theorem ratings_stay_in_range `{PyBuiltins} (l : list action) (db : database) :
  ratings_in_range db -> ratings_in_range (runs l db).
Proof.
  apply (runs_invariant ratings_in_range). clear. intros sess db db' Hch Hinv.
  destruct Hch; try exact Hinv. intros k x. cbn [feedbacks].
  destruct (decide (k = next_id (feedbacks db))) as [->|Hne].
  - rewrite lookup_insert_eq. intros ?. now simplify_eq.
  - rewrite lookup_insert_ne by congruence. apply Hinv.
Qed.

Lemma ratings_stay_in_range_witness : ratings_in_range (@runs cpython a_day rated_db).
Proof.
  apply (@ratings_stay_in_range cpython a_day rated_db).
  intros id f Hf. table_rows Hf; cbn [rating fb]; lia.
Defined.

(** X5.  If every order carries a token of six upper-case letters or
    digits, so it is after any requests: [order_form] gives each new order
    such a token and no route rewrites it. *)
Theorem tokens_stay_ok `{PyBuiltins} (l : list action) (db : database) :
  tokens_ok db -> tokens_ok (runs l db).
Proof.
  apply (runs_invariant tokens_ok). clear. intros sess db db' Hch.
  intros Hinv.
  refine (change_keeps_orders (fun o => token_ok (token o)) sess db db' _ _ _ Hch Hinv);
    auto.
Qed.

Lemma tokens_stay_ok_witness : tokens_ok (@runs cpython a_day one_order_db).
Proof.
  apply (@tokens_stay_ok cpython a_day one_order_db).
  intros id o Ho. table_rows Ho.
  exists "K3XQ9A". split; [reflexivity|]. split; [reflexivity|].
  vm_compute. repeat constructor.
Defined.

(** X6.  If every order names an item of the menu with that item's price,
    so it does after any requests: [order_form] copies name and price from
    the item it has just read, and no route renames, reprices or removes a
    menu item. *)
Theorem orders_stay_on_menu `{PyBuiltins} (l : list action) (db : database) :
  orders_on_menu db -> orders_on_menu (runs l db).
Proof.
  apply (runs_invariant orders_on_menu). clear. intros sess db db' Hch Hinv.
  pose proof (change_continues sess db db' Hch) as (_ & Hitems & _).
  assert (forall o, (exists mid it, menu_items db !! mid = Some it
                       /\ item_name o = name it /\ total_price o = price it) ->
                    exists mid it, menu_items db' !! mid = Some it
                       /\ item_name o = name it /\ total_price o = price it) as Hmove.
  { intros o (mid & it & Hit & Hn & Hp).
    destruct (Hitems mid it Hit) as (it' & Hit' & Hn' & Hp' & _).
    exists mid, it'. split; [exact Hit'|]. split; congruence. }
  intros k x Hx. apply Hmove. clear Hmove Hitems.
  destruct Hch; cbn [orders] in Hx; try (now apply (Hinv k));
    rewrite lookup_insert in Hx; case_decide; try (now apply (Hinv k)); simplify_eq;
    cbn [item_name total_price set_status set_payment_status]; eauto.
Qed.

Lemma orders_stay_on_menu_witness : orders_on_menu (@runs cpython a_day one_order_db).
Proof.
  apply (@orders_stay_on_menu cpython a_day one_order_db).
  intros id o Ho. table_rows Ho. exists 1, samosa. repeat split.
Defined.

Lemma run_anonymous `{PyBuiltins} (a : action) (db : database) :
  is_logged_in (session (request_of a)) = false ->
  run a db = db.
Proof.
  intros Hanon.
  assert (forall u, session (request_of a) !! "username" = Some u -> False) as Hno.
  { intros u Hu. unfold is_logged_in in Hanon.
    apply bool_decide_eq_false_1 in Hanon. apply Hanon. rewrite Hu. eauto. }
  destruct (run_change a db); try reflexivity; exfalso; eauto; congruence.
Qed.

(** [register] has no login test: it leaves the accounts as they are or, on
    a POST, adds one account of role "user" under a fresh id. *)
Lemma register_writes `{PyBuiltins} `{Werkzeug} (salt : string) (req : request)
    (users : gmap Z User) :
  users_after (register salt req users) = users
  \/ (method req = POST
      /\ exists u, role u = "user"
                   /\ users_after (register salt req users) = <[next_id users := u]> users).
Proof.
  unfold register. repeat case_match; cbn [users_after]; auto.
  right. split; [reflexivity|]. eexists. split; [|reflexivity]. reflexivity.
Qed.

Lemma login_keeps_accounts `{PyBuiltins} `{Werkzeug} (req : request) (users : gmap Z User) :
  users_after (login req users) = users.
Proof. unfold login. repeat case_match; reflexivity. Qed.

Lemma logout_keeps_accounts (req : request) (users : gmap Z User) :
  users_after (logout req users) = users.
Proof. unfold logout. now destruct (method req). Qed.

(** X7.  A request whose session holds no username, to any of the nineteen
    routes and whatever its method and form, changes nothing in the menu,
    the orders and the feedback.  The one thing it can change is the
    accounts: [register] asks for no login, and a POST to it can add one
    account, of role "user", under a fresh id. *)
Theorem anonymous_can_only_register `{PyBuiltins} `{Werkzeug} (r : any_request) (s : site) :
  is_logged_in (session (sent_with r)) = false ->
  store (serve r s) = store s
  /\ (accounts (serve r s) = accounts s
      \/ exists salt req u,
           r = to_register salt req /\ method req = POST /\ role u = "user"
           /\ accounts s !! next_id (accounts s) = None
           /\ accounts (serve r s) = <[next_id (accounts s) := u]> (accounts s)).
Proof.
  intros Hanon. destruct r as [a|salt req|req|req|req|req|req|id req|args req|req|req];
    cbn [serve store accounts]; try (split; [reflexivity | now left]).
  - split; [now apply run_anonymous | now left].
  - split; [reflexivity|].
    destruct (register_writes salt req (accounts s)) as [Hsame | (Hpost & u & Hrole & Hadd)];
      [now left | right].
    exists salt, req, u. auto using next_id_fresh.
  - split; [reflexivity | left; apply login_keeps_accounts].
  - split; [reflexivity | left; apply logout_keeps_accounts].
Qed.

(** The theorem at work: a cancellation sent without a session leaves
    alice's order as it is. *)
Lemma anonymous_can_only_register_witness :
  store (@serve cpython toy_werkzeug (to_store (do_cancel_order 1 (post ∅)))
                (mk_site no_users one_order_db)) = one_order_db.
Proof.
  destruct (@anonymous_can_only_register cpython toy_werkzeug
              (to_store (do_cancel_order 1 (post ∅))) (mk_site no_users one_order_db))
    as [Hstore _]; [reflexivity | exact Hstore].
Defined.

(** And the exception is met: with no session at all, carol gets an
    account. *)
Example anonymous_register_adds_account :
  is_logged_in (session (sent_with carol_registers)) = false
  /\ accounts (@serve cpython toy_werkzeug carol_registers (mk_site no_users one_order_db))
     = <[1 := mk_user "carol" "zz99$s3cret" "user"]> no_users.
Proof. split; vm_compute; reflexivity. Qed.

(** X8.  A student's request leaves the menu as it is and every order of
    another user as it is; an order that appears is the student's own, and
    so is a feedback row that appears. *)
Theorem student_touches_own_rows `{PyBuiltins} (a : action) (db : database) (u : string) :
  student_session (session (request_of a)) u ->
  menu_items (run a db) = menu_items db
  /\ (forall id o, orders db !! id = Some o -> username o <> u ->
        orders (run a db) !! id = Some o)
  /\ (forall id o, orders db !! id = None -> orders (run a db) !! id = Some o ->
        username o = u)
  /\ (forall id f, feedbacks db !! id = None -> feedbacks (run a db) !! id = Some f ->
        fb_username f = u).
Proof.
  intros [Hu Hrole].
  assert (is_admin (session (request_of a)) = false) as Hadm
    by (unfold is_admin; now apply bool_decide_eq_false_2).
  pose proof (next_id_fresh (orders db)) as Hfo.
  pose proof (next_id_fresh (feedbacks db)) as Hff.
  destruct (run_change a db); cbn [menu_items orders feedbacks];
    try congruence; (split; [reflexivity|]); (split; [|split]);
    intros k x; try congruence;
    rewrite ?lookup_insert; repeat case_decide; intros; simplify_eq; try congruence.
Qed.

Lemma student_touches_own_rows_witness :
  orders (@run cpython (do_cancel_order 1 (post bob)) one_order_db) !! 1 = Some alice_order.
Proof.
  destruct (@student_touches_own_rows cpython (do_cancel_order 1 (post bob)) one_order_db "bob")
    as (_ & Hothers & _); [session_facts|].
  apply Hothers; [reflexivity | discriminate].
Defined.

(** X9.  An admin's request adds no order and no feedback and removes
    none; of an existing order it can change the status and nothing else, in
    particular not the payment status. *)
Theorem admin_changes_status_only `{PyBuiltins} (a : action) (db : database) :
  is_admin (session (request_of a)) = true ->
  feedbacks (run a db) = feedbacks db
  /\ dom (orders (run a db)) = dom (orders db)
  /\ (forall id o, orders db !! id = Some o ->
        exists s, orders (run a db) !! id = Some (set_status s o)).
Proof.
  intros Hadm.
  assert (forall o : Order, set_status (status o) o = o) as Hsame by (now intros []).
  destruct (run_change a db); cbn [feedbacks orders]; try congruence.
  - split; [reflexivity|]. split; [reflexivity|].
    intros k x Hx. exists (status x). now rewrite Hsame.
  - split; [reflexivity|]. split.
    + apply dom_insert_lookup_L. eauto.
    + intros k x Hx. rewrite lookup_insert. case_decide; simplify_eq.
      * now exists s.
      * exists (status x). now rewrite Hsame.
  - split; [reflexivity|]. split; [reflexivity|].
    intros k x Hx. exists (status x). now rewrite Hsame.
  - split; [reflexivity|]. split; [reflexivity|].
    intros k x Hx. exists (status x). now rewrite Hsame.
Qed.

Lemma admin_changes_status_only_witness :
  exists s, orders (@run cpython (do_payment 1 (pay_by_card the_admin)) one_order_db) !! 1
            = Some (set_status s alice_order).
Proof.
  destruct (@admin_changes_status_only cpython (do_payment 1 (pay_by_card the_admin))
              one_order_db) as (_ & _ & Hstatus); [reflexivity|].
  apply Hstatus. reflexivity.
Defined.

(** ** The menu switch *)

Lemma toggle_available_twice (it : MenuItem) :
  toggle_available (toggle_available it) = it.
Proof. destruct it as [n p a f t]. unfold toggle_available. cbn. now rewrite negb_involutive. Qed.

Lemma admin_toggle_menu_admin (id : Z) (req : request) (db : database) (u : string) :
  admin_session (session req) u ->
  method req = GET ->
  admin_toggle_menu id req db =
  match menu_items db !! id with
  | None => respond (get_or_404_miss id) db
  | Some it =>
    respond (redirect url_admin_menu)
            (mk_db (<[id := toggle_available it]> (menu_items db)) (orders db) (feedbacks db))
  end.
Proof.
  intros Ha Hm. destruct (admin_is_admin _ _ Ha) as [Hl Hadm].
  unfold admin_toggle_menu. now rewrite Hm, Hl, Hadm.
Qed.

(** X10.  For an admin: switching a missing item is a 404 and changes
    nothing, for an id the store can be asked about (below 2^63); for a
    larger id the lookup itself fails, with the driver's [OverflowError]
    that nothing handles, and nothing changes; switching an existing item
    flips its flag and nothing else, no other item changing; switching it
    twice gives back the database as it was. *)
Theorem admin_toggle_menu_spec (id : Z) (req : request) (db : database) (u : string) :
  admin_session (session req) u ->
  method req = GET ->
  (menu_items db !! id = None -> 0 <= id < 2 ^ 63 ->
     admin_toggle_menu id req db = respond (abort 404) db)
  /\ (menu_items db !! id = None -> 2 ^ 63 <= id ->
        admin_toggle_menu id req db = respond (internal_server_error OverflowError) db)
  /\ (forall it, menu_items db !! id = Some it ->
        menu_items (db_after (admin_toggle_menu id req db)) !! id
        = Some (mk_item (name it) (price it) (negb (available it))
                        (available_from it) (available_to it))
        /\ (forall k, k <> id ->
              menu_items (db_after (admin_toggle_menu id req db)) !! k = menu_items db !! k)
        /\ orders (db_after (admin_toggle_menu id req db)) = orders db
        /\ feedbacks (db_after (admin_toggle_menu id req db)) = feedbacks db
        /\ db_after (admin_toggle_menu id req (db_after (admin_toggle_menu id req db))) = db).
Proof.
  intros Ha Hm. split; [|split].
  - intros Hnone Hid.
    now rewrite (admin_toggle_menu_admin id req db u Ha Hm), Hnone,
      get_or_404_miss_in_range.
  - intros Hnone Hid.
    now rewrite (admin_toggle_menu_admin id req db u Ha Hm), Hnone,
      get_or_404_miss_beyond.
  - intros it Hit. rewrite (admin_toggle_menu_admin id req db u Ha Hm), Hit.
    unfold respond. cbn [db_after menu_items orders feedbacks].
    split; [now rewrite lookup_insert_eq|].
    split; [intros k Hk; now rewrite lookup_insert_ne|].
    split; [reflexivity|]. split; [reflexivity|].
    rewrite (admin_toggle_menu_admin id req _ u Ha Hm). cbn [menu_items].
    rewrite lookup_insert_eq. cbn [db_after menu_items orders feedbacks].
    rewrite toggle_available_twice, insert_insert_eq, insert_id by exact Hit.
    now destruct db.
Qed.

Lemma admin_toggle_menu_spec_witness :
  db_after (admin_toggle_menu 1 toggle_request
              (db_after (admin_toggle_menu 1 toggle_request canteen_db))) = canteen_db
  /\ admin_toggle_menu 7 toggle_request canteen_db = respond (abort 404) canteen_db.
Proof.
  split.
  - destruct (admin_toggle_menu_spec 1 toggle_request canteen_db "canteen_admin")
      as (_ & _ & Hflip); [session_facts | reflexivity |].
    destruct (Hflip samosa eq_refl) as (_ & _ & _ & _ & Hback). exact Hback.
  - destruct (admin_toggle_menu_spec 7 toggle_request canteen_db "canteen_admin")
      as (Hmiss & _); [session_facts | reflexivity |].
    apply Hmiss; [reflexivity | lia].
Defined.

Section SwitchAndOrder.
Context `{PyBuiltins}.

(** X11.  Once an admin has switched off an item that was on, a student's
    order for it is refused at any time of day, window or no window, and no
    order is stored. *)
Theorem switched_off_item_is_refused (id : Z) (areq sreq : request) (e : env)
    (db : database) (a u : string) (it : MenuItem) :
  admin_session (session areq) a ->
  method areq = GET ->
  menu_items db !! id = Some it ->
  available it = true ->
  student_session (session sreq) u ->
  method sreq = POST ->
  order_form id sreq e (db_after (admin_toggle_menu id areq db))
  = flash_redirect "This item is not available at the selected time." "danger" url_menu
                   (db_after (admin_toggle_menu id areq db)).
Proof.
  intros Ha Hget Hit Hon Hs Hpost.
  rewrite (admin_toggle_menu_admin id areq db a Ha Hget), Hit.
  unfold respond. cbn [db_after].
  unfold order_form. rewrite (student_gate _ _ Hs). cbn [menu_items].
  rewrite lookup_insert_eq, Hpost.
  unfold in_availability, toggle_available. cbn [available]. now rewrite Hon.
Qed.
End SwitchAndOrder.

Lemma switched_off_item_is_refused_witness :
  flashed (@order_form cpython 1 order_request ten_o_clock
             (db_after (admin_toggle_menu 1 toggle_request canteen_db)))
  = [("This item is not available at the selected time.", "danger")].
Proof.
  rewrite (@switched_off_item_is_refused cpython 1 toggle_request order_request ten_o_clock
             canteen_db "canteen_admin" "alice" samosa);
    [reflexivity | session_facts | reflexivity | reflexivity | reflexivity | session_facts
    | reflexivity].
Defined.

(** ** A window that is no time *)

Lemma in_availability_raises `{PyBuiltins} (it : MenuItem) (cur : time) (x : exn) :
  in_availability it cur = Raise x -> x = ValueError.
Proof.
  unfold in_availability. repeat case_match; congruence.
Qed.

Lemma menu_loop_raises `{PyBuiltins} (db : database) (cur : time) (items : list (Z * MenuItem)) :
  Exists (fun it : Z * MenuItem => in_availability it.2 cur = Raise ValueError) items ->
  menu_loop db cur items = Raise ValueError.
Proof.
  induction items as [|it items IH]; intros Hex.
  - now apply Exists_nil in Hex.
  - cbn [menu_loop]. unfold menu_item_data.
    destruct (in_availability it.2 cur) as [b|x] eqn:Hav.
    + apply Exists_cons in Hex as [Hhere | Hlater]; [congruence|].
      now rewrite (IH Hlater).
    + now rewrite (in_availability_raises _ _ _ Hav).
Qed.

Section BadWindow.
Context `{PyBuiltins}.

(** X12.  [admin_menu] stores the two bounds as typed, unchecked.  When
    both are non-empty and one is not a time that [strptime] reads, the item
    is added all the same, and from then on the menu page of every student
    is a server error, at any time of day, and so is an order for the
    item. *)
Theorem malformed_window_breaks_menu (areq sreq : request) (e : env) (db : database)
    (a u : string) (price_val : float) :
  admin_session (session areq) a ->
  method areq = POST ->
  str_strip (form_get areq "name") <> "" ->
  str_strip (form_get areq "price") <> "" ->
  py_float (str_strip (form_get areq "price")) = Some price_val ->
  PrimFloat.is_nan price_val = false ->
  str_strip (form_get areq "available_from") <> "" ->
  str_strip (form_get areq "available_to") <> "" ->
  strptime_HM (str_strip (form_get areq "available_from")) = None \/
  strptime_HM (str_strip (form_get areq "available_to")) = None ->
  student_session (session sreq) u ->
  flashed (admin_menu areq db) = [("Item added", "success")]
  /\ (method sreq = GET ->
      menu sreq e (db_after (admin_menu areq db))
      = respond (internal_server_error ValueError) (db_after (admin_menu areq db)))
  /\ (method sreq = POST ->
      order_form (next_id (menu_items db)) sreq e (db_after (admin_menu areq db))
      = respond (internal_server_error ValueError) (db_after (admin_menu areq db))).
Proof.
  intros Ha Hpost Hn Hp Hf Hnan Haf Hat Hbad Hs.
  destruct (admin_is_admin _ _ Ha) as [Hl Hadm].
  set (it := mk_item (str_strip (form_get areq "name"))
                     (if PrimFloat.is_zero price_val then 0%float else price_val) true
                     (Some (str_strip (form_get areq "available_from")))
                     (Some (str_strip (form_get areq "available_to")))).
  assert (admin_menu areq db =
          flash_redirect "Item added" "success" url_admin_menu
            (mk_db (<[next_id (menu_items db) := it]> (menu_items db))
                   (orders db) (feedbacks db))) as Heq.
  { unfold admin_menu, strip_or_None, store_real. rewrite Hl, Hadm, Hpost. cbv zeta.
    apply String.eqb_neq in Hn, Hp, Haf, Hat. rewrite Hn, Hp, Hf, Hnan, Haf, Hat.
    unfold it. now destruct (PrimFloat.is_zero price_val). }
  assert (forall cur, in_availability it cur = Raise ValueError) as Hraise.
  { intros cur. unfold in_availability, it. cbn [available available_from available_to truthy].
    apply String.eqb_neq in Haf, Hat. rewrite Haf, Hat. cbn [negb andb default].
    unfold id. destruct Hbad as [-> | ->]; [reflexivity|].
    now destruct (strptime_HM (str_strip (form_get areq "available_from"))). }
  rewrite Heq. unfold flash_redirect. cbn [flashed db_after].
  split; [reflexivity|]. split.
  - intros Hget. unfold menu. rewrite Hget, (student_gate _ _ Hs). cbn [menu_items].
    rewrite menu_loop_raises; [reflexivity|].
    apply Exists_exists. exists (next_id (menu_items db), it). split; [|apply Hraise].
    rewrite merge_sort_Permutation. apply elem_of_map_to_list, lookup_insert_eq.
  - intros Hp'. unfold order_form. rewrite (student_gate _ _ Hs). cbn [menu_items].
    now rewrite lookup_insert_eq, Hp', Hraise.
Qed.
End BadWindow.

Lemma malformed_window_breaks_menu_witness :
  @menu cpython (get alice) ten_o_clock (db_after (@admin_menu cpython bad_window_request canteen_db))
  = respond (internal_server_error ValueError)
            (db_after (@admin_menu cpython bad_window_request canteen_db)).
Proof.
  destruct (@malformed_window_breaks_menu cpython bad_window_request (get alice) ten_o_clock
              canteen_db "canteen_admin" "alice" 10%float) as (_ & Hmenu & _);
    [session_facts | reflexivity | vm_compute; discriminate | vm_compute; discriminate
    | vm_compute; reflexivity | reflexivity | vm_compute; discriminate
    | vm_compute; discriminate | left; vm_compute; reflexivity | session_facts |].
  apply Hmenu. reflexivity.
Defined.

(** ** Ordering, then paying *)

Section OrderThenPay.
Context `{PyBuiltins}.

Lemma order_form_stores (id : Z) (req : request) (e : env) (db : database)
    (u : string) (it : MenuItem) :
  student_session (session req) u ->
  method req = POST ->
  menu_items db !! id = Some it ->
  in_availability it (now e) = Ok true ->
  str_strip (form_get req "order_time") <> "" ->
  str_strip (form_get req "order_ampm") = "AM" \/
  str_strip (form_get req "order_ampm") = "PM" ->
  order_form id req e db =
  respond (redirect (url_payment (next_id (orders db))))
    (mk_db (menu_items db)
       (<[next_id (orders db) :=
            mk_order u (name it) (price it)
              (str_strip (form_get req "order_time") +:+ " " +:+
               str_strip (form_get req "order_ampm"))
              "Pending" (utcnow e) "Unpaid" (Some (gen_token e 6))]> (orders db))
       (feedbacks db)).
Proof.
  intros Hs Hm Hit Hav Ht Hap. unfold order_form.
  rewrite (student_gate _ _ Hs), Hit, Hm, Hav.
  apply String.eqb_neq in Ht. rewrite Ht.
  rewrite bool_decide_eq_true_2 by now apply elem_of_AM_PM.
  destruct Hs as [-> _]. reflexivity.
Qed.

(** X13.  The id that a successful order redirects to is the id of the new
    order, and the payment page of that id takes the same student's POST:
    the order becomes Paid, still Pending, priced as the item; another
    student's POST to it is refused and leaves it Unpaid. *)
Theorem order_then_payment (id : Z) (req preq oreq : request) (e : env) (db : database)
    (u v : string) (it : MenuItem) :
  student_session (session req) u ->
  method req = POST ->
  menu_items db !! id = Some it ->
  in_availability it (now e) = Ok true ->
  str_strip (form_get req "order_time") <> "" ->
  str_strip (form_get req "order_ampm") = "AM" \/
  str_strip (form_get req "order_ampm") = "PM" ->
  session preq = session req -> method preq = POST ->
  student_session (session oreq) v -> v <> u -> method oreq = POST ->
  exists new_id o,
    resp (order_form id req e db) = redirect (url_payment new_id)
    /\ orders (db_after (payment new_id preq (db_after (order_form id req e db)))) !! new_id
       = Some o
    /\ username o = u /\ total_price o = price it /\ item_name o = name it
    /\ status o = "Pending" /\ payment_status o = "Paid"
    /\ payment new_id oreq (db_after (order_form id req e db))
       = flash_redirect "Not authorized" "danger" url_student_dashboard
                        (db_after (order_form id req e db)).
Proof.
  intros Hs Hm Hit Hav Ht Hap Hsess Hpm Hv Hvu Hom.
  pose proof (order_form_stores id req e db u it Hs Hm Hit Hav Ht Hap) as Heq.
  eexists _, _. rewrite Heq. unfold respond. cbn [resp db_after].
  split; [reflexivity|].
  assert (student_session (session preq) u) as Hs' by now rewrite Hsess.
  rewrite (payment_student _ preq _ u Hs'), (payment_student _ oreq _ v Hv).
  cbn [orders]. rewrite lookup_insert_eq. cbn [username].
  rewrite String.eqb_refl, Hpm. cbn [negb db_after orders].
  rewrite lookup_insert_eq.
  split; [reflexivity|]. repeat (split; [reflexivity|]).
  apply String.eqb_neq in Hvu. rewrite String.eqb_sym in Hvu. now rewrite Hvu.
Qed.
End OrderThenPay.

Lemma order_then_payment_witness :
  exists new_id o,
    resp (@order_form cpython 1 order_request ten_o_clock canteen_db) = redirect (url_payment new_id)
    /\ orders (db_after (payment new_id (pay_by_card alice)
                           (db_after (@order_form cpython 1 order_request ten_o_clock canteen_db))))
          !! new_id = Some o
    /\ payment_status o = "Paid".
Proof.
  destruct (@order_then_payment cpython 1 order_request (pay_by_card alice) (pay_by_card bob)
              ten_o_clock canteen_db "alice" "bob" samosa)
    as (new_id & o & Hresp & Ho & _ & _ & _ & _ & Hpaid & _);
    [session_facts | reflexivity | reflexivity | reflexivity | vm_compute; discriminate
    | right; reflexivity | reflexivity | reflexivity | session_facts | discriminate
    | reflexivity |].
  exists new_id, o. auto.
Defined.

(** ** Asking twice *)

(** A request that changed nothing is answered the same way again. *)
Ltac again handler :=
  unfold respond, flash_redirect; cbn [db_after]; unfold handler;
  repeat match goal with Heq : ?t = _ |- context [?t] => rewrite Heq end;
  reflexivity.

(** X14.  Sending the same payment request twice leaves the database as
    sending it once, and so does sending the same cancellation twice: a
    repeated click pays or cancels nothing more. *)
Theorem payment_and_cancel_twice (id : Z) (req : request) (db : database) :
  db_after (payment id req (db_after (payment id req db))) = db_after (payment id req db)
  /\ db_after (cancel_order id req (db_after (cancel_order id req db)))
     = db_after (cancel_order id req db).
Proof.
  split.
  - unfold payment at 2 3.
    destruct (negb (is_logged_in (session req)) || is_admin (session req)) eqn:Hgate;
      [again payment|].
    destruct (orders db !! id) as [o|] eqn:Ho; [|again payment].
    destruct (session req !! "username") as [u|] eqn:Hu; [|again payment].
    destruct (negb (String.eqb (username o) u) && negb (is_admin (session req))) eqn:Hown;
      [again payment|].
    destruct (method req) eqn:Hm; [again payment|].
    cbn [db_after]. unfold payment. rewrite Hgate. cbn [orders].
    rewrite lookup_insert_eq, Hu. cbn [username set_payment_status].
    rewrite Hown, Hm. cbn [db_after menu_items orders feedbacks].
    now rewrite insert_insert_eq.
  - unfold cancel_order at 2 3.
    destruct (method req) eqn:Hm; [again cancel_order|].
    destruct (negb (is_logged_in (session req)) || is_admin (session req)) eqn:Hgate;
      [again cancel_order|].
    destruct (orders db !! id) as [o|] eqn:Ho; [|again cancel_order].
    destruct (session req !! "username") as [u|] eqn:Hu; [|again cancel_order].
    destruct (negb (String.eqb (username o) u)) eqn:Hown; [again cancel_order|].
    destruct (negb (String.eqb (status o) "Pending")) eqn:Hpend; [again cancel_order|].
    cbn [db_after respond]. unfold cancel_order. rewrite Hm, Hgate. cbn [orders].
    rewrite lookup_insert_eq, Hu. cbn [username status set_status].
    now rewrite Hown.
Qed.

(** ** One more rating *)

Lemma average_rating_perm `{PyBuiltins} (l1 l2 : list (Z * Feedback)) :
  l1 ≡ₚ l2 -> average_rating l1 = average_rating l2.
Proof.
  intros Hperm.
  assert (foldr Z.add 0 (map (fun r : Z * Feedback => rating r.2) l1)
          = foldr Z.add 0 (map (fun r : Z * Feedback => rating r.2) l2)) as Hsum.
  { induction Hperm as [|x l l' _ IH|x y l|l l' l'' _ IH1 _ IH2]; cbn [map foldr];
      [reflexivity | now rewrite IH | lia | congruence]. }
  pose proof (Permutation_length Hperm) as Hlen.
  unfold average_rating.
  destruct l1 as [|x1 l1], l2 as [|x2 l2]; try discriminate; [reflexivity|].
  now rewrite Hsum, Hlen.
Qed.

Section OneMoreRating.
Context `{PyBuiltins}.

(** X15.  A rating that is accepted is added to the ratings of its item and
    replaces none, also when the same student has rated the item before: the
    item's average becomes the rounded mean of the old ratings and the new
    one, and the average of every other item is what it was. *)
Theorem submit_feedback_moves_one_average (id : Z) (req : request) (e : env)
    (db : database) (u s : string) (r : Z) :
  student_session (session req) u ->
  method req = POST ->
  form req !! "rating" = Some s ->
  py_int s = Some r ->
  1 <= r <= 5 ->
  0 <= id < 2 ^ 63 ->
  length (feedback_of (db_after (submit_feedback id req e db)) id)
  = S (length (feedback_of db id))
  /\ average_rating (feedback_of (db_after (submit_feedback id req e db)) id)
     = Some (py_round2
               (int_truediv
                  (r + foldr Z.add 0 (map (fun x => rating x.2) (feedback_of db id)))
                  (Z.of_nat (S (length (feedback_of db id))))))
  /\ (forall j, j <> id ->
        average_rating (feedback_of (db_after (submit_feedback id req e db)) j)
        = average_rating (feedback_of db j)).
Proof.
  intros Hs Hm Hform Hint Hr Hid.
  set (f := mk_feedback id u r (Some (str_strip (form_get req "comment"))) (utcnow e)).
  assert (db_after (submit_feedback id req e db)
          = mk_db (menu_items db) (orders db)
                  (<[next_id (feedbacks db) := f]> (feedbacks db))) as Heq.
  { unfold submit_feedback. rewrite Hm, (student_gate _ _ Hs), Hform, Hint.
    destruct Hs as [-> _].
    destruct (Z.ltb_spec r 1); [lia|]. destruct (Z.ltb_spec 5 r); [lia|].
    cbn [orb]. now rewrite (sqlite_integer_id id Hid). }
  rewrite Heq.
  assert (forall j, feedback_of (mk_db (menu_items db) (orders db)
                       (<[next_id (feedbacks db) := f]> (feedbacks db))) j
                    ≡ₚ (if decide (j = id) then [(next_id (feedbacks db), f)] else [])
                       ++ feedback_of db j) as Hperm.
  { intros j. unfold feedback_of, query_all. cbn [feedbacks].
    rewrite (map_to_list_insert _ _ _ (next_id_fresh (feedbacks db))).
    rewrite filter_cons. cbn [snd item_id f].
    destruct (decide (id = j)) as [->|Hne].
    - now rewrite decide_True.
    - rewrite decide_False by congruence. reflexivity. }
  split; [|split].
  - rewrite (Hperm id), decide_True by reflexivity. reflexivity.
  - rewrite (average_rating_perm _ _ (Hperm id)), decide_True by reflexivity.
    reflexivity.
  - intros j Hj. rewrite (average_rating_perm _ _ (Hperm j)), decide_False by exact Hj.
    reflexivity.
Qed.
End OneMoreRating.

Lemma submit_feedback_moves_one_average_witness :
  @average_rating cpython
     (feedback_of (db_after (@submit_feedback cpython 1 rate_999_request ten_o_clock rated_db)) 1)
  = Some 4%float.
Proof.
  destruct (@submit_feedback_moves_one_average cpython 1 rate_999_request ten_o_clock rated_db
              "alice" "4" 4) as (_ & Havg & _);
    [session_facts | reflexivity | reflexivity | reflexivity | lia | lia |].
  rewrite Havg. vm_compute. reflexivity.
Defined.

(** ** The token generator *)

Lemma position_spec (c d : ascii) (l : list ascii) :
  c ∈ l -> (position c l < length l)%nat /\ nth (position c l) l d = c.
Proof.
  induction l as [|x l IH]; intros Hin.
  - now apply elem_of_nil in Hin.
  - cbn [position]. destruct (Ascii.eqb_spec x c) as [->|Hne].
    + split; [cbn; lia | reflexivity].
    + apply elem_of_cons in Hin as [->|Hin]; [congruence|].
      destruct (IH Hin) as [Hlt Hnth]. split; [cbn; lia | exact Hnth].
Qed.

Lemma map_nth_seq (cs : list ascii) (d : ascii) :
  map (fun i => nth i cs d) (seq 0%nat (length cs)) = cs.
Proof.
  apply (nth_ext _ _ d d).
  - now rewrite length_map, length_seq.
  - intros i Hi. rewrite length_map, length_seq in Hi.
    rewrite (nth_indep _ d (nth 0%nat cs d)) by now rewrite length_map, length_seq.
    rewrite (map_nth (fun i => nth i cs d)), seq_nth by exact Hi. reflexivity.
Qed.

(** X16.  A token of [gen_token(n)] has [n] characters; it is decided by
    the first [n] draws, taken modulo 36; and every string of [n] upper-case
    letters and digits, repeated characters included, is the token of some
    draws. *)
Theorem gen_token_codes (n : nat) :
  (forall e, String.length (gen_token e n) = n)
  /\ (forall e e',
        (forall i, (i < n)%nat ->
           (random_index e i mod 36 = random_index e' i mod 36)%nat) ->
        gen_token e n = gen_token e' n)
  /\ (forall (cs : list ascii) (clock : time) (stamp : Z),
        length cs = n ->
        Forall (fun c => c ∈ String.list_ascii_of_string (ascii_uppercase +:+ digits)) cs ->
        gen_token (mk_env clock stamp (draws_for cs)) n = String.string_of_list_ascii cs).
Proof.
  split; [|split].
  - intros e. apply gen_token_spec.
  - intros e e' Hsame. unfold gen_token, random_choices. f_equal.
    apply map_ext_in. intros i Hi. apply in_seq in Hi.
    change (length (String.list_ascii_of_string (ascii_uppercase +:+ digits))) with 36%nat.
    rewrite Hsame by lia. reflexivity.
  - intros cs clock stamp Hlen Hall. unfold gen_token, random_choices. f_equal.
    cbn [random_index]. subst n.
    rewrite <- (map_nth_seq cs "A"%char) at 2.
    apply map_ext_in. intros i Hi. apply in_seq in Hi.
    assert (nth i cs "A"%char ∈ String.list_ascii_of_string (ascii_uppercase +:+ digits))
      as Hin.
    { rewrite Forall_forall in Hall. apply Hall, list_elem_of_In, nth_In. lia. }
    destruct (position_spec _ "A"%char _ Hin) as [Hlt Hnth].
    unfold draws_for. rewrite Nat.mod_small by exact Hlt. exact Hnth.
Qed.

Lemma gen_token_codes_witness :
  gen_token (mk_env (mk_time 10 0 0 0) 0 (draws_for (String.list_ascii_of_string "AA77ZZ"))) 6
  = "AA77ZZ".
Proof.
  destruct (gen_token_codes 6) as (_ & _ & Hevery).
  apply (Hevery (String.list_ascii_of_string "AA77ZZ")); [reflexivity|].
  vm_compute. repeat constructor.
Defined.

(** ** Accounts *)

Lemma first_row_None {A} (P : Z * A -> Prop) `{!forall r, Decision (P r)} (t : gmap Z A) :
  head (filter P (query_all t)) = None <-> forall i x, t !! i = Some x -> ~ P (i, x).
Proof.
  unfold query_all. rewrite head_None. split.
  - intros Hnil i x Hx HP.
    assert ((i, x) ∈ filter P (map_to_list t)) as Hin
      by (apply list_elem_of_filter; split; [exact HP | now apply elem_of_map_to_list]).
    rewrite Hnil in Hin. now apply elem_of_nil in Hin.
  - intros Hnone. destruct (filter P (map_to_list t)) as [|[i x] l] eqn:Hf; [reflexivity|].
    assert ((i, x) ∈ filter P (map_to_list t)) as Hin by (rewrite Hf; apply list_elem_of_here).
    apply list_elem_of_filter in Hin as [HP Hin].
    apply elem_of_map_to_list in Hin. now destruct (Hnone i x Hin).
Qed.

Lemma first_row_Some {A} (P : Z * A -> Prop) `{!forall r, Decision (P r)} (t : gmap Z A)
    (i : Z) (x : A) :
  head (filter P (query_all t)) = Some (i, x) -> t !! i = Some x /\ P (i, x).
Proof.
  unfold query_all. intros Hhead.
  assert ((i, x) ∈ filter P (map_to_list t)) as Hin.
  { destruct (filter P (map_to_list t)) as [|y l]; [discriminate|].
    injection Hhead as ->. apply list_elem_of_here. }
  apply list_elem_of_filter in Hin as [HP Hin].
  now apply elem_of_map_to_list in Hin.
Qed.

(** After the insertion of a row that alone satisfies [P], the first row
    that satisfies [P] is that row. *)
Lemma first_row_insert {A} (P : Z * A -> Prop) `{!forall r, Decision (P r)} (t : gmap Z A)
    (k : Z) (x : A) :
  t !! k = None -> P (k, x) ->
  head (filter P (query_all t)) = None ->
  head (filter P (query_all (<[k := x]> t))) = Some (k, x).
Proof.
  unfold query_all. intros Hfree HP Hnone. apply head_None in Hnone.
  assert (filter P (map_to_list (<[k := x]> t)) ≡ₚ [(k, x)]) as Hperm.
  { rewrite (map_to_list_insert _ _ _ Hfree), filter_cons, decide_True by exact HP.
    now rewrite Hnone. }
  apply Permutation_singleton_r in Hperm. now rewrite Hperm.
Qed.

Lemma first_row_exists {A} (P : Z * A -> Prop) `{!forall r, Decision (P r)} (t : gmap Z A)
    (i : Z) (x : A) :
  t !! i = Some x -> P (i, x) -> exists r, head (filter P (query_all t)) = Some r.
Proof.
  intros Hx HP. destruct (head (filter P (query_all t))) as [r|] eqn:Hhead; [eauto|].
  exfalso. eapply (proj1 (first_row_None P t)); eauto.
Qed.

Lemma usernames_unique_insert (users : gmap Z User) (k : Z) (new : User) :
  users !! k = None ->
  (forall i u, users !! i = Some u -> user_username u <> user_username new) ->
  usernames_unique users -> usernames_unique (<[k := new]> users).
Proof.
  intros Hfree Hnew Huniq i j u v Hi Hj Hname.
  rewrite lookup_insert in Hi, Hj. repeat case_decide; simplify_eq; try reflexivity.
  - exfalso. eapply Hnew; eauto.
  - exfalso. eapply Hnew; eauto.
  - eapply Huniq; eauto.
Qed.

Section AccountFacts.
Context `{PyBuiltins} `{Werkzeug}.

(** X17.  A registration that carries both fields: with a username that is
    empty once trimmed, or an empty password, it is refused; with a username
    that some account has, it is refused; in both cases the accounts stay as
    they are.  Otherwise exactly one account is added, under the trimmed
    name, with the role "user" whatever the form holds, the other accounts
    stay as they are, and usernames that were unique stay unique.  In no
    case does the session change: registering does not log in. *)
Theorem register_spec (salt : string) (req : request) (users : gmap Z User)
    (raw pwd : string) :
  method req = POST ->
  form req !! "username" = Some raw ->
  form req !! "password" = Some pwd ->
  session_after (register salt req users) = session req
  /\ (str_strip raw = "" \/ pwd = "" ->
      users_after (register salt req users) = users
      /\ auth_flashed (register salt req users)
         = [("Please provide valid username and password", "danger")])
  /\ (str_strip raw <> "" -> pwd <> "" ->
      (exists i u, users !! i = Some u /\ user_username u = str_strip raw) ->
      users_after (register salt req users) = users
      /\ auth_flashed (register salt req users) = [("Username already exists", "danger")])
  /\ (str_strip raw <> "" -> pwd <> "" ->
      (forall i u, users !! i = Some u -> user_username u <> str_strip raw) ->
      users_after (register salt req users)
      = <[next_id users := mk_user (str_strip raw) (generate_password_hash pwd salt) "user"]>
          users
      /\ users !! next_id users = None
      /\ auth_resp (register salt req users) = redirect_to (at_endpoint url_login)
      /\ (usernames_unique users ->
          usernames_unique (users_after (register salt req users)))).
Proof.
  intros Hm Hu Hp. unfold register. rewrite Hm, Hu, Hp. cbv zeta.
  split; [repeat case_match; reflexivity|]. split; [|split].
  - intros [-> | ->]; [now cbn | now rewrite String.eqb_refl, orb_true_r].
  - intros Hn Hpw (i & u & Hi & Hname).
    apply String.eqb_neq in Hn, Hpw. rewrite Hn, Hpw. cbn [orb].
    destruct (user_by_name users (str_strip raw)) as [r|] eqn:Hfind; [now cbn|].
    exfalso. eapply (proj1 (first_row_None _ users) Hfind); eauto.
  - intros Hn Hpw Hfree.
    apply String.eqb_neq in Hn, Hpw. rewrite Hn, Hpw. cbn [orb].
    assert (user_by_name users (str_strip raw) = None) as ->
      by (apply first_row_None; intros i u Hi; cbn; eauto).
    cbn [users_after auth_resp].
    split; [reflexivity|]. split; [apply next_id_fresh|]. split; [reflexivity|].
    apply usernames_unique_insert; [apply next_id_fresh | exact Hfree].
Qed.
End AccountFacts.

Lemma register_spec_witness :
  users_after (@register cpython toy_werkzeug "ab12" (mk_request ∅ POST carol_form) no_users)
  = <[1 := mk_user "carol" "ab12$s3cret" "user"]> no_users.
Proof.
  destruct (@register_spec cpython toy_werkzeug "ab12" (mk_request ∅ POST carol_form) no_users
              " carol " "s3cret" eq_refl eq_refl eq_refl) as (_ & _ & _ & Hnew).
  destruct Hnew as (Heq & _);
    [vm_compute; discriminate | discriminate | intros i u Hi; discriminate |].
  rewrite Heq. reflexivity.
Defined.

Section LoginFacts.
Context `{PyBuiltins} `{Werkzeug}.

Lemma login_post (req : request) (users : gmap Z User) (raw pwd : string) :
  method req = POST ->
  form req !! "username" = Some raw ->
  form req !! "password" = Some pwd ->
  login req users =
  match user_by_name users (str_strip raw) with
  | Some (_, user) =>
    if check_password_hash (password_hash user) pwd
    then mk_auth_reply
           (redirect_to (if String.eqb (role user) "admin"
                         then url_admin_dashboard
                         else at_endpoint url_student_dashboard))
           [("Login successful", "success")]
           (<["role" := role user]> (<["username" := user_username user]> (session req)))
           users
    else mk_auth_reply (render login_html) [("Invalid credentials", "danger")]
                       (session req) users
  | None => mk_auth_reply (render login_html) [("Invalid credentials", "danger")]
                          (session req) users
  end.
Proof. intros Hm Hu Hp. unfold login. now rewrite Hm, Hu, Hp. Qed.

(** X18.  A login that carries both fields changes the session exactly when
    an account has the trimmed username and its hash checks against the
    password.  Then the session holds that account's username and role, the
    other keys staying, it counts as logged in, it counts as admin exactly
    when the account's role is "admin", and the redirect goes to the
    matching dashboard.  For an unknown username or a password that does not
    check, the session is left as it is and "Invalid credentials" is
    flashed. *)
Theorem login_spec (req : request) (users : gmap Z User) (raw pwd : string) :
  method req = POST ->
  form req !! "username" = Some raw ->
  form req !! "password" = Some pwd ->
  (forall i user,
     user_by_name users (str_strip raw) = Some (i, user) ->
     check_password_hash (password_hash user) pwd = true ->
     users !! i = Some user
     /\ session_after (login req users) !! "username" = Some (user_username user)
     /\ session_after (login req users) !! "role" = Some (role user)
     /\ (forall k, k <> "username" -> k <> "role" ->
           session_after (login req users) !! k = session req !! k)
     /\ is_logged_in (session_after (login req users)) = true
     /\ (is_admin (session_after (login req users)) = true <-> role user = "admin")
     /\ auth_resp (login req users)
        = redirect_to (if is_admin (session_after (login req users))
                       then url_admin_dashboard
                       else at_endpoint url_student_dashboard))
  /\ (user_by_name users (str_strip raw) = None \/
      (exists i user, user_by_name users (str_strip raw) = Some (i, user)
                      /\ check_password_hash (password_hash user) pwd = false) ->
      session_after (login req users) = session req
      /\ auth_resp (login req users) = render login_html
      /\ auth_flashed (login req users) = [("Invalid credentials", "danger")]).
Proof.
  intros Hm Hu Hp. rewrite (login_post req users raw pwd Hm Hu Hp). split.
  - intros i user Hfind Hcheck. rewrite Hfind, Hcheck. cbn [session_after auth_resp].
    apply first_row_Some in Hfind as [Hrow _].
    assert (is_admin (<["role" := role user]>
                        (<["username" := user_username user]> (session req)))
            = String.eqb (role user) "admin") as Hadm.
    { unfold is_admin. rewrite lookup_insert_eq.
      destruct (String.eqb_spec (role user) "admin") as [->|Hne].
      - now apply bool_decide_eq_true_2.
      - apply bool_decide_eq_false_2. congruence. }
    split; [exact Hrow|].
    split; [now rewrite lookup_insert_ne, lookup_insert_eq|].
    split; [now rewrite lookup_insert_eq|].
    split; [intros k Hk1 Hk2; now rewrite !lookup_insert_ne by congruence|].
    split.
    { unfold is_logged_in. apply bool_decide_eq_true_2.
      rewrite lookup_insert_ne, lookup_insert_eq by discriminate. eauto. }
    rewrite Hadm. split; [apply String.eqb_eq | reflexivity].
  - intros [-> | (i & user & -> & ->)]; repeat split.
Qed.

(** X19.  Registering and then logging in with the same password: when the
    registration is accepted, a login with the same username (trimmed
    alike) and password is accepted, provided the hash made at registration
    checks against the password; the session then belongs to the new
    username with role "user", so it is a student's, never an admin's. *)
Theorem register_then_login (salt : string) (req lreq : request) (users : gmap Z User)
    (raw raw' pwd : string) :
  method req = POST ->
  form req !! "username" = Some raw -> form req !! "password" = Some pwd ->
  str_strip raw <> "" -> pwd <> "" ->
  (forall i u, users !! i = Some u -> user_username u <> str_strip raw) ->
  method lreq = POST ->
  form lreq !! "username" = Some raw' -> form lreq !! "password" = Some pwd ->
  str_strip raw' = str_strip raw ->
  check_password_hash (generate_password_hash pwd salt) pwd = true ->
  student_session (session_after (login lreq (users_after (register salt req users))))
                  (str_strip raw)
  /\ auth_resp (login lreq (users_after (register salt req users)))
     = redirect_to (at_endpoint url_student_dashboard).
Proof.
  intros Hm Hu Hp Hn Hpw Hfree Hlm Hlu Hlp Hsame Hlaw.
  assert (users_after (register salt req users)
          = <[next_id users := mk_user (str_strip raw) (generate_password_hash pwd salt) "user"]>
              users) as ->.
  { unfold register. rewrite Hm, Hu, Hp. cbv zeta.
    apply String.eqb_neq in Hn, Hpw. rewrite Hn, Hpw. cbn [orb].
    assert (user_by_name users (str_strip raw) = None) as ->
      by (apply first_row_None; intros i u Hi; cbn; eauto).
    reflexivity. }
  rewrite (login_post lreq _ raw' pwd Hlm Hlu Hlp), Hsame.
  unfold user_by_name.
  rewrite (first_row_insert (fun r : Z * User => user_username r.2 = str_strip raw));
    [|apply next_id_fresh | reflexivity
     |apply first_row_None; intros i u Hi; cbn; eauto].
  cbn [password_hash role user_username]. rewrite Hlaw.
  cbn [session_after auth_resp]. split; [|reflexivity].
  split.
  - now rewrite lookup_insert_ne, lookup_insert_eq.
  - rewrite lookup_insert_eq. discriminate.
Qed.

(** X20.  Logging out empties the session, whoever was logged in, and
    leaves the accounts alone; a request sent with the emptied session, to
    any of the nineteen routes, changes nothing in the menu, the orders and
    the feedback, and nothing in the accounts unless it is a POST to
    [register], which asks for no login; the root page leads to the login
    page. *)
Theorem logout_ends_the_session (req : request) (users : gmap Z User) (r : any_request)
    (s : site) :
  method req = GET ->
  session (sent_with r) = session_after (logout req users) ->
  session_after (logout req users) = ∅
  /\ users_after (logout req users) = users
  /\ store (serve r s) = store s
  /\ (accounts (serve r s) = accounts s
      \/ exists salt rq, r = to_register salt rq /\ method rq = POST)
  /\ root (session_after (logout req users)) = plain (redirect_to (at_endpoint url_login)).
Proof.
  intros Hm Hsess.
  assert (session_after (logout req users) = ∅) as Hempty
    by (unfold logout; now rewrite Hm).
  assert (is_logged_in (session (sent_with r)) = false) as Hanon
    by (now rewrite Hsess, Hempty).
  split; [exact Hempty|]. split; [apply logout_keeps_accounts|].
  split; [|split; [|now rewrite Hempty]].
  - destruct r; cbn [serve store]; try reflexivity. now apply run_anonymous.
  - destruct r as [a|salt rq|rq|rq|rq|rq|rq|id rq|args rq|rq|rq];
      cbn [serve accounts]; try (now left).
    + destruct (register_writes salt rq (accounts s)) as [Hsame | (Hpost & _)];
        [now left | right; eauto].
    + left. apply login_keeps_accounts.
    + left. apply logout_keeps_accounts.
Qed.
End LoginFacts.

Lemma login_spec_witness :
  session_after (@login cpython toy_werkzeug (mk_request ∅ POST carol_form)
                   (<[1 := mk_user "carol" "ab12$s3cret" "user"]> no_users))
  !! "username" = Some "carol".
Proof.
  destruct (@login_spec cpython toy_werkzeug (mk_request ∅ POST carol_form)
              (<[1 := mk_user "carol" "ab12$s3cret" "user"]> no_users) " carol " "s3cret"
              eq_refl eq_refl eq_refl) as [Hok _].
  destruct (Hok 1 (mk_user "carol" "ab12$s3cret" "user")) as (_ & Hname & _);
    [vm_compute; reflexivity | vm_compute; reflexivity |].
  exact Hname.
Defined.

Lemma register_then_login_witness :
  auth_resp (@login cpython toy_werkzeug (mk_request ∅ POST carol_form)
               (users_after (@register cpython toy_werkzeug "ab12"
                               (mk_request ∅ POST carol_form) no_users)))
  = redirect_to (at_endpoint url_student_dashboard).
Proof.
  destruct (@register_then_login cpython toy_werkzeug "ab12" (mk_request ∅ POST carol_form)
              (mk_request ∅ POST carol_form) no_users " carol " " carol " "s3cret")
    as [_ Hresp];
    [reflexivity | reflexivity | reflexivity | vm_compute; discriminate | discriminate
    | intros i u Hi; discriminate | reflexivity | reflexivity | reflexivity | reflexivity
    | vm_compute; reflexivity |].
  exact Hresp.
Defined.

Lemma logout_ends_the_session_witness :
  store (@serve cpython toy_werkzeug
           (to_store (do_cancel_order 1 (post (session_after (logout (get alice) no_users)))))
           (mk_site no_users one_order_db))
  = one_order_db.
Proof.
  destruct (@logout_ends_the_session cpython toy_werkzeug (get alice) no_users
              (to_store (do_cancel_order 1 (post (session_after (logout (get alice) no_users)))))
              (mk_site no_users one_order_db) eq_refl eq_refl) as (_ & _ & Hstore & _).
  exact Hstore.
Defined.

(** ** Start-up *)

Lemma add_row_lookup {A} (t : gmap Z A) (row : A) (i : Z) (x : A) :
  t !! i = Some x -> add_row t row !! i = Some x.
Proof.
  intros Hx. unfold add_row. rewrite lookup_insert_ne; [exact Hx|].
  intros <-. rewrite next_id_fresh in Hx. discriminate.
Qed.

Lemma add_rows_lookup {A} (l : list A) (t : gmap Z A) (i : Z) (x : A) :
  t !! i = Some x -> foldl add_row t l !! i = Some x.
Proof.
  revert t. induction l as [|row l IH]; intros t Hx; [exact Hx|].
  cbn [foldl]. now apply IH, add_row_lookup.
Qed.

Lemma add_rows_size {A} (l : list A) (t : gmap Z A) :
  size (foldl add_row t l) = (size t + length l)%nat.
Proof.
  revert t. induction l as [|row l IH]; intros t; cbn [foldl length]; [lia|].
  rewrite IH. unfold add_row. rewrite map_size_insert_None by apply next_id_fresh. lia.
Qed.

Section StartUp.
Context `{Werkzeug}.

(** X21.  [init_db] fails, keeping nothing, exactly when no admin exists
    and the name "canteen_admin" is taken.  When it succeeds: an admin
    exists afterwards; every account and every menu item that was there is
    still there and unchanged; unique usernames stay unique; the menu is not
    empty, it is the old menu when that was not empty and eight items when
    it was; orders and feedback are untouched; and running [init_db] again
    changes nothing more. *)
Theorem init_db_spec (salt : string) (users : gmap Z User) (db : database) :
  (init_db salt users db = None <->
   first_admin users = None
   /\ exists i u, users !! i = Some u /\ user_username u = "canteen_admin")
  /\ (forall users' db',
        init_db salt users db = Some (users', db') ->
        (exists i a, users' !! i = Some a /\ role a = "admin")
        /\ (forall i u, users !! i = Some u -> users' !! i = Some u)
        /\ (usernames_unique users -> usernames_unique users')
        /\ (forall i it, menu_items db !! i = Some it -> menu_items db' !! i = Some it)
        /\ (menu_items db <> ∅ -> menu_items db' = menu_items db)
        /\ (menu_items db = ∅ -> size (menu_items db') = 8%nat)
        /\ orders db' = orders db /\ feedbacks db' = feedbacks db
        /\ (forall salt', init_db salt' users' db' = Some (users', db'))).
Proof.
  set (items := if bool_decide (size (menu_items db) = 0%nat)
                then foldl add_row (menu_items db) sample else menu_items db).
  assert (size items <> 0%nat) as Hsize.
  { unfold items. case_bool_decide as Hz; [|exact Hz]. rewrite add_rows_size. cbn. lia. }
  assert (forall i it, menu_items db !! i = Some it -> items !! i = Some it) as Hkept.
  { intros i it Hit. unfold items. case_bool_decide; [now apply add_rows_lookup | exact Hit]. }
  assert (forall us salt',
            (exists r, first_admin us = Some r) ->
            init_db salt' us (mk_db items (orders db) (feedbacks db))
            = Some (us, mk_db items (orders db) (feedbacks db))) as Hagain.
  { intros us salt' [r Hr]. unfold init_db. rewrite Hr. cbn [menu_items orders feedbacks].
    now rewrite bool_decide_eq_false_2. }
  assert (forall users' db',
            (exists i a, users' !! i = Some a /\ role a = "admin") ->
            (forall i u, users !! i = Some u -> users' !! i = Some u) ->
            (usernames_unique users -> usernames_unique users') ->
            db' = mk_db items (orders db) (feedbacks db) ->
            (exists i a, users' !! i = Some a /\ role a = "admin")
            /\ (forall i u, users !! i = Some u -> users' !! i = Some u)
            /\ (usernames_unique users -> usernames_unique users')
            /\ (forall i it, menu_items db !! i = Some it -> menu_items db' !! i = Some it)
            /\ (menu_items db <> ∅ -> menu_items db' = menu_items db)
            /\ (menu_items db = ∅ -> size (menu_items db') = 8%nat)
            /\ orders db' = orders db /\ feedbacks db' = feedbacks db
            /\ (forall salt', init_db salt' users' db' = Some (users', db'))) as Hall.
  { intros users' db' Hadm Hus Huniq ->. cbn [menu_items orders feedbacks].
    split; [exact Hadm|]. split; [exact Hus|]. split; [exact Huniq|].
    split; [exact Hkept|]. split; [|split; [|split; [reflexivity|split; [reflexivity|]]]].
    - intros Hne. unfold items. rewrite bool_decide_eq_false_2; [reflexivity|].
      now rewrite map_size_empty_iff.
    - intros Hempty. unfold items. rewrite Hempty, bool_decide_eq_true_2 by reflexivity.
      now rewrite add_rows_size.
    - intros salt'. apply Hagain. destruct Hadm as (i & a & Hi & Hrole).
      apply (first_row_exists (fun r : Z * User => role r.2 = "admin") users' i a Hi Hrole). }
  unfold init_db. fold items.
  destruct (first_admin users) as [[i a]|] eqn:Hadmin.
  - split; [split; [discriminate | intros [? _]; discriminate]|].
    intros users' db' [= <- <-]. apply Hall; auto.
    apply first_row_Some in Hadmin as [Hi Hrole]. eauto.
  - destruct (user_by_name users "canteen_admin") as [[j v]|] eqn:Hname.
    + split; [|discriminate]. split; [|reflexivity].
      intros _. split; [reflexivity|].
      apply first_row_Some in Hname as [Hj Hv]. eauto.
    + pose proof (proj1 (first_row_None _ users) Hname) as Hfree.
      split.
      { split; [discriminate|]. intros (_ & k & w & Hk & Hw). now destruct (Hfree k w Hk). }
      intros users' db' [= <- <-]. apply Hall; auto.
      * exists (next_id users). eexists. unfold add_row. rewrite lookup_insert_eq. eauto.
      * intros k w Hk. now apply add_row_lookup.
      * apply usernames_unique_insert; [apply next_id_fresh | exact Hfree].
Qed.
End StartUp.

Lemma init_db_spec_witness :
  @init_db toy_werkzeug "zz99" (add_row no_users (mk_user "canteen_admin" "ab12$admin123" "admin"))
    (mk_db (foldl add_row ∅ sample) ∅ ∅)
  = Some (add_row no_users (mk_user "canteen_admin" "ab12$admin123" "admin"),
          mk_db (foldl add_row ∅ sample) ∅ ∅).
Proof.
  destruct (@init_db_spec toy_werkzeug "ab12" no_users empty_db) as [_ Hok].
  destruct (Hok (add_row no_users (mk_user "canteen_admin" "ab12$admin123" "admin"))
               (mk_db (foldl add_row ∅ sample) ∅ ∅)) as (_ & _ & _ & _ & _ & _ & _ & _ & Hagain);
    [vm_compute; reflexivity|].
  exact (Hagain "zz99").
Defined.

(** ** Lists of orders *)

#[local] Instance by_created_at_desc_total : Total by_created_at_desc.
Proof. intros a b. unfold by_created_at_desc. lia. Qed.

#[local] Instance by_created_at_desc_trans : Transitive by_created_at_desc.
Proof. intros a b c. unfold by_created_at_desc. lia. Qed.

Lemma elem_of_orders_by_status (db : database) (f : option string) (id : Z) (o : Order) :
  (id, o) ∈ orders_by_status db f <->
  orders db !! id = Some o /\ (forall s, f = Some s -> status o = s).
Proof.
  unfold orders_by_status, query_all. destruct f as [s|].
  - rewrite merge_sort_Permutation, list_elem_of_filter, elem_of_map_to_list. cbn.
    split; [intros [Hs Ho]; split; [exact Ho | congruence] | intros [Ho Hs]; auto].
  - rewrite merge_sort_Permutation, elem_of_map_to_list.
    split; [intros Ho; split; [exact Ho | discriminate] | tauto].
Qed.

Lemma orders_by_status_sorted (db : database) (f : option string) :
  StronglySorted by_created_at_desc (orders_by_status db f)
  /\ NoDup (orders_by_status db f).
Proof.
  unfold orders_by_status, query_all. destruct f as [s|]; split;
    try apply StronglySorted_merge_sort; try apply _;
    rewrite merge_sort_Permutation;
    [apply NoDup_filter|]; apply NoDup_map_to_list.
Qed.

(** X22.  The admin's list of orders: with a non-empty [status] in the
    query string it holds exactly the orders with that status, each once;
    with none, or an empty one, it holds every order, each once; in both
    cases newest first.  Whoever is not an admin is sent to the login
    page. *)
Theorem admin_orders_lists (args : gmap string string) (req : request) (db : database) :
  (is_logged_in (session req) = false \/ is_admin (session req) = false ->
     admin_orders args req db = plain (redirect_to (at_endpoint url_login)))
  /\ (forall u, admin_session (session req) u ->
        exists l,
          admin_orders args req db = plain (render (admin_orders_html l (args !! "status")))
          /\ StronglySorted by_created_at_desc l
          /\ NoDup l
          /\ (forall id o, (id, o) ∈ l <->
                orders db !! id = Some o
                /\ (forall s, args !! "status" = Some s -> s <> "" -> status o = s))).
Proof.
  split.
  - intros Hno. unfold admin_orders.
    destruct Hno as [-> | ->]; [reflexivity | now rewrite orb_true_r].
  - intros u Ha. destruct (admin_is_admin _ _ Ha) as [Hl Hadm].
    unfold admin_orders. rewrite Hl, Hadm. cbn [negb orb]. cbv zeta.
    eexists. split; [reflexivity|].
    destruct (orders_by_status_sorted db
                (if truthy (args !! "status") then args !! "status" else None))
      as [Hsorted Hnodup].
    split; [exact Hsorted|]. split; [exact Hnodup|].
    intros id o. rewrite elem_of_orders_by_status.
    destruct (args !! "status") as [s|]; cbn [truthy].
    + destruct (String.eqb_spec s "") as [->|Hne]; cbn [negb].
      * split; intros [Ho Hs]; (split; [exact Ho|]); [intros s [= <-]; congruence|discriminate].
      * split; intros [Ho Hs]; (split; [exact Ho|]).
        -- intros s' [= <-] _. now apply Hs.
        -- intros s' [= <-]. now apply Hs.
    + split; intros [Ho Hs]; (split; [exact Ho|]); discriminate.
Qed.

Lemma admin_orders_lists_witness :
  exists l,
    admin_orders (<["status" := "Ready"]> ∅) (get the_admin) history_db
    = plain (render (admin_orders_html l (Some "Ready")))
    /\ map fst l = [4; 3].
Proof.
  destruct (admin_orders_lists (<["status" := "Ready"]> ∅) (get the_admin) history_db)
    as [_ Hadm].
  destruct (Hadm "canteen_admin") as (l & Heq & _); [session_facts|].
  exists l. split; [exact Heq|].
  vm_compute in Heq. injection Heq as <-. reflexivity.
Defined.

Lemma order_row_sorted (with_username : bool) (l : list (Z * Order)) :
  StronglySorted by_created_at_desc l ->
  StronglySorted rows_newest_first (map (order_row with_username) l).
Proof.
  induction 1 as [|r l _ IH Hall]; cbn [map]; constructor; [exact IH|].
  apply Forall_map. eapply Forall_impl; [exact Hall|]. intros r' Hr'. exact Hr'.
Qed.

(** X23.  The student's JSON list holds one row for each of the caller's
    own orders and no row of anybody else's order, newest first, each row
    with the order's fields and without a username; the admin's JSON list
    holds one row for every order, with the owner's username.  The student's
    list is refused (403) to admins and to anonymous callers, the admin's to
    everybody but admins. *)
Theorem api_lists (req : request) (db : database) :
  method req = GET ->
  (is_logged_in (session req) = false \/ is_admin (session req) = true ->
     api_orders req db = plain json_not_authorized)
  /\ (is_logged_in (session req) = false \/ is_admin (session req) = false ->
      api_admin_orders req db = plain json_not_authorized)
  /\ (forall u, student_session (session req) u ->
        exists rows,
          api_orders req db = plain (json_list rows)
          /\ StronglySorted rows_newest_first rows
          /\ length rows
             = length (filter (fun r : Z * Order => username r.2 = u) (map_to_list (orders db)))
          /\ (forall row, row ∈ rows <->
                exists o, orders db !! j_id row = Some o /\ username o = u
                          /\ row = order_row false (j_id row, o)))
  /\ (forall u, admin_session (session req) u ->
        exists rows,
          api_admin_orders req db = plain (json_list rows)
          /\ StronglySorted rows_newest_first rows
          /\ length rows = size (orders db)
          /\ (forall row, row ∈ rows <->
                exists o, orders db !! j_id row = Some o
                          /\ row = order_row true (j_id row, o))).
Proof.
  intros Hm. split; [|split; [|split]].
  - intros Hno. unfold api_orders. rewrite Hm.
    destruct Hno as [-> | ->]; [reflexivity | now rewrite orb_true_r].
  - intros Hno. unfold api_admin_orders. rewrite Hm.
    destruct Hno as [-> | ->]; [reflexivity | now rewrite orb_true_r].
  - intros u Hs. unfold api_orders. rewrite Hm, (student_gate _ _ Hs).
    destruct Hs as [-> _]. eexists. split; [reflexivity|].
    split; [apply order_row_sorted; unfold orders_of;
            apply StronglySorted_merge_sort; apply _|].
    split.
    { rewrite length_map. unfold orders_of, query_all.
      now rewrite merge_sort_Permutation. }
    intros row. rewrite list_elem_of_fmap. split.
    + intros ([id o] & -> & Hin). apply elem_of_orders_of in Hin as [Ho Hu].
      exists o. cbn [order_row j_id fst]. auto.
    + intros (o & Ho & Hu & Hrow). exists (j_id row, o).
      split; [exact Hrow | now apply elem_of_orders_of].
  - intros u Ha. destruct (admin_is_admin _ _ Ha) as [Hl Hadm].
    unfold api_admin_orders. rewrite Hm, Hl, Hadm. cbn [negb orb].
    eexists. split; [reflexivity|].
    split; [apply order_row_sorted, StronglySorted_merge_sort; apply _|].
    split.
    { rewrite length_map. unfold query_all.
      now rewrite merge_sort_Permutation, length_map_to_list. }
    intros row. rewrite list_elem_of_fmap. unfold query_all. split.
    + intros ([id o] & -> & Hin). rewrite merge_sort_Permutation in Hin.
      apply elem_of_map_to_list in Hin. exists o. cbn [order_row j_id fst]. auto.
    + intros (o & Ho & Hrow). exists (j_id row, o).
      split; [exact Hrow|]. rewrite merge_sort_Permutation.
      now apply elem_of_map_to_list.
Qed.

Lemma api_lists_witness :
  exists rows,
    api_orders (get alice) history_db = plain (json_list rows)
    /\ map j_id rows = [3; 2; 1].
Proof.
  destruct (api_lists (get alice) history_db eq_refl) as (_ & _ & Hstudent & _).
  destruct (Hstudent "alice") as (rows & Heq & _); [session_facts|].
  exists rows. split; [exact Heq|].
  vm_compute in Heq. injection Heq as <-. reflexivity.
Defined.

(** X24.  A student gets the receipt page of an order exactly when the
    order exists and is the student's own; for another user's order the
    reply is the "Not authorized" flash; for a missing one it is a 404 when
    the id is one the store can be asked about (below 2^63), and a server
    error beyond, the driver's [OverflowError] being handled nowhere; an
    admin is sent to the login page, the owner-or-admin test below the gate
    never being reached by one. *)
Theorem order_receipt_is_private (id : Z) (req : request) (db : database) :
  method req = GET ->
  (is_admin (session req) = true ->
     order_receipt id req db = plain (redirect_to (at_endpoint url_login)))
  /\ (forall u, student_session (session req) u ->
        (forall o, order_receipt id req db = plain (render (order_receipt_html (id, o))) <->
                   orders db !! id = Some o /\ username o = u)
        /\ (orders db !! id = None -> 0 <= id < 2 ^ 63 ->
              order_receipt id req db = plain (http_error 404))
        /\ (orders db !! id = None -> 2 ^ 63 <= id ->
              order_receipt id req db = plain (http_error 500))
        /\ (forall o, orders db !! id = Some o -> username o <> u ->
              order_receipt id req db
              = (redirect_to (at_endpoint url_student_dashboard),
                 [("Not authorized", "danger")]))).
Proof.
  intros Hm. split.
  - intros Hadm. unfold order_receipt. now rewrite Hm, Hadm, orb_true_r.
  - intros u Hs. unfold order_receipt. rewrite Hm, (student_gate _ _ Hs).
    destruct Hs as [Hu Hrole]. rewrite Hu.
    unfold is_admin. rewrite (bool_decide_eq_false_2 _ Hrole). cbn [negb andb].
    split; [|split; [|split]].
    + intros o. destruct (orders db !! id) as [o'|]; [|split; [discriminate | intros [? _]; discriminate]].
      destruct (String.eqb_spec (username o') u) as [Heq|Hne]; cbn [negb].
      * split; [intros [= <-]; auto | intros [[= <-] _]; reflexivity].
      * split; [discriminate | intros [[= <-] ?]; congruence].
    + intros -> Hid. now rewrite sqlite_integer_id.
    + intros -> Hid. now rewrite sqlite_integer_beyond.
    + intros o -> Hne. apply String.eqb_neq in Hne. now rewrite Hne.
Qed.

Lemma order_receipt_is_private_witness :
  order_receipt 1 (get bob) one_order_db
  = (redirect_to (at_endpoint url_student_dashboard), [("Not authorized", "danger")])
  /\ order_receipt 2 (get bob) one_order_db = plain (http_error 404).
Proof.
  split.
  - destruct (order_receipt_is_private 1 (get bob) one_order_db eq_refl) as [_ Hstudent].
    destruct (Hstudent "bob") as (_ & _ & _ & Hother); [session_facts|].
    apply (Hother alice_order); [reflexivity | discriminate].
  - destruct (order_receipt_is_private 2 (get bob) one_order_db eq_refl) as [_ Hstudent].
    destruct (Hstudent "bob") as (_ & Hmiss & _); [session_facts|].
    apply Hmiss; [reflexivity | lia].
Defined.

(** ** Cancelled is not the end *)

Section Reopen.
Context `{PyBuiltins}.

Lemma admin_update_order_sets (req : request) (db : database) (u oid st : string) (n : Z) :
  method req = POST ->
  admin_session (session req) u ->
  form req !! "order_id" = Some oid -> oid <> "" ->
  form req !! "status" = Some st -> st <> "" ->
  py_int oid = Some n ->
  admin_update_order req db =
  match orders db !! n with
  | Some o =>
    flash_redirect "Order status updated successfully" "success" url_admin_orders
      (mk_db (menu_items db) (<[n := set_status st o]> (orders db)) (feedbacks db))
  | None =>
    if sqlite_integer n
    then flash_redirect "Order not found" "warning" url_admin_orders db
    else flash_redirect ("Failed to update order: " +:+ overflow_message)
                        "danger" url_admin_orders db
  end.
Proof.
  intros Hm Ha Hoid Hoidne Hst Hstne Hint.
  destruct (admin_is_admin _ _ Ha) as [Hl Hadm].
  unfold admin_update_order. rewrite Hm, Hl, Hadm. cbv zeta. rewrite Hoid, Hst.
  apply String.eqb_neq in Hoidne, Hstne.
  cbn [negb orb truthy default]. rewrite Hoidne, Hstne.
  cbn [negb andb]. unfold id. now rewrite Hint.
Qed.

(** X25.  A cancellation can be taken back by an admin: after the owner has
    cancelled a Pending order, an admin's update to "Pending" restores the
    database as it was before the cancellation, and the owner can cancel the
    order again. *)
Theorem cancelled_order_can_be_reopened (id : Z) (sreq areq : request) (db : database)
    (u a oid : string) (o : Order) :
  student_session (session sreq) u -> method sreq = POST ->
  orders db !! id = Some o -> username o = u -> status o = "Pending" ->
  admin_session (session areq) a -> method areq = POST ->
  form areq !! "order_id" = Some oid -> oid <> "" -> py_int oid = Some id ->
  form areq !! "status" = Some "Pending" ->
  status <$> orders (db_after (cancel_order id sreq db)) !! id = Some "Cancelled"
  /\ db_after (admin_update_order areq (db_after (cancel_order id sreq db))) = db
  /\ resp (cancel_order id sreq
             (db_after (admin_update_order areq (db_after (cancel_order id sreq db)))))
     = jsonify json_ok 200.
Proof.
  intros Hs Hsm Ho Hu Hp Ha Ham Hoid Hoidne Hint Hst.
  assert (forall d, orders d !! id = Some o ->
            cancel_order id sreq d
            = respond (jsonify json_ok 200)
                (mk_db (menu_items d) (<[id := set_status "Cancelled" o]> (orders d))
                       (feedbacks d))) as Hcancel.
  { intros d Hd. rewrite (cancel_order_student id sreq d u o Hs Hsm Hd).
    apply String.eqb_eq in Hu, Hp. now rewrite Hu, Hp. }
  assert (db_after (admin_update_order areq (db_after (cancel_order id sreq db))) = db)
    as Hback.
  { rewrite (Hcancel db Ho). unfold respond. cbn [db_after].
    rewrite (admin_update_order_sets areq _ a oid "Pending" id Ham Ha Hoid Hoidne Hst
               ltac:(discriminate) Hint).
    cbn [orders]. rewrite lookup_insert_eq.
    unfold flash_redirect. cbn [db_after menu_items orders feedbacks].
    rewrite insert_insert_eq.
    assert (set_status "Pending" (set_status "Cancelled" o) = o) as ->
      by (destruct o; cbn in *; now subst).
    rewrite insert_id by exact Ho. now destruct db. }
  split; [|split; [exact Hback|]].
  - rewrite (Hcancel db Ho). unfold respond. cbn [db_after orders].
    now rewrite lookup_insert_eq.
  - rewrite Hback. now rewrite (Hcancel db Ho).
Qed.
End Reopen.

Lemma cancelled_order_can_be_reopened_witness :
  db_after (@admin_update_order cpython reopen_request
              (db_after (cancel_order 1 (post alice) one_order_db)))
  = one_order_db.
Proof.
  destruct (@cancelled_order_can_be_reopened cpython 1 (post alice) reopen_request one_order_db
              "alice" "canteen_admin" "1" alice_order) as (_ & Hback & _);
    [session_facts | reflexivity | reflexivity | reflexivity | reflexivity | session_facts
    | reflexivity | reflexivity | discriminate | reflexivity | reflexivity |].
  exact Hback.
Defined.

(** ** What the forms refuse *)

Section Refusals.
Context `{PyBuiltins}.

(** X26.  [submit_feedback] stores nothing unless the rating reads as an
    integer from 1 to 5: a missing rating counts as 0 and is refused with
    the range message, like any integer outside 1..5; a rating that [int]
    does not read is a server error. *)
Theorem submit_feedback_refusals (id : Z) (req : request) (e : env) (db : database)
    (u : string) :
  student_session (session req) u ->
  method req = POST ->
  (form req !! "rating" = None ->
     submit_feedback id req e db
     = flash_redirect "Please provide a rating between 1 and 5" "danger" url_menu db)
  /\ (forall s r, form req !! "rating" = Some s -> py_int s = Some r -> r < 1 \/ 5 < r ->
        submit_feedback id req e db
        = flash_redirect "Please provide a rating between 1 and 5" "danger" url_menu db)
  /\ (forall s, form req !! "rating" = Some s -> py_int s = None ->
        submit_feedback id req e db = respond (internal_server_error ValueError) db)
  /\ (db_after (submit_feedback id req e db) <> db ->
      exists s r, form req !! "rating" = Some s /\ py_int s = Some r /\ 1 <= r <= 5).
Proof.
  intros Hs Hm. unfold submit_feedback. rewrite Hm, (student_gate _ _ Hs).
  destruct Hs as [-> _]. split; [|split; [|split]].
  - now intros ->.
  - intros s r -> -> Hr.
    destruct (Z.ltb_spec r 1); [reflexivity|].
    destruct (Z.ltb_spec 5 r); [reflexivity | lia].
  - now intros s -> ->.
  - destruct (form req !! "rating") as [s|]; [|now intros Hch].
    destruct (py_int s) as [r|] eqn:Hint; [|now intros Hch].
    destruct (Z.ltb_spec r 1); [now intros Hch|].
    destruct (Z.ltb_spec 5 r); [now intros Hch|].
    intros _. exists s, r. repeat split; auto; lia.
Qed.

(** X27.  [admin_update_order] changes nothing unless the order id reads as
    the integer of an existing order and the status is not empty: a missing
    or empty id or status gives the bare redirect; an id that [int] does not
    read, and an id beyond 64 bits, which the store cannot look up, give one
    flash of category danger that starts with "Failed to update order: ",
    followed by the text of the error, and the redirect to the orders page;
    any change made is the new status of one existing order. *)
Theorem admin_update_order_refusals (req : request) (db : database) (u : string) :
  method req = POST ->
  admin_session (session req) u ->
  (truthy (form req !! "order_id") = false \/ truthy (form req !! "status") = false ->
     admin_update_order req db = respond (redirect url_admin_orders) db)
  /\ (forall oid st, form req !! "order_id" = Some oid -> oid <> "" ->
        form req !! "status" = Some st -> st <> "" -> py_int oid = None ->
        admin_update_order req db
        = flash_redirect ("Failed to update order: " +:+ int_error oid) "danger"
                         url_admin_orders db)
  /\ (forall oid st n, form req !! "order_id" = Some oid -> oid <> "" ->
        form req !! "status" = Some st -> st <> "" -> py_int oid = Some n ->
        orders db !! n = None -> n < - 2 ^ 63 \/ 2 ^ 63 <= n ->
        exists msg,
          admin_update_order req db
          = flash_redirect ("Failed to update order: " +:+ msg) "danger"
                           url_admin_orders db)
  /\ (db_after (admin_update_order req db) <> db ->
      exists oid st n o,
        form req !! "order_id" = Some oid /\ py_int oid = Some n
        /\ form req !! "status" = Some st /\ st <> ""
        /\ orders db !! n = Some o
        /\ db_after (admin_update_order req db)
           = mk_db (menu_items db) (<[n := set_status st o]> (orders db)) (feedbacks db)).
Proof.
  intros Hm Ha. destruct (admin_is_admin _ _ Ha) as [Hl Hadm].
  unfold admin_update_order. rewrite Hm, Hl, Hadm. cbn [negb orb]. cbv zeta.
  split; [|split; [|split]].
  - intros [-> | ->]; [reflexivity | now rewrite andb_false_r].
  - intros oid st -> Hoid -> Hst Hint.
    apply String.eqb_neq in Hoid, Hst. cbn [truthy default]. rewrite Hoid, Hst.
    cbn [negb andb]. unfold id. now rewrite Hint.
  - intros oid st n -> Hoid -> Hst Hint Hnone Hn.
    apply String.eqb_neq in Hoid, Hst. cbn [truthy default]. rewrite Hoid, Hst.
    cbn [negb andb]. unfold id. rewrite Hint, Hnone.
    assert (sqlite_integer n = false) as ->
      by (apply not_true_is_false; rewrite sqlite_integer_spec; lia).
    now exists overflow_message.
  - destruct (form req !! "order_id") as [oid|]; [|now intros Hch].
    destruct (form req !! "status") as [st|]; cbn [truthy default];
      [|rewrite andb_false_r; now intros Hch].
    destruct (String.eqb_spec oid "") as [->|Hoid]; [now intros Hch|].
    destruct (String.eqb_spec st "") as [->|Hst]; [now intros Hch|].
    cbn [negb andb]. unfold id.
    destruct (py_int oid) as [n|] eqn:Hint; [|now intros Hch].
    destruct (orders db !! n) as [o|] eqn:Ho;
      [|destruct (sqlite_integer n); now intros Hch].
    intros _. exists oid, st, n, o. repeat split; auto.
Qed.
End Refusals.

Lemma submit_feedback_refusals_witness :
  @submit_feedback cpython 1 (post alice) ten_o_clock canteen_db
  = flash_redirect "Please provide a rating between 1 and 5" "danger" url_menu canteen_db.
Proof.
  destruct (@submit_feedback_refusals cpython 1 (post alice) ten_o_clock canteen_db "alice")
    as [Hmissing _]; [session_facts | reflexivity |].
  apply Hmissing. reflexivity.
Defined.

Lemma admin_update_order_refusals_witness :
  @admin_update_order cpython (admin_form the_admin [("order_id", "x1"); ("status", "Ready")])
                      one_order_db
  = flash_redirect "Failed to update order: invalid literal for int() with base 10: 'x1'"
                   "danger" url_admin_orders one_order_db.
Proof.
  destruct (@admin_update_order_refusals cpython
              (admin_form the_admin [("order_id", "x1"); ("status", "Ready")])
              one_order_db "canteen_admin") as (_ & Hbad & _); [reflexivity | session_facts |].
  rewrite (Hbad "x1" "Ready"); [reflexivity | reflexivity | discriminate | reflexivity
                               | discriminate | reflexivity].
Defined.

(** ** The menu page *)

#[local] Instance by_name_then_id_total : Total by_name_then_id.
Proof.
  intros a b. unfold by_name_then_id.
  rewrite (String.compare_antisym (name b.2) (name a.2)).
  destruct (String.compare (name a.2) (name b.2)); cbn [CompOpp]; auto. lia.
Qed.

Lemma by_name_then_id_by_name (a b : Z * MenuItem) : by_name_then_id a b -> by_name a b.
Proof.
  unfold by_name_then_id, by_name, String.leb.
  now destruct (String.compare (name a.2) (name b.2)).
Qed.

Lemma Sorted_by_name (l : list (Z * MenuItem)) : Sorted by_name_then_id l -> Sorted by_name l.
Proof.
  induction 1 as [|x l _ IH Hhd]; constructor; [exact IH|].
  destruct Hhd; constructor. now apply by_name_then_id_by_name.
Qed.

Lemma menu_loop_available `{PyBuiltins} (db : database) (cur : time)
    (items : list (Z * MenuItem)) (ds : list menu_entry) :
  menu_loop db cur items = Ok ds ->
  map item ds = items
  /\ Forall (fun d => in_availability (item d).2 cur = Ok (available_now d)) ds.
Proof.
  revert ds. induction items as [|it items IH]; intros ds Hloop.
  - injection Hloop as <-. split; [reflexivity | constructor].
  - cbn [menu_loop] in Hloop. unfold menu_item_data in Hloop.
    destruct (in_availability it.2 cur) as [b|x] eqn:Hav; [|discriminate].
    destruct (menu_loop db cur items) as [ds'|x]; [|discriminate].
    injection Hloop as <-. destruct (IH ds' eq_refl) as [Hitems Hall].
    split; [cbn [map item]; now rewrite Hitems|].
    constructor; [exact Hav | exact Hall].
Qed.

(** X28.  For a student, when no item has a malformed window, the menu
    page is rendered and lists every item of the menu, each once, sold at the
    moment or not, in the order of the names; the mark "available now" of an
    entry is the answer of [in_availability] for that item at the time of
    the request. *)
Theorem menu_lists_every_item `{PyBuiltins} (req : request) (e : env) (db : database)
    (u : string) :
  student_session (session req) u ->
  method req = GET ->
  (forall id it, menu_items db !! id = Some it ->
                 exists b, in_availability it (now e) = Ok b) ->
  exists ds,
    menu req e db = respond (render_template (menu_html ds)) db
    /\ Sorted by_name (map item ds)
    /\ map item ds ≡ₚ map_to_list (menu_items db)
    /\ Forall (fun d => in_availability (item d).2 (now e) = Ok (available_now d)) ds.
Proof.
  intros Hs Hm Hav.
  destruct (menu_loop_ok db (now e)
              (merge_sort by_name_then_id (query_all (menu_items db))))
    as (ds & Hloop & _).
  { apply Forall_forall. intros [id it] Hin.
    rewrite merge_sort_Permutation in Hin.
    apply elem_of_map_to_list in Hin. now apply (Hav id). }
  destruct (menu_loop_available _ _ _ _ Hloop) as [Hitems Hall].
  exists ds. unfold menu. rewrite Hm, (student_gate _ _ Hs), Hloop, Hitems.
  split; [reflexivity|]. split; [apply Sorted_by_name, Sorted_merge_sort; apply _|].
  split; [apply merge_sort_Permutation | exact Hall].
Qed.

Lemma menu_lists_every_item_witness :
  exists ds,
    @menu cpython (get alice) (mk_env (mk_time 12 0 0 0) 0 (fun i => i)) rated_db
    = respond (render_template (menu_html ds)) rated_db
    /\ map (fun d => (name (item d).2, available_now d)) ds
       = [("Dosa", false); ("Idli", false); ("Samosa", true)].
Proof.
  destruct (@menu_lists_every_item cpython (get alice)
              (mk_env (mk_time 12 0 0 0) 0 (fun i => i)) rated_db "alice")
    as (ds & Heq & _); [session_facts | reflexivity | |].
  - intros id it Hin. table_rows Hin; eexists; vm_compute; reflexivity.
  - exists ds. split; [exact Heq|].
    vm_compute in Heq. injection Heq as <-. reflexivity.
Defined.

(** ** After the login *)

Section Landing.
Context `{PyBuiltins} `{Werkzeug}.

(** X29.  An accepted login lands where the session is let in: the
    dashboard it redirects to renders for the new session, the other
    dashboard sends that session to the login page, and the root page
    redirects to the same dashboard as the login did. *)
Theorem login_lands_on_own_dashboard (req dreq : request) (users : gmap Z User)
    (raw pwd : string) (i : Z) (user : User) :
  method req = POST ->
  form req !! "username" = Some raw ->
  form req !! "password" = Some pwd ->
  user_by_name users (str_strip raw) = Some (i, user) ->
  check_password_hash (password_hash user) pwd = true ->
  session dreq = session_after (login req users) ->
  method dreq = GET ->
  (plain (auth_resp (login req users)) = root (session dreq))
  /\ (role user = "admin" ->
      admin_dashboard dreq = plain (render admin_dashboard_html)
      /\ student_dashboard dreq = plain (redirect_to (at_endpoint url_login)))
  /\ (role user <> "admin" ->
      student_dashboard dreq = plain (render student_dashboard_html)
      /\ admin_dashboard dreq = plain (redirect_to (at_endpoint url_login))).
Proof.
  intros Hm Hu Hp Hfind Hcheck Hsess Hget.
  rewrite (login_post req users raw pwd Hm Hu Hp), Hfind, Hcheck in *.
  cbn [session_after auth_resp] in *.
  assert (is_logged_in (session dreq) = true) as Hl.
  { rewrite Hsess. unfold is_logged_in. apply bool_decide_eq_true_2.
    rewrite lookup_insert_ne, lookup_insert_eq by discriminate. eauto. }
  assert (is_admin (session dreq) = String.eqb (role user) "admin") as Hadm.
  { rewrite Hsess. unfold is_admin. rewrite lookup_insert_eq.
    destruct (String.eqb_spec (role user) "admin") as [->|Hne].
    - now apply bool_decide_eq_true_2.
    - apply bool_decide_eq_false_2. congruence. }
  unfold root, admin_dashboard, student_dashboard. rewrite Hget, Hl, Hadm.
  split; [now destruct (String.eqb (role user) "admin")|]. split.
  - intros Hrole. apply String.eqb_eq in Hrole. now rewrite Hrole.
  - intros Hrole. apply String.eqb_neq in Hrole. now rewrite Hrole.
Qed.
End Landing.

Lemma login_lands_on_own_dashboard_witness :
  student_dashboard
    (get (session_after (@login cpython toy_werkzeug (mk_request ∅ POST carol_form)
                           (<[1 := mk_user "carol" "ab12$s3cret" "user"]> no_users))))
  = plain (render student_dashboard_html).
Proof.
  destruct (@login_lands_on_own_dashboard cpython toy_werkzeug (mk_request ∅ POST carol_form)
              (get (session_after (@login cpython toy_werkzeug (mk_request ∅ POST carol_form)
                                     (<[1 := mk_user "carol" "ab12$s3cret" "user"]> no_users))))
              (<[1 := mk_user "carol" "ab12$s3cret" "user"]> no_users)
              " carol " "s3cret" 1 (mk_user "carol" "ab12$s3cret" "user"))
    as (_ & _ & Hstudent);
    [reflexivity | reflexivity | reflexivity | vm_compute; reflexivity
    | vm_compute; reflexivity | reflexivity | reflexivity |].
  apply Hstudent. discriminate.
Defined.
